(** * s2j: dependency-ordered, resumable, memoised translation of stored procedures

    A shallow embedding of [ai.py] (the memoising LLM wrapper) and [main.py]
    (call-graph construction and the resumable executor), followed by the
    properties established about them.

    Conventions.
    - A Python [str] is a [string] holding its UTF-8 bytes.
    - A Python [set] of strings is a [gset string]; a [dict] whose iteration
      order is observable is an insertion-ordered association list ([odict]);
      a [dict] that is only looked up is a [gmap].
    - Values decoded from JSON are elements of [json]; the dynamically typed
      operations applied to them ([.get], iteration, indexing) are written out
      with the exception each one raises on the wrong kind of value.
    - Code that can raise returns a [result]; code with side effects threads
      the state explicitly. *)

From Stdlib Require Import ZArith NArith List String Ascii DecimalString.
From stdpp Require Import base gmap strings list sorting.

Local Open Scope Z_scope.
Set Warnings "-register-all,-clear-no-such-hyp".


(** ** Python built-ins used by the program *)

Module Py.

(** Exceptions that reach the top level (nothing in the program catches). *)
Inductive exn : Type :=
| IOError            (* open()/read()/makedirs() failed *)
| ServiceError       (* the chat-completion request raised *)
| JSONDecodeError    (* json.loads rejected the text *)
| TypeError
| KeyError
| AttributeError
| IndexError
| RecursionError.    (* interpreter recursion limit reached *)

Inductive result (A : Type) : Type :=
| Ok (a : A)
| Raise (e : exn).
Global Arguments Ok {A} a.
Global Arguments Raise {A} e.

Definition dquote : string := String "034"%char "".
Definition backslash : string := String "092"%char "".

(** [s.endswith(suf)]: some tail of [s] is [suf]. *)
Fixpoint endswith (s suf : string) : bool :=
  String.eqb s suf ||
  match s with
  | EmptyString => false
  | String _ r => endswith r suf
  end.

(** [s.split(sep)[0]] for a one-character separator. *)
Fixpoint split_first (sep : ascii) (s : string) : string :=
  match s with
  | EmptyString => EmptyString
  | String c r => if Ascii.eqb c sep then EmptyString else String c (split_first sep r)
  end.

(** [posixpath.basename]: what follows the last slash. *)
Fixpoint basename_from (cur p : string) : string :=
  match p with
  | EmptyString => cur
  | String c r => if Ascii.eqb c "/" then basename_from r r else basename_from cur r
  end.
Definition basename (p : string) : string := basename_from p p.

(** No slash occurs in [s]: a file name, not a path. *)
Fixpoint no_slash (s : string) : bool :=
  match s with
  | EmptyString => true
  | String c r => negb (Ascii.eqb c "/") && no_slash r
  end.

(** [posixpath.join] of two components: an absolute second component
    replaces the first; a separator is inserted unless the first component
    is empty or already ends with one. *)
Definition join (a b : string) : string :=
  if String.prefix "/" b then b
  else if String.eqb a "" || endswith a "/" then a +:+ b
  else a +:+ "/" +:+ b.

(** The separator that [join] puts after a first component [a]. *)
Definition sep_after (a : string) : string :=
  if String.eqb a "" || endswith a "/" then "" else "/".

(** What [open(path, 'r').read()] returns for a file holding [s]: text mode
    turns every [\r\n] and every lone [\r] into [\n]. *)
Fixpoint universal_newlines (s : string) : string :=
  match s with
  | EmptyString => EmptyString
  | String c r =>
      if Ascii.eqb c "013" then
        String "010"
          match r with
          | String c' r' =>
              if Ascii.eqb c' "010" then universal_newlines r' else universal_newlines r
          | EmptyString => EmptyString
          end
      else String c (universal_newlines r)
  end.

(** No carriage return occurs in [s]. *)
Fixpoint no_cr (s : string) : bool :=
  match s with
  | EmptyString => true
  | String c r => negb (Ascii.eqb c "013") && no_cr r
  end.

(** Truth value of an optional string: [None] and [''] are false. *)
Definition truthy (o : option string) : bool :=
  match o with
  | Some s => negb (String.eqb s "")
  | None => false
  end.

(** *** Code points

    Python iterates a [str], and [json.dumps] escapes it, one code point at
    a time.  [utf8_chars] cuts the byte string into its code points; a byte
    that does not start a well-formed sequence (never the case for the
    encoding of a Python [str]) is kept as a one-byte item. *)

Definition byte_val (c : ascii) : Z := Z.of_N (N_of_ascii c).

Definition utf8_width (c : ascii) : nat :=
  let b := byte_val c in
  if b <? 192 then 1%nat else if b <? 224 then 2%nat else if b <? 240 then 3%nat else 4%nat.

Fixpoint utf8_chars (s : string) : list string :=
  match s with
  | EmptyString => []
  | String c0 r0 =>
    match utf8_width c0, r0 with
    | 2%nat, String c1 r1 =>
        String c0 (String c1 "") :: utf8_chars r1
    | 3%nat, String c1 (String c2 r2) =>
        String c0 (String c1 (String c2 "")) :: utf8_chars r2
    | 4%nat, String c1 (String c2 (String c3 r3)) =>
        String c0 (String c1 (String c2 (String c3 ""))) :: utf8_chars r3
    | _, _ => String c0 "" :: utf8_chars r0
    end
  end.

(** The code point of one item of [utf8_chars]. *)
Definition code_point (ch : string) : Z :=
  match ch with
  | String c0 EmptyString => byte_val c0
  | String c0 (String c1 EmptyString) =>
      Z.lor (Z.shiftl (Z.land (byte_val c0) 31) 6) (Z.land (byte_val c1) 63)
  | String c0 (String c1 (String c2 EmptyString)) =>
      Z.lor (Z.shiftl (Z.land (byte_val c0) 15) 12)
        (Z.lor (Z.shiftl (Z.land (byte_val c1) 63) 6) (Z.land (byte_val c2) 63))
  | String c0 (String c1 (String c2 (String c3 EmptyString))) =>
      Z.lor (Z.shiftl (Z.land (byte_val c0) 7) 18)
        (Z.lor (Z.shiftl (Z.land (byte_val c1) 63) 12)
           (Z.lor (Z.shiftl (Z.land (byte_val c2) 63) 6) (Z.land (byte_val c3) 63)))
  | _ => 0
  end.

Definition hex_digit (n : Z) : ascii :=
  ascii_of_N (Z.to_N (if n <? 10 then 48 + n else 87 + n)).

(** ['{0:04x}'.format(n)] for [0 <= n < 65536]. *)
Definition hex4 (n : Z) : string :=
  String (hex_digit (Z.land (Z.shiftr n 12) 15))
    (String (hex_digit (Z.land (Z.shiftr n 8) 15))
       (String (hex_digit (Z.land (Z.shiftr n 4) 15))
          (String (hex_digit (Z.land n 15)) ""))).

(** [str(n)] for an [int]. *)
Definition str_of_int (n : Z) : string := NilZero.string_of_int (Z.to_int n).

(** [sep.join(l)] *)
Fixpoint str_join (sep : string) (l : list string) : string :=
  match l with
  | [] => ""
  | [x] => x
  | x :: r => x +:+ sep +:+ str_join sep r
  end.

End Py.

(** ** JSON values and [json.dumps(..., sort_keys=True)] *)

Module Json.
Import Py.

(** A value built from, or decoded into, Python's JSON-compatible types.
    A [JDict] lists the items of a [dict] in insertion order; its keys are
    strings and pairwise distinct.  A [float] is carried by its [repr]. *)
Inductive json : Type :=
| JNull
| JBool (b : bool)
| JInt (n : Z)
| JFloat (repr : string)
| JStr (s : string)
| JList (l : list json)
| JDict (d : list (string * json)).

(** [d.get(k)] on the items of a dict. *)
Fixpoint assoc {A} (k : string) (d : list (string * A)) : option A :=
  match d with
  | [] => None
  | (k', v) :: r => if String.eqb k' k then Some v else assoc k r
  end.

(** [json.encoder.py_encode_basestring_ascii]: everything outside
    [' '..'~'], and the quote and the backslash, is escaped; code points
    beyond the basic plane become a surrogate pair. *)
Definition escape_char (ch : string) : string :=
  let n := code_point ch in
  if n =? 34 then backslash +:+ dquote
  else if n =? 92 then backslash +:+ backslash
  else if n =? 10 then backslash +:+ "n"
  else if n =? 13 then backslash +:+ "r"
  else if n =? 9 then backslash +:+ "t"
  else if n =? 12 then backslash +:+ "f"
  else if n =? 8 then backslash +:+ "b"
  else if (32 <=? n) && (n <=? 126) then ch
  else if n <? 65536 then backslash +:+ "u" +:+ hex4 n
  else
    let m := n - 65536 in
    backslash +:+ "u" +:+ hex4 (Z.lor 55296 (Z.land (Z.shiftr m 10) 1023))
      +:+ backslash +:+ "u" +:+ hex4 (Z.lor 56320 (Z.land m 1023)).

Definition encode_str (s : string) : string :=
  dquote +:+ str_join "" (escape_char <$> utf8_chars s) +:+ dquote.

(** Order on the items of a dict: by key ([sorted(dct.items())] never gets
    to compare two values, the keys being distinct). *)
Definition item_le (a b : string * string) : Prop := String.le a.1 b.1.

Global Instance item_le_dec : RelDecision item_le.
Proof. intros a b. unfold item_le. apply _. Defined.

Definition sort_items (l : list (string * string)) : list (string * string) :=
  merge_sort item_le l.

(** [json.dumps(v, sort_keys=True)] with the default separators.  The items
    of a dict are serialised, then ordered by key. *)
Fixpoint dumps (v : json) : string :=
  match v with
  | JNull => "null"
  | JBool true => "true"
  | JBool false => "false"
  | JInt n => str_of_int n
  | JFloat r => r
  | JStr s => encode_str s
  | JList l => "[" +:+ str_join ", " (dumps <$> l) +:+ "]"
  | JDict d =>
      "{" +:+ str_join ", "
                ((fun kv : string * string => encode_str kv.1 +:+ ": " +:+ kv.2) <$>
                   sort_items ((fun kv : string * json => (kv.1, dumps kv.2)) <$> d))
        +:+ "}"
  end.

(** The representation invariant of a [dict]: no key occurs twice. *)
Fixpoint well_formed (v : json) : bool :=
  match v with
  | JList l => forallb well_formed l
  | JDict d =>
      bool_decide (NoDup d.*1) && forallb (fun kv : string * json => well_formed kv.2) d
  | _ => true
  end.

(** Structural equality: the same shape and the same atoms, the items of a
    dict being matched by key, whatever the order they were inserted in. *)
Fixpoint same_value (a b : json) : bool :=
  match a, b with
  | JNull, JNull => true
  | JBool x, JBool y => Bool.eqb x y
  | JInt x, JInt y => Z.eqb x y
  | JFloat x, JFloat y => String.eqb x y
  | JStr x, JStr y => String.eqb x y
  | JList l1, JList l2 =>
      (fix all2 (l1 l2 : list json) : bool :=
         match l1, l2 with
         | [], [] => true
         | x :: r1, y :: r2 => same_value x y && all2 r1 r2
         | _, _ => false
         end) l1 l2
  | JDict d1, JDict d2 =>
      Nat.eqb (length d1) (length d2) &&
      forallb (fun kv : string * json =>
                 match assoc kv.1 d2 with
                 | Some v => same_value kv.2 v
                 | None => false
                 end) d1
  | _, _ => false
  end.

End Json.

(** ** [hashlib.md5(data).hexdigest()] (RFC 1321) *)

Module MD5.
Import Py.

Definition add32 (a b : Z) : Z := Z.land (a + b) 4294967295.
Definition not32 (a : Z) : Z := Z.lxor a 4294967295.
Definition rotl32 (x c : Z) : Z :=
  Z.land (Z.lor (Z.shiftl x c) (Z.shiftr x (32 - c))) 4294967295.

(** Per-round shift amounts and the sine-derived constants. *)
Definition shifts : list Z :=
  [7; 12; 17; 22; 7; 12; 17; 22; 7; 12; 17; 22; 7; 12; 17; 22;
   5; 9; 14; 20; 5; 9; 14; 20; 5; 9; 14; 20; 5; 9; 14; 20;
   4; 11; 16; 23; 4; 11; 16; 23; 4; 11; 16; 23; 4; 11; 16; 23;
   6; 10; 15; 21; 6; 10; 15; 21; 6; 10; 15; 21; 6; 10; 15; 21].

Definition sines : list Z :=
  [3614090360; 3905402710; 606105819; 3250441966; 4118548399; 1200080426;
   2821735955; 4249261313; 1770035416; 2336552879; 4294925233; 2304563134;
   1804603682; 4254626195; 2792965006; 1236535329; 4129170786; 3225465664;
   643717713; 3921069994; 3593408605; 38016083; 3634488961; 3889429448;
   568446438; 3275163606; 4107603335; 1163531501; 2850285829; 4243563512;
   1735328473; 2368359562; 4294588738; 2272392833; 1839030562; 4259657740;
   2763975236; 1272893353; 4139469664; 3200236656; 681279174; 3936430074;
   3572445317; 76029189; 3654602809; 3873151461; 530742520; 3299628645;
   4096336452; 1126891415; 2878612391; 4237533241; 1700485571; 2399980690;
   4293915773; 2240044497; 1873313359; 4264355552; 2734768916; 1309151649;
   4149444226; 3174756917; 718787259; 3951481745].

(** [n] bytes of [v], least significant first. *)
Fixpoint le_bytes (n : nat) (v : Z) : list Z :=
  match n with
  | O => []
  | S n' => Z.land v 255 :: le_bytes n' (Z.shiftr v 8)
  end.

(** Append the bit 1, zeros up to 56 modulo 64 bytes, and the bit length. *)
Definition pad (bs : list Z) : list Z :=
  let len := Z.of_nat (length bs) in
  bs ++ [128] ++ repeat 0 (Z.to_nat ((55 - len) mod 64))
     ++ le_bytes 8 (Z.land (8 * len) 18446744073709551615).

Fixpoint words (bs : list Z) : list Z :=
  match bs with
  | b0 :: b1 :: b2 :: b3 :: r =>
      (b0 + 256 * b1 + 65536 * b2 + 16777216 * b3) :: words r
  | _ => []
  end.

Fixpoint blocks (n : nat) (ws : list Z) : list (list Z) :=
  match n with
  | O => []
  | S n' => take 16 ws :: blocks n' (drop 16 ws)
  end.

Definition step (M : list Z) (st : Z * Z * Z * Z) (i : nat) : Z * Z * Z * Z :=
  let '(A, B, C, D) := st in
  let iz := Z.of_nat i in
  let '(F, g) :=
    if iz <? 16 then (Z.lor (Z.land B C) (Z.land (not32 B) D), iz)
    else if iz <? 32 then (Z.lor (Z.land D B) (Z.land (not32 D) C), (5 * iz + 1) mod 16)
    else if iz <? 48 then (Z.lxor B (Z.lxor C D), (3 * iz + 5) mod 16)
    else (Z.lxor C (Z.lor B (not32 D)), (7 * iz) mod 16) in
  let F' := add32 (add32 (add32 F A) (nth i sines 0)) (nth (Z.to_nat g) M 0) in
  (D, add32 B (rotl32 F' (nth i shifts 0)), B, C).

Definition block (st : Z * Z * Z * Z) (M : list Z) : Z * Z * Z * Z :=
  let '(a0, b0, c0, d0) := st in
  let '(A, B, C, D) := fold_left (step M) (seq 0 64) st in
  (add32 a0 A, add32 b0 B, add32 c0 C, add32 d0 D).

Definition digest (bs : list Z) : list Z :=
  let ws := words (pad bs) in
  let '(a, b, c, d) :=
    fold_left block (blocks (length ws / 16) ws)
      (1732584193, 4023233417, 2562383102, 271733878) in
  le_bytes 4 a ++ le_bytes 4 b ++ le_bytes 4 c ++ le_bytes 4 d.

Definition hex2 (b : Z) : string :=
  String (hex_digit (Z.shiftr b 4)) (String (hex_digit (Z.land b 15)) "").

(** [hashlib.md5(s.encode('utf-8')).hexdigest()] *)
Definition hexdigest (s : string) : string :=
  str_join "" (hex2 <$> digest (byte_val <$> list_ascii_of_string s)).

End MD5.

(** ** State, exceptions and the observable trace *)

Module Env.
Import Py Json.

(** The keyword arguments of [client.chat.completions.create]. *)
Record request : Type := {
  req_model : string;
  req_messages : list json;
  req_max_tokens : Z;
  req_response_format : option json
}.

(** The JSON document kept in [.progress.json]. *)
Record progress_record : Type := {
  pr_processed_files : list string;
  pr_symbols : list string;
  pr_file_dep_graph : list (string * list string)
}.

(** What a run does that can be observed from outside, oldest first. *)
Inductive event : Type :=
| CacheHit (cache_key : string)        (* log.info "Load from cache: ..." *)
| ServiceCall (r : request)            (* client.chat.completions.create(...) *)
| Skip (filename : string)             (* log.info "Skip ... because it has been processed" *)
| Processing (filename : string)       (* log.info "Processing ..." *)
| OpenUnit (path : string)             (* open(path, 'r') in process_file *)
| Transform (filename : string)        (* generate_java_code(code, self.symbols) is entered *)
| Print (generated_code : json)        (* print(generated_code) *)
| MarkProcessed (filename : string)    (* self.processed_files.add(filename) *)
| SaveProgress (path : string).        (* the progress file is rewritten *)

(** Everything outside the interpreter that the program reads and writes:
    the cache files and the progress files, by path, and the trace. *)
Record world : Type := {
  cache_files : gmap string string;
  progress_files : gmap string progress_record;
  trace : list event
}.

Definition emit (e : event) (w : world) : world :=
  {| cache_files := cache_files w;
     progress_files := progress_files w;
     trace := trace w ++ [e] |}.

Definition write_cache (path content : string) (w : world) : world :=
  {| cache_files := <[path := content]> (cache_files w);
     progress_files := progress_files w;
     trace := trace w |}.

Definition write_progress (path : string) (r : progress_record) (w : world) : world :=
  {| cache_files := cache_files w;
     progress_files := <[path := r]> (progress_files w);
     trace := trace w ++ [SaveProgress path] |}.

(** The requests sent to the service during a trace. *)
Definition service_calls (tr : list event) : list request :=
  omap (fun e => match e with ServiceCall r => Some r | _ => None end) tr.

(** *** Computations that read and write a state and may raise *)

Definition M (S A : Type) : Type := S -> result A * S.

Definition ret {S A} (a : A) : M S A := fun s => (Ok a, s).
Definition raise {S A} (e : exn) : M S A := fun s => (Raise e, s).
Definition bind {S A B} (c : M S A) (k : A -> M S B) : M S B :=
  fun s => match c s with
           | (Ok a, s') => k a s'
           | (Raise e, s') => (Raise e, s')
           end.
Definition gets {S A} (f : S -> A) : M S A := fun s => (Ok (f s), s).
Definition modify {S} (f : S -> S) : M S unit := fun s => (Ok tt, f s).

(** [for x in l: body(x)] *)
Fixpoint for_each {S A} (body : A -> M S unit) (l : list A) : M S unit :=
  match l with
  | [] => ret tt
  | x :: r => bind (body x) (fun _ => for_each body r)
  end.

(** The same for code that only raises. *)
Definition rbind {A B} (r : result A) (k : A -> result B) : result B :=
  match r with
  | Ok a => k a
  | Raise e => Raise e
  end.

Definition lift {S A} (r : result A) : M S A := fun s => (r, s).

End Env.

Declare Scope prog_scope.
Delimit Scope prog_scope with prog.
Declare Scope res_scope.
Delimit Scope res_scope with res.
Notation "'do' x <- c ; k" := (Env.bind c (fun x => k))
  (at level 10, x name, c at level 100, k at level 200) : prog_scope.
Notation "c ;; k" := (Env.bind c (fun _ => k))
  (at level 100, k at level 200, right associativity) : prog_scope.
Notation "'do' x <- r ; k" := (Env.rbind r (fun x => k))
  (at level 10, x name, r at level 100, k at level 200) : res_scope.

(** ** [ai.py]: the memoising wrapper around the chat-completion service *)

Module AI.
Import Py Json Env.
Local Open Scope prog_scope.

Definition default_model : string := "gpt-4o".
Definition default_max_tokens : Z := 16 * 1024.
Definition default_cache_dir : string := ".cached".

(** [LLM._generate_cache_key] *)
Definition _generate_cache_key
    (chat_history : list json) (model : string) (max_tokens : Z) (json_mode : bool) : string :=
  let key_data :=
    dumps (JDict [("chat_history", JList chat_history);
                  ("model", JStr model);
                  ("max_tokens", JInt max_tokens);
                  ("json_mode", JBool json_mode)]) in
  MD5.hexdigest key_data.

Definition cache_path (cache_key cache_dir : string) : string :=
  join cache_dir (cache_key +:+ ".cache").

(** [LLM._load_from_cache]: the file's text if it exists, else [None]. *)
Definition _load_from_cache (cache_key cache_dir : string) (w : world) : option string :=
  universal_newlines <$> cache_files w !! cache_path cache_key cache_dir.

(** [LLM._save_to_cache].  [os.makedirs('')] raises; opening the file for
    writing empties it before [f.write] looks at its argument. *)
Definition _save_to_cache
    (cache_key : string) (response : option string) (cache_dir : string) : M world unit :=
  if String.eqb cache_dir "" then raise IOError
  else
    let cache_file := cache_path cache_key cache_dir in
    modify (write_cache cache_file "") ;;
    match response with
    | Some text => modify (write_cache cache_file text)
    | None => raise TypeError
    end.

(** The loop that turns bare strings into user messages. *)
Definition as_message (msg : json) : json :=
  match msg with
  | JStr s => JDict [("role", JStr "user"); ("content", JStr s)]
  | _ => msg
  end.

Definition system_message : json :=
  JDict [("role", JStr "system"); ("content", JStr "You are a helpful assistant.")].

Definition make_request
    (history : list json) (model : string) (max_tokens : Z) (json_mode : bool) : request :=
  {| req_model := model;
     req_messages := system_message :: history;
     req_max_tokens := max_tokens;
     req_response_format :=
       if json_mode then Some (JDict [("type", JStr "json_object")]) else None |}.

Section LLM.
(** [client.chat.completions.create]: the service is neither
    deterministic nor reliable, so its answer may depend on everything
    observed so far.  It raises, or returns a response whose
    [choices[i].message.content] are listed ([None] is a possible content). *)
Variable service : list event -> request -> result (list (option string)).

Definition call_service (r : request) : M world (list (option string)) :=
  fun w => (service (trace w) r, emit (ServiceCall r) w).

(** [LLM.ask]; the result is the ["content"] entry of the returned dict. *)
Definition ask
    (chat_history : list json) (model : string) (max_tokens : Z)
    (json_mode cached_mode : bool) (cache_dir : string) : M world (option string) :=
  let history := as_message <$> chat_history in
  let cache_key := _generate_cache_key chat_history model max_tokens json_mode in
  do cached_response <-
    (if cached_mode then gets (_load_from_cache cache_key cache_dir) else ret None);
  if cached_mode && truthy cached_response then
    modify (emit (CacheHit cache_key)) ;;
    ret cached_response
  else
    do choices <- call_service (make_request history model max_tokens json_mode);
    match choices with
    | [] => raise IndexError
    | result :: _ =>
        (if cached_mode then _save_to_cache cache_key result cache_dir else ret tt) ;;
        ret result
    end.
End LLM.

End AI.

(** ** [main.py]: call-graph construction and the resumable executor *)

Module Main.
Import Py Json Env.

(** *** Dynamically typed operations on decoded JSON *)

(** [for x in v]: a list yields its items, a dict its keys, a str its
    characters; nothing else is iterable. *)
Definition py_iter (v : json) : result (list json) :=
  match v with
  | JList l => Ok l
  | JDict d => Ok ((fun kv : string * json => JStr kv.1) <$> d)
  | JStr s => Ok (JStr <$> utf8_chars s)
  | _ => Raise TypeError
  end.

(** [v[k]] for a str [k]. *)
Definition py_getitem (v : json) (k : string) : result json :=
  match v with
  | JDict d => match assoc k d with Some x => Ok x | None => Raise KeyError end
  | _ => Raise TypeError
  end.

(** [v.get(k, default)]: only a dict has the method. *)
Definition py_get (v : json) (k : string) (default : json) : result json :=
  match v with
  | JDict d => Ok (from_option id default (assoc k d))
  | _ => Raise AttributeError
  end.

(** *** Insertion-ordered dicts *)

(** [d[k] = v]: an existing key keeps its place. *)
Fixpoint odict_set {A} (k : string) (v : A) (d : list (string * A)) : list (string * A) :=
  match d with
  | [] => [(k, v)]
  | (k', v') :: r => if String.eqb k' k then (k, v) :: r else (k', v') :: odict_set k v r
  end.

(** *** The prompts *)

Definition quoted (s : string) : string := dquote +:+ s +:+ dquote.
Definition newline : string := String "010" "".

Definition SYSTEM_PROMPT_PARSE_REFS (code : string) : string :=
    "
你是一个 Oracle 存储过程开发的专家，下面我会给你一段 Oracle 存储过程的代码，请帮我分析这段代码，要求：
1. 找到所有对于外部包的调用（不在本包中定义的包， 也不包括 Oracle 的系统包) 
2. 在本包中定义的包名，并按照格式输出 (使用 JSON 格式的列表)：
{
  "
    +:+ quoted "deps"
    +:+ ": [
     "
    +:+ quoted "{package_name}.{function_name}"
    +:+ "
     ...
  ],
  "
    +:+ quoted "package_name"
    +:+ ": ["
    +:+ quoted "{package_name}"
    +:+ ", ...]
}

<code>"
    +:+ code
    +:+ "</code>
".

Definition SYSTEM_PROMPT_PROCESS_FILE (str_symbols code : string) : string :=
    "
你是一个 JAVA 专家和 MySQL 专家，正在将 Oracle 的存储过程改写成 JAVA 的等价程序
上面是一段 ORACLE 的存储过程，请转换成 JAVA 的等价程序：

1. 涉及到查询和更新数据库的部分，使用 MySQL JDBC 的 API 实现，使用 SQL，但是不允许使用 PL/SQL。
2. 我会给出在外部定义的已有函数的符号表（在Oracle中的定义，以及 Java的类名和函数签名），如果遇到外部定义的函数，请直接使用。
3. 生产Java 代码, 注释中标注来自哪个Oracle的包和函数签名, 给出完整实现，不要省略，并统计所有转换过的所有的函数签名（Oracle 和 Java 的分别都输出），包括参数和返回值，使用json, 格式如下：
{ 
"
    +:+ quoted "java_code"
    +:+ ": "
    +:+ quoted "{generated_java_code}"
    +:+ ",
"
    +:+ quoted "symbols"
    +:+ ": [{"
    +:+ quoted "oracle"
    +:+ ": "
    +:+ quoted "{packagename_in_oracle}.{functionname_in_oracle}(PARAM1TYPE PARAM1NAME, PARAM2TYPE PARAM2NAME, ...) RETURNS RETURNTYPE"
    +:+ ", "
    +:+ quoted "java"
    +:+ ": "
    +:+ quoted "ClassName.FunctionName(PARAM1TYPE PARAM1NAME, PARAM2TYPE PARAM2NAME, ...) RETURNS RETURNTYPE"
    +:+ "},...]
}

<predefined_symbols>
"
    +:+ str_symbols
    +:+ "
</predefined_symbols>

<stored_procedure>
"
    +:+ code
    +:+ "
</stored_procedure>
".

(** *** Processor state *)

Record processor : Type := {
  working_dir : string;
  progress_file : string;
  file_dep_graph : list (string * list string);
  processed_files : gset string;
  symbols : gset string
}.

(** The [Processor] instance together with what lies outside the process. *)
Record state : Type := {
  self : processor;
  outside : world
}.

Definition with_self (f : processor -> processor) (s : state) : state :=
  {| self := f (self s); outside := outside s |}.
Definition with_outside (f : world -> world) (s : state) : state :=
  {| self := self s; outside := f (outside s) |}.

(** Run code of the module level (it only touches the outside). *)
Definition in_world {A} (c : M world A) : M state A :=
  fun s => let '(r, w) := c (outside s) in (r, {| self := self s; outside := w |}).

Definition log (e : event) : M state unit := modify (with_outside (emit e)).

Definition set_graph (g : list (string * list string)) (p : processor) : processor :=
  {| working_dir := working_dir p; progress_file := progress_file p;
     file_dep_graph := g;
     processed_files := processed_files p; symbols := symbols p |}.
Definition set_processed (x : gset string) (p : processor) : processor :=
  {| working_dir := working_dir p; progress_file := progress_file p;
     file_dep_graph := file_dep_graph p;
     processed_files := x; symbols := symbols p |}.
Definition set_symbols (x : gset string) (p : processor) : processor :=
  {| working_dir := working_dir p; progress_file := progress_file p;
     file_dep_graph := file_dep_graph p;
     processed_files := processed_files p; symbols := x |}.

Section Program.
Local Open Scope prog_scope.

(** The collaborators the program is run against. *)
Variable service : list event -> request -> result (list (option string)).
(** [json.loads]; [None] stands for [JSONDecodeError]. *)
Variable json_loads : string -> option json.
(** [str(v)] of a decoded value that is not itself a [str]. *)
Variable py_repr : json -> string.
(** [os.walk(directory)]: each directory reached, with its files. *)
Variable walk : string -> list (string * list string).
(** [open(path, 'r', encoding='utf-8').read()]; [None] stands for a failure. *)
Variable read_file : string -> option string.

Definition loads (text : option string) : result json :=
  match text with
  | None => Raise TypeError
  | Some s => match json_loads s with Some v => Ok v | None => Raise JSONDecodeError end
  end.

Definition open_read (path : string) : result string :=
  match read_file path with Some code => Ok code | None => Raise IOError end.

(** What an f-string puts in place of [{v}]. *)
Definition py_format (v : json) : string :=
  match v with JStr s => s | _ => py_repr v end.

(** [parse_refs] *)
Definition parse_refs (code : string) : M world json :=
  do resp <- AI.ask service
               [JDict [("role", JStr "system");
                       ("content", JStr (SYSTEM_PROMPT_PARSE_REFS code))]]
               AI.default_model AI.default_max_tokens true true AI.default_cache_dir;
  lift (loads resp).

(** [generate_java_code] *)
Definition generate_java_code
    (code : string) (predefined_symbols : gset string) : M world (json * json) :=
  let str_symbols := str_join newline (elements predefined_symbols) in
  do resp <- AI.ask service
               [JDict [("role", JStr "system");
                       ("content", JStr (SYSTEM_PROMPT_PROCESS_FILE str_symbols code))]]
               AI.default_model AI.default_max_tokens true true AI.default_cache_dir;
  do obj <- lift (loads resp);
  do java_code <- lift (py_getitem obj "java_code");
  do symbols <- lift (py_getitem obj "symbols");
  ret (java_code, symbols).

(** [scan_sql_files] *)
Definition scan_sql_files (directory : string) : list string :=
  '(root, files) ← walk directory;
  join root <$> List.filter (fun file => endswith file ".sql") files.

(** **** [Processor.build_callgraph] *)

(** First loop: read every file and ask for its references. *)
Fixpoint read_refs (sql_files : list string) (file_refs : list (string * json))
    : M world (list (string * json)) :=
  match sql_files with
  | [] => ret file_refs
  | sql_file :: rest =>
      do code <- lift (open_read sql_file);
      do refs <- parse_refs code;
      read_refs rest (odict_set sql_file refs file_refs)
  end.

(** [package_2_file[package_name] = filename] for each declared name.  A
    list or a dict is not hashable.  A key that is not a [str] is never
    hit by the look-ups of the third loop, which are all by [str], so it
    is not recorded. *)
Fixpoint declare_packages
    (filename : string) (package_names : list json) (package_2_file : gmap string string)
    : result (gmap string string) :=
  match package_names with
  | [] => Ok package_2_file
  | JStr package_name :: rest =>
      declare_packages filename rest (<[package_name := filename]> package_2_file)
  | JList _ :: _ => Raise TypeError
  | JDict _ :: _ => Raise TypeError
  | _ :: rest => declare_packages filename rest package_2_file
  end.

(** Second loop: the mapping from package name to file. *)
Fixpoint package_map (file_refs : list (string * json)) (package_2_file : gmap string string)
    : result (gmap string string) :=
  match file_refs with
  | [] => Ok package_2_file
  | (sql_file, refs) :: rest =>
      (do package_names <- py_get refs "package_name" (JList []);
       do names <- py_iter package_names;
       do package_2_file' <- declare_packages (basename sql_file) names package_2_file;
       package_map rest package_2_file')%res
  end.

(** The inner loop over [dependencies]. *)
Fixpoint collect_dependent_files
    (filename : string) (dependencies : list json) (package_2_file : gmap string string)
    (dependent_files : gset string) : result (gset string) :=
  match dependencies with
  | [] => Ok dependent_files
  | JStr dep :: rest =>
      let package_name := split_first "." dep in
      match package_2_file !! package_name with
      | Some dep_filename =>
          if negb (String.eqb dep_filename filename)
          then collect_dependent_files filename rest package_2_file
                 ({[dep_filename]} ∪ dependent_files)
          else collect_dependent_files filename rest package_2_file dependent_files
      | None => collect_dependent_files filename rest package_2_file dependent_files
      end
  | _ :: _ => Raise AttributeError
  end.

(** Third loop: the dependency sets, by file name. *)
Fixpoint dependency_sets
    (file_refs : list (string * json)) (package_2_file : gmap string string)
    (file_dep_graph : list (string * gset string)) : result (list (string * gset string)) :=
  match file_refs with
  | [] => Ok file_dep_graph
  | (sql_file, refs) :: rest =>
      let filename := basename sql_file in
      (do dependencies <- py_get refs "deps" (JList []);
       do deps <- py_iter dependencies;
       do dependent_files <- collect_dependent_files filename deps package_2_file ∅;
       dependency_sets rest package_2_file (odict_set filename dependent_files file_dep_graph))%res
  end.

(** Last loop: every set becomes a list (in the order the set iterates). *)
Definition sets_to_lists (g : list (string * gset string)) : list (string * list string) :=
  (fun kv : string * gset string => (kv.1, elements kv.2)) <$> g.

Definition build_callgraph : M state (list (string * list string)) :=
  do wd <- gets (fun s => working_dir (self s));
  let sql_files := scan_sql_files wd in
  do file_refs <- in_world (read_refs sql_files []);
  do package_2_file <- lift (package_map file_refs ∅);
  do file_dep_graph <- lift (dependency_sets file_refs package_2_file []);
  ret (sets_to_lists file_dep_graph).

(** **** Progress *)

Definition snapshot (p : processor) : progress_record :=
  {| pr_processed_files := elements (processed_files p);
     pr_symbols := elements (symbols p);
     pr_file_dep_graph := file_dep_graph p |}.

(** [Processor.load_progress] *)
Definition load_progress : M state unit :=
  do path <- gets (fun s => progress_file (self s));
  do found <- gets (fun s => progress_files (outside s) !! path);
  match found with
  | Some data =>
      modify (with_self (set_processed (list_to_set (pr_processed_files data)))) ;;
      modify (with_self (set_symbols (list_to_set (pr_symbols data)))) ;;
      modify (with_self (set_graph (pr_file_dep_graph data)))
  | None =>
      modify (with_self (set_processed ∅)) ;;
      modify (with_self (set_symbols ∅)) ;;
      modify (with_self (set_graph []))
  end.

(** [Processor.save_progress] *)
Definition save_progress : M state unit :=
  modify (fun s =>
    with_outside (write_progress (progress_file (self s)) (snapshot (self s))) s).

(** [Processor.__init__] *)
Definition new_processor (wd : string) : processor :=
  {| working_dir := wd;
     progress_file := join wd ".progress.json";
     file_dep_graph := [];
     processed_files := ∅;
     symbols := ∅ |}.

Definition init : M state unit :=
  do path <- gets (fun s => progress_file (self s));
  do found <- gets (fun s => progress_files (outside s) !! path);
  (if bool_decide (is_Some found) then load_progress else ret tt) ;;
  do graph <- gets (fun s => file_dep_graph (self s));
  if Nat.eqb (length graph) 0 then
    do built <- build_callgraph;
    modify (with_self (set_graph built))
  else ret tt.

Definition Processor (wd : string) (w : world) : result unit * state :=
  init {| self := new_processor wd; outside := w |}.

(** **** [Processor.process_file] and [Processor.process] *)

(** The body of [for symbol in new_symbols]. *)
Definition add_symbol (symbol : json) : M state unit :=
  do oracle <- lift (py_getitem symbol "oracle");
  do java <- lift (py_getitem symbol "java");
  let key := py_format oracle +:+ " -> " +:+ py_format java in
  modify (with_self (fun p => set_symbols ({[key]} ∪ symbols p) p)).

Definition mark_processed (filename : string) : M state unit :=
  modify (with_self (fun p => set_processed ({[filename]} ∪ processed_files p) p)) ;;
  log (MarkProcessed filename).

(** What [process_file] does once the dependencies are done. *)
Definition transform_unit (filename : string) : M state unit :=
  log (Processing filename) ;;
  do wd <- gets (fun s => working_dir (self s));
  let path := join wd filename in
  log (OpenUnit path) ;;
  do code <- lift (open_read path);
  do predefined <- gets (fun s => symbols (self s));
  log (Transform filename) ;;
  do out <- in_world (generate_java_code code predefined);
  log (Print out.1) ;;
  do new_symbols <- lift (py_iter out.2);
  for_each add_symbol new_symbols ;;
  mark_processed filename ;;
  save_progress.

(** [depth] is the number of nested calls the interpreter still allows. *)
Fixpoint process_file (depth : nat) (filename : string) : M state unit :=
  match depth with
  | O => raise RecursionError
  | S depth' =>
      do processed <- gets (fun s => processed_files (self s));
      if bool_decide (filename ∈ processed) then log (Skip filename)
      else
        do graph <- gets (fun s => file_dep_graph (self s));
        for_each (process_file depth') (default [] (assoc filename graph)) ;;
        transform_unit filename
  end.

Definition process (depth : nat) : M state unit :=
  do graph <- gets (fun s => file_dep_graph (self s));
  for_each (process_file depth) graph.*1.

End Program.

End Main.

(** ** A concrete working set

    Three units: [A.sql] declares [PKG_A]; [B.sql] declares [PKG_B] and calls
    [PKG_A.foo] (and itself, and a system package); [C.sql] calls
    [PKG_B.bar].  The service echoes the prompt it is given, and the decoder
    recognises the unit a prompt is about. *)

Module Scenario.
Import Py Json Env Main.

Definition last_content (r : request) : string :=
  match last (req_messages r) with
  | Some (JDict d) => match assoc "content" d with Some (JStr s) => s | _ => "" end
  | _ => ""
  end.

Definition echo (tr : list event) (r : request) : result (list (option string)) :=
  Ok [Some (last_content r)].

Definition mentions (needle s : string) : bool :=
  bool_decide (is_Some (String.index 0 needle s)).

Definition refs_of (deps packages : list string) : json :=
  JDict [("deps", JList (JStr <$> deps)); ("package_name", JList (JStr <$> packages))].

Definition java_of (code oracle java : string) : json :=
  JDict [("java_code", JStr code);
         ("symbols", JList [JDict [("oracle", JStr oracle); ("java", JStr java)]])].

Definition decode (s : string) : option json :=
  if mentions "<code>UNIT_A</code>" s then Some (refs_of [] ["PKG_A"])
  else if mentions "<code>UNIT_B</code>" s
       then Some (refs_of ["PKG_A.foo"; "PKG_B.self"; "DBMS_OUTPUT.put_line"] ["PKG_B"])
  else if mentions "<code>UNIT_C</code>" s then Some (refs_of ["PKG_B.bar"] [])
  else if mentions "UNIT_A" s then Some (java_of "class A {}" "PKG_A.foo()" "A.foo()")
  else if mentions "UNIT_B" s then Some (java_of "class B {}" "PKG_B.bar()" "B.bar()")
  else if mentions "UNIT_C" s then Some (java_of "class C {}" "PKG_C.baz()" "C.baz()")
  else None.

Definition repr (v : json) : string := dumps v.

Definition tree (directory : string) : list (string * list string) :=
  [(directory, ["C.sql"; "B.sql"; "A.sql"; "notes.txt"])].

Definition content (path : string) : option string :=
  if String.eqb path "wd/A.sql" then Some "UNIT_A"
  else if String.eqb path "wd/B.sql" then Some "UNIT_B"
  else if String.eqb path "wd/C.sql" then Some "UNIT_C"
  else None.

Definition empty_world : world :=
  {| cache_files := ∅; progress_files := ∅; trace := [] |}.

(** A service with a fixed answer, and one that always fails. *)
Definition answers (text : string) (tr : list event) (r : request)
    : result (list (option string)) := Ok [Some text].
Definition down (tr : list event) (r : request) : result (list (option string)) :=
  Raise ServiceError.

Definition crlf : string := String "013" (String "010" "").

(** A response whose only choice has no content, and one with no choice. *)
Definition silent (tr : list event) (r : request) : result (list (option string)) :=
  Ok [None].
Definition no_choice (tr : list event) (r : request) : result (list (option string)) :=
  Ok [].

(** The same working set with a second [A.sql] in a subdirectory, which
    holds what [C.sql] held. *)
Definition nested_tree (directory : string) : list (string * list string) :=
  [(directory, ["A.sql"; "B.sql"]); (join directory "sub", ["A.sql"])].

Definition nested_content (path : string) : option string :=
  if String.eqb path "wd/A.sql" then Some "UNIT_A"
  else if String.eqb path "wd/B.sql" then Some "UNIT_B"
  else if String.eqb path "wd/sub/A.sql" then Some "UNIT_C"
  else None.

Definition fresh (wd : string) : state :=
  {| self := new_processor wd; outside := empty_world |}.


(** A working set whose [A.sql] lies in a subdirectory only. *)
Definition deep_tree (directory : string) : list (string * list string) :=
  [(directory, ["B.sql"]); (join directory "sub", ["A.sql"])].

Definition deep_content (path : string) : option string :=
  if String.eqb path "wd/sub/A.sql" then Some "UNIT_A"
  else if String.eqb path "wd/B.sql" then Some "UNIT_B"
  else None.

End Scenario.

(** ** Reading traces, and a small program logic *)

Module Obs.
Import Py Json Env Main.

(** The files marked as processed during a trace. *)
Definition marked (tr : list event) : gset string :=
  list_to_set (omap (fun e => match e with MarkProcessed f => Some f | _ => None end) tr).

(** The dependency edges of a unit, as [process_file] reads them. *)
Definition edges (g : list (string * list string)) (u : string) : list string :=
  default [] (assoc u g).

(** Replaying a trace from the processed set [P]: whenever the
    transformation of a unit starts, its dependencies are in the set. *)
Fixpoint ordered (g : list (string * list string)) (P : gset string) (tr : list event) : Prop :=
  match tr with
  | [] => True
  | Transform u :: r => (forall d, d ∈ edges g u -> d ∈ P) /\ ordered g P r
  | MarkProcessed f :: r => ordered g ({[f]} ∪ P) r
  | _ :: r => ordered g P r
  end.

(** Events of the wrapper and of the console, which carry no progress. *)
Definition quiet (e : event) : Prop :=
  match e with
  | CacheHit _ | ServiceCall _ | Print _ | Skip _ | Processing _ | SaveProgress _ => True
  | _ => False
  end.

(** Every file opened by the executor is [working_dir/filename] for a
    unit announced before. *)
Definition opens_in (wd : string) (tr : list event) : Prop :=
  forall p, OpenUnit p ∈ tr -> exists f, Processing f ∈ tr /\ p = join wd f.

(** The progress file holds the record of the processor's state. *)
Definition persisted (s : state) : Prop :=
  match progress_files (outside s) !! progress_file (self s) with
  | Some r =>
      list_to_set (pr_processed_files r) = processed_files (self s) /\
      list_to_set (pr_symbols r) = symbols (self s) /\
      pr_file_dep_graph r = file_dep_graph (self s)
  | None => False
  end.

Global Instance persisted_dec (s : state) : Decision (persisted s).
Proof. unfold persisted. destruct (_ !! _); apply _. Defined.

(** [s] is reached from [s0] by steps of the executor. *)
Record run_from (s0 s : state) : Prop := {
  rf_working_dir : working_dir (self s) = working_dir (self s0);
  rf_progress_file : progress_file (self s) = progress_file (self s0);
  rf_graph : file_dep_graph (self s) = file_dep_graph (self s0);
  rf_symbols : symbols (self s0) ⊆ symbols (self s);
  rf_trace : exists tr,
    trace (outside s) = trace (outside s0) ++ tr /\
    processed_files (self s) = processed_files (self s0) ∪ marked tr /\
    ordered (file_dep_graph (self s0)) (processed_files (self s0)) tr /\
    opens_in (working_dir (self s0)) tr
}.

(** The package names and the references read from the answer of
    [parse_refs], as the loops of [build_callgraph] see them. *)
Definition declares (refs : json) (package_name : string) : Prop :=
  exists v names,
    py_get refs "package_name" (JList []) = Ok v /\ py_iter v = Ok names /\
    JStr package_name ∈ names.

Definition references (refs : json) (dep : string) : Prop :=
  exists v deps,
    py_get refs "deps" (JList []) = Ok v /\ py_iter v = Ok deps /\ JStr dep ∈ deps.



(** The key under which [process_file] records a symbol. *)
Definition symbol_key (py_repr : json -> string) (symbol : json) : result string :=
  (do oracle <- py_getitem symbol "oracle";
   do java <- py_getitem symbol "java";
   Ok (py_format py_repr oracle +:+ " -> " +:+ py_format py_repr java))%res.

(** [C] is a set of unprocessed units each of which depends on one of
    them: the units of a cycle, and those that lead into one. *)
Definition stuck (g : list (string * list string)) (P : gset string) (C : list string) : bool :=
  forallb (fun u => bool_decide (u ∉ P) &&
                    existsb (fun d => bool_decide (d ∈ C)) (edges g u)) C.

(** A state in which the units of [C] are stuck, on the graph [g]. *)
Definition stuck_in (g : list (string * list string)) (C : list string) (s : state) : Prop :=
  file_dep_graph (self s) = g /\ stuck g (processed_files (self s)) C = true.

(** The part of a state that progress is made of is the same in [s1]
    as in [s]. *)
Definition same_progress (s s1 : state) : Prop :=
  working_dir (self s1) = working_dir (self s) /\
  progress_file (self s1) = progress_file (self s) /\
  file_dep_graph (self s1) = file_dep_graph (self s) /\
  processed_files (self s1) = processed_files (self s) /\
  progress_files (outside s1) = progress_files (outside s).

(** [process_file] from the announcement of a unit to the loop over its
    new symbols (lines 149 to 160): all that is done for the unit before
    [self.processed_files.add]. *)
Definition translate_unit
    (service : list event -> request -> result (list (option string)))
    (json_loads : string -> option json) (py_repr : json -> string)
    (read_file : string -> option string) (filename : string) : M state unit :=
  (log (Processing filename) ;;
   do wd <- gets (fun s => working_dir (self s));
   let path := join wd filename in
   log (OpenUnit path) ;;
   do code <- lift (open_read read_file path);
   do predefined <- gets (fun s => symbols (self s));
   log (Transform filename) ;;
   do out <- in_world (generate_java_code service json_loads code predefined);
   log (Print out.1) ;;
   do new_symbols <- lift (py_iter out.2);
   for_each (add_symbol py_repr) new_symbols)%prog.

(** Every name of a graph: its keys and the targets of its edges. *)
Definition units (g : list (string * list string)) : list string :=
  g.*1 ++ concat g.*2.

(** What is logged for a unit after its file was opened: no other unit is
    announced, opened or marked. *)
Definition after_open (f : string) (e : event) : Prop :=
  match e with
  | Processing _ | OpenUnit _ => False
  | MarkProcessed u => u = f
  | _ => True
  end.

(** In a stretch of the trace, every unit marked as processed was opened
    at [wd] joined with its name, and nothing else was opened than [wd]
    joined with one of [names]. *)
Definition opened_at (wd : string) (names : list string) (tr : list event) : Prop :=
  (forall u, MarkProcessed u ∈ tr -> OpenUnit (join wd u) ∈ tr) /\
  (forall p, OpenUnit p ∈ tr -> exists u, u ∈ names /\ p = join wd u).

(** From a state with working directory [wd] and graph [g], a computation
    leaves both as they are and logs a stretch that is [opened_at]. *)
Definition opens (wd : string) (g : list (string * list string)) (s s' : state) : Prop :=
  working_dir (self s) = wd -> file_dep_graph (self s) = g ->
  working_dir (self s') = wd /\ file_dep_graph (self s') = g /\
  exists tr, trace (outside s') = trace (outside s) ++ tr /\ opened_at wd (units g) tr.

(** What is run from the command line: [Processor(working_dir).process()]. *)
Definition main
    (service : list event -> request -> result (list (option string)))
    (json_loads : string -> option json) (py_repr : json -> string)
    (walk : string -> list (string * list string)) (read_file : string -> option string)
    (depth : nat) (wd : string) (w : world) : result unit * state :=
  match Processor service json_loads walk read_file wd w with
  | (Ok _, s) => process service json_loads py_repr read_file depth s
  | (Raise e, s) => (Raise e, s)
  end.

Definition inv (s0 : state) (X : gset string) (s : state) : Prop :=
  run_from s0 s /\ X ⊆ processed_files (self s).

(** From a state satisfying [I] and [P], the computation keeps [I]
    whatever happens, and establishes [Q] when it returns. *)
Definition triple {S A} (I P : S -> Prop) (c : M S A) (Q : A -> S -> Prop) : Prop :=
  forall s r s', I s -> P s -> c s = (r, s') -> I s' /\ forall a, r = Ok a -> Q a s'.

End Obs.

(** * Properties *)

(** ** Serialisation does not depend on the order of dict items *)

Module JsonFacts.
Import Py Json.

Lemma json_ind' (P : json -> Prop) :
  P JNull -> (forall b, P (JBool b)) -> (forall n, P (JInt n)) ->
  (forall r, P (JFloat r)) -> (forall s, P (JStr s)) ->
  (forall l, Forall P l -> P (JList l)) ->
  (forall d, Forall (fun kv : string * json => P kv.2) d -> P (JDict d)) ->
  forall v, P v.
Proof.
  intros Hnull Hbool Hint Hfloat Hstr Hlist Hdict.
  fix IH 1. intros [ | b | n | r | s | l | d].
  - exact Hnull.
  - apply Hbool.
  - apply Hint.
  - apply Hfloat.
  - apply Hstr.
  - apply Hlist. induction l as [|x l IHl]; constructor; [apply IH | exact IHl].
  - apply Hdict. induction d as [|kv d IHd]; constructor; [apply IH | exact IHd].
Qed.

Lemma assoc_elem_of {A} k (v : A) d : assoc k d = Some v -> (k, v) ∈ d.
Proof.
  induction d as [|[k' v'] d IH]; simpl; [done|].
  destruct (String.eqb_spec k' k) as [->|Hne].
  - intros [= ->]. left.
  - intros H. right. auto.
Qed.

Lemma NoDup_keys_functional {A} (d : list (string * A)) k a b :
  NoDup d.*1 -> (k, a) ∈ d -> (k, b) ∈ d -> a = b.
Proof.
  induction d as [|[k' v'] d IH]; simpl; intros Hnd Ha Hb.
  { by apply elem_of_nil in Ha. }
  apply NoDup_cons in Hnd as [Hnotin Hnd].
  apply elem_of_cons in Ha as [Ha|Ha]; apply elem_of_cons in Hb as [Hb|Hb];
    simplify_eq; auto.
  - exfalso. apply Hnotin. apply (list_elem_of_fmap_2 fst _ (k', b)). done.
  - exfalso. apply Hnotin. apply (list_elem_of_fmap_2 fst _ (k', a)). done.
Qed.

Global Instance item_le_trans : Transitive item_le.
Proof. intros a b c. unfold item_le. apply transitivity. Qed.
Global Instance item_le_total : Total item_le.
Proof. intros a b. unfold item_le. apply total. apply _. Qed.

(** Sorting two lists of items with the same content gives the same list. *)
Lemma sort_items_Permutation l1 l2 :
  NoDup l2.*1 -> l1 ≡ₚ l2 -> sort_items l1 = sort_items l2.
Proof.
  intros Hnd Hp. unfold sort_items.
  apply (Sorted_unique_strong item_le).
  - intros x1 x2 H1 H2 H12 H21.
    assert (x1.1 = x2.1) as Hk by (apply (anti_symm String.le); assumption).
    rewrite merge_sort_Permutation in H1, H2. rewrite Hp in H1.
    destruct x1 as [k1 v1], x2 as [k2 v2]; simpl in *; subst.
    f_equal. eapply NoDup_keys_functional; eauto.
  - apply Sorted_merge_sort, _.
  - apply Sorted_merge_sort, _.
  - by rewrite !merge_sort_Permutation.
Qed.

Lemma dumps_same_value a :
  forall b, well_formed a = true -> well_formed b = true ->
    same_value a b = true -> dumps a = dumps b.
Proof.
  induction a as [ | x | x | x | x | l1 IH | d1 IH] using json_ind';
    intros [ | y | y | y | y | l2 | d2] Hwa Hwb Heq; try discriminate; simpl in *.
  - done.
  - apply Bool.eqb_prop in Heq. by subst.
  - apply Z.eqb_eq in Heq. by subst.
  - apply String.eqb_eq in Heq. by subst.
  - apply String.eqb_eq in Heq. by subst.
  - assert (dumps <$> l1 = dumps <$> l2) as ->; [|done].
    revert l2 Hwb Heq. induction l1 as [|x l1 IHl]; intros [|y l2] Hwb Heq;
      try discriminate; [done|]. simpl in *.
    apply andb_true_iff in Hwa as [Hx Hl1]. apply andb_true_iff in Hwb as [Hy Hl2].
    apply andb_true_iff in Heq as [Hxy Hrest].
    apply Forall_cons in IH as [IHx IH].
    f_equal; [by apply IHx | by apply IHl].
  - apply andb_true_iff in Hwa as [Hnd1 Hw1]. apply andb_true_iff in Hwb as [Hnd2 Hw2].
    apply andb_true_iff in Heq as [Hlen Hall].
    apply bool_decide_eq_true in Hnd1, Hnd2. apply Nat.eqb_eq in Hlen.
    set (f := fun kv : string * json => (kv.1, dumps kv.2)).
    assert (sort_items (f <$> d1) = sort_items (f <$> d2)) as ->; [|done].
    assert (Hk1 : (f <$> d1).*1 = d1.*1) by (rewrite <-list_fmap_compose; done).
    assert (Hk2 : (f <$> d2).*1 = d2.*1) by (rewrite <-list_fmap_compose; done).
    apply sort_items_Permutation; [by rewrite Hk2|].
    apply submseteq_length_Permutation; [|by rewrite !length_fmap, Hlen].
    apply NoDup_submseteq.
    { apply (NoDup_fmap_1 fst). by rewrite Hk1. }
    intros x Hx. apply list_elem_of_fmap in Hx as [[k v] [-> Hkv]].
    rewrite Forall_forall in IH. rewrite forallb_forall in Hall, Hw1, Hw2.
    apply list_elem_of_In in Hkv as Hin.
    specialize (Hall _ Hin). simpl in Hall.
    destruct (assoc k d2) as [v'|] eqn:Hv'; [|discriminate].
    apply assoc_elem_of in Hv'.
    apply list_elem_of_fmap. exists (k, v'). split; [|done].
    unfold f; simpl. f_equal.
    apply (IH (k, v) Hkv); [by apply (Hw1 (k, v))| |done].
    apply (Hw2 (k, v')). by apply list_elem_of_In.
Qed.
End JsonFacts.

(** ** The memoising wrapper *)

Module AIFacts.
Import Py Json Env AI JsonFacts.

Lemma universal_newlines_facts s :
  (no_cr (universal_newlines s) = true /\
   (no_cr s = true -> universal_newlines s = s) /\
   (s <> "" -> universal_newlines s <> "")) /\
  forall c,
    no_cr (universal_newlines (String c s)) = true /\
    (no_cr (String c s) = true -> universal_newlines (String c s) = String c s) /\
    universal_newlines (String c s) <> "".
Proof.
  induction s as [|c' s [[IH1 [IH2 IH3]] IHc]].
  - split; [done|]. intros c. simpl.
    destruct (Ascii.eqb c "013") eqn:Hc; simpl; [done|]. by rewrite Hc.
  - split.
    + destruct (IHc c') as (H1 & H2 & H3). done.
    + intros c. simpl.
      destruct (Ascii.eqb c "013") eqn:Hc; simpl.
      * split; [|done].
        destruct (Ascii.eqb c' "010"); [done|]. by destruct (IHc c') as (H1 & _).
      * rewrite Hc. simpl. destruct (IHc c') as (H1 & H2 & H3).
        split; [done|]. split; [|done].
        intros Hn. f_equal. by apply H2.
Qed.

Lemma universal_newlines_no_cr s : no_cr s = true -> universal_newlines s = s.
Proof. apply universal_newlines_facts. Qed.

Lemma universal_newlines_idem s :
  universal_newlines (universal_newlines s) = universal_newlines s.
Proof. apply universal_newlines_no_cr, universal_newlines_facts. Qed.

Lemma universal_newlines_nonempty s : s <> "" -> universal_newlines s <> "".
Proof. apply universal_newlines_facts. Qed.

Lemma truthy_Some s : s <> "" -> truthy (Some s) = true.
Proof. intros H. simpl. by apply negb_true_iff, String.eqb_neq. Qed.

Lemma service_calls_app tr1 tr2 :
  service_calls (tr1 ++ tr2) = service_calls tr1 ++ service_calls tr2.
Proof. apply omap_app. Qed.

Section Ask.
Variable service : list event -> request -> result (list (option string)).

(** A usable entry is served as it is read, and only logged. *)
Lemma ask_hit ch model mt jm dir w text :
  _load_from_cache (_generate_cache_key ch model mt jm) dir w = Some text ->
  text <> "" ->
  ask service ch model mt jm true dir w
  = (Ok (Some text), emit (CacheHit (_generate_cache_key ch model mt jm)) w).
Proof.
  intros Hload Hne. unfold ask, bind, gets, ret, modify. simpl.
  rewrite Hload, (truthy_Some _ Hne). done.
Qed.

(** Without a usable entry the service is called, once. *)
Lemma ask_miss ch model mt jm cm dir w :
  cm && truthy (_load_from_cache (_generate_cache_key ch model mt jm) dir w) = false ->
  ask service ch model mt jm cm dir w
  = let r := make_request (as_message <$> ch) model mt jm in
    let w1 := emit (ServiceCall r) w in
    match service (trace w) r with
    | Raise e => (Raise e, w1)
    | Ok [] => (Raise IndexError, w1)
    | Ok (result :: _) =>
        if cm then
          match _save_to_cache (_generate_cache_key ch model mt jm) result dir w1 with
          | (Ok _, w2) => (Ok result, w2)
          | (Raise e, w2) => (Raise e, w2)
          end
        else (Ok result, w1)
    end.
Proof.
  intros Hmiss. unfold ask, bind, gets, ret, modify, call_service, raise. simpl.
  destruct cm; simpl in *.
  - rewrite Hmiss. destruct (service _ _) as [[|result ?]|e]; done.
  - destruct (service _ _) as [[|result ?]|e]; done.
Qed.

(** C3 (as amended): with [cached_mode] on, a cache file that exists
    under the derived key and is not empty is returned, as text-mode
    reading yields it, without the service being invoked.  Hence, once
    a call with [cached_mode] on has returned a non-empty output, the
    same call made again invokes the service no more (so at most once
    over the two calls) and returns the first output as read back from
    the file, which is the first output itself when it has no carriage
    return. *)
Theorem cache_hit_skips_service ch model mt jm dir w :
  let key := _generate_cache_key ch model mt jm in
  (forall stored,
      cache_files w !! cache_path key dir = Some stored -> stored <> "" ->
      ask service ch model mt jm true dir w
      = (Ok (Some (universal_newlines stored)), emit (CacheHit key) w) /\
      service_calls (trace (emit (CacheHit key) w)) = service_calls (trace w)) /\
  (forall out1 w1,
      ask service ch model mt jm true dir w = (Ok (Some out1), w1) -> out1 <> "" ->
      length (service_calls (trace w1)) <= S (length (service_calls (trace w))) /\
      ask service ch model mt jm true dir w1
      = (Ok (Some (universal_newlines out1)), emit (CacheHit key) w1) /\
      service_calls (trace (emit (CacheHit key) w1)) = service_calls (trace w1) /\
      (no_cr out1 = true -> universal_newlines out1 = out1))%nat.
Proof.
  intros key.
  assert (Hquiet : forall w0, service_calls (trace (emit (CacheHit key) w0))
                              = service_calls (trace w0)).
  { intros w0. simpl. rewrite service_calls_app. simpl. by rewrite app_nil_r. }
  split.
  - intros stored Hstored Hne. split; [|apply Hquiet].
    apply ask_hit; [|by apply universal_newlines_nonempty].
    unfold _load_from_cache. fold key. by rewrite Hstored.
  - intros out1 w1 Hask Hne.
    destruct (truthy (_load_from_cache key dir w)) eqn:Htruthy.
    + (* the first call was itself served from the cache *)
      destruct (_load_from_cache key dir w) as [text|] eqn:Hload; [|done].
      assert (text <> "") as Htext.
      { simpl in Htruthy. by apply String.eqb_neq, negb_true_iff. }
      rewrite (ask_hit _ _ _ _ _ _ _ Hload Htext) in Hask.
      injection Hask as <- <-. fold key.
      assert (universal_newlines text = text) as Hid.
      { unfold _load_from_cache in Hload.
        destruct (cache_files w !! _) as [stored|]; [|done].
        injection Hload as <-. apply universal_newlines_idem. }
      rewrite Hid. split; [rewrite Hquiet; lia|].
      split; [|split; [apply Hquiet | done]].
      apply ask_hit; [|done]. exact Hload.
    + rewrite ask_miss in Hask by (by fold key; rewrite Htruthy).
      simpl in Hask. fold key in Hask.
      destruct (service _ _) as [[|result ?]|e]; try done.
      unfold _save_to_cache, bind, modify, raise in Hask.
      destruct (String.eqb dir "") eqn:Hdir; [done|].
      destruct result as [text|]; [|done].
      injection Hask as <- <-.
      assert (_load_from_cache key dir
                (write_cache (cache_path key dir) text
                   (write_cache (cache_path key dir) ""
                      (emit (ServiceCall (make_request (as_message <$> ch) model mt jm)) w)))
              = Some (universal_newlines text)) as Hload.
      { unfold _load_from_cache. simpl. by rewrite lookup_insert_eq. }
      repeat split.
      * simpl. rewrite service_calls_app, length_app. simpl. lia.
      * apply ask_hit; [exact Hload | by apply universal_newlines_nonempty].
      * apply Hquiet.
      * apply universal_newlines_no_cr.
Qed.

(** C5: when the service is called (no usable entry, or [cached_mode]
    off) and the call raises, [ask] raises the same exception; the only
    thing that happened is that one call, and every cache file and
    progress file is as it was. *)
Theorem service_failure_propagates ch model mt jm cm dir w e :
  cm && truthy (_load_from_cache (_generate_cache_key ch model mt jm) dir w) = false ->
  service (trace w) (make_request (as_message <$> ch) model mt jm) = Raise e ->
  exists w',
    ask service ch model mt jm cm dir w = (Raise e, w') /\
    cache_files w' = cache_files w /\
    progress_files w' = progress_files w /\
    trace w' = trace w ++ [ServiceCall (make_request (as_message <$> ch) model mt jm)].
Proof.
  intros Hmiss Hfail. rewrite (ask_miss _ _ _ _ _ _ _ Hmiss). simpl. rewrite Hfail.
  eexists. split; [reflexivity|]. done.
Qed.
End Ask.

(** C4: the key depends on the content of the request only: two
    conversations that are structurally equal, the items of their message
    dicts being listed in whatever order, get the same key for the same
    model, size limit and mode. *)
Theorem cache_key_canonical (h1 h2 : list json) model max_tokens json_mode :
  well_formed (JList h1) = true -> well_formed (JList h2) = true ->
  same_value (JList h1) (JList h2) = true ->
  _generate_cache_key h1 model max_tokens json_mode
  = _generate_cache_key h2 model max_tokens json_mode.
Proof.
  intros Hw1 Hw2 Heq. unfold _generate_cache_key. f_equal.
  apply dumps_same_value.
  - change (well_formed (JList h1) && true = true). by rewrite Hw1.
  - change (well_formed (JList h2) && true = true). by rewrite Hw2.
  - change (same_value (JList h1) (JList h2)
            && (String.eqb model model && (Z.eqb max_tokens max_tokens
            && (Bool.eqb json_mode json_mode && true))) = true).
    rewrite Heq, String.eqb_refl, Z.eqb_refl, Bool.eqb_reflx. done.
Qed.

Lemma cache_key_canonical_witness :
  let h1 := [JDict [("role", JStr "system"); ("content", JStr "translate")]] in
  let h2 := [JDict [("content", JStr "translate"); ("role", JStr "system")]] in
  well_formed (JList h1) = true /\ well_formed (JList h2) = true /\
  same_value (JList h1) (JList h2) = true /\
  _generate_cache_key h1 default_model default_max_tokens true
  = _generate_cache_key h2 default_model default_max_tokens true.
Proof.
  intros h1 h2.
  assert (Hw1 : well_formed (JList h1) = true) by (vm_compute; reflexivity).
  assert (Hw2 : well_formed (JList h2) = true) by (vm_compute; reflexivity).
  assert (Heq : same_value (JList h1) (JList h2) = true) by (vm_compute; reflexivity).
  split; [exact Hw1|]. split; [exact Hw2|]. split; [exact Heq|].
  exact (cache_key_canonical h1 h2 default_model default_max_tokens true Hw1 Hw2 Heq).
Defined.

Lemma cache_hit_skips_service_witness :
  let svc := Scenario.answers "fresh" in
  let ch := [JStr "hello"] in
  let key := _generate_cache_key ch default_model default_max_tokens false in
  let w := write_cache (cache_path key default_cache_dir) "stored" Scenario.empty_world in
  let w1 := (ask svc ch default_model default_max_tokens false true default_cache_dir
               Scenario.empty_world).2 in
  (cache_files w !! cache_path key default_cache_dir = Some "stored" /\ "stored" <> "" /\
   ask svc ch default_model default_max_tokens false true default_cache_dir w
   = (Ok (Some (universal_newlines "stored")), emit (CacheHit key) w)) /\
  (ask svc ch default_model default_max_tokens false true default_cache_dir
     Scenario.empty_world = (Ok (Some "fresh"), w1) /\ "fresh" <> "" /\
   ask svc ch default_model default_max_tokens false true default_cache_dir w1
   = (Ok (Some (universal_newlines "fresh")), emit (CacheHit key) w1)).
Proof.
  intros svc ch key w w1.
  assert (H1 : cache_files w !! cache_path key default_cache_dir = Some "stored")
    by (vm_compute; reflexivity).
  assert (H2 : "stored" <> "") by discriminate.
  assert (H3 : ask svc ch default_model default_max_tokens false true default_cache_dir
                 Scenario.empty_world = (Ok (Some "fresh"), w1))
    by (vm_compute; reflexivity).
  assert (H4 : "fresh" <> "") by discriminate.
  split.
  - split; [exact H1|]. split; [exact H2|].
    exact (proj1 (proj1 (cache_hit_skips_service svc ch default_model default_max_tokens
                           false default_cache_dir w) "stored" H1 H2)).
  - split; [exact H3|]. split; [exact H4|].
    exact (proj1 (proj2 (proj2 (cache_hit_skips_service svc ch default_model
                                  default_max_tokens false default_cache_dir
                                  Scenario.empty_world) "fresh" w1 H3 H4))).
Defined.

(** C3 as stated fails on these inputs.  An entry exists under the derived
    key and (a) [cached_mode] is off, or (b) the entry is empty: the service
    is invoked and its answer, not the stored text, is returned.  The same
    request is made twice with [cached_mode] on and (c) the service answers
    with the empty string: it is invoked twice; (d) the service answers
    with a carriage return in the text: the second output is not the first. *)
Lemma cache_entry_not_always_served :
  let ch := [JStr "hello"] in
  let key := _generate_cache_key ch default_model default_max_tokens false in
  let path := cache_path key default_cache_dir in
  let call svc cached_mode :=
    ask svc ch default_model default_max_tokens false cached_mode default_cache_dir in
  (let w := write_cache path "stored" Scenario.empty_world in
   cache_files w !! path = Some "stored" /\
   (call (Scenario.answers "fresh") false w).1 = Ok (Some "fresh") /\
   length (service_calls (trace (call (Scenario.answers "fresh") false w).2)) = 1%nat) /\
  (let w := write_cache path "" Scenario.empty_world in
   cache_files w !! path = Some "" /\
   (call (Scenario.answers "fresh") true w).1 = Ok (Some "fresh") /\
   length (service_calls (trace (call (Scenario.answers "fresh") true w).2)) = 1%nat) /\
  (let w1 := (call (Scenario.answers "") true Scenario.empty_world).2 in
   (call (Scenario.answers "") true Scenario.empty_world).1 = Ok (Some "") /\
   (call (Scenario.answers "") true w1).1 = Ok (Some "") /\
   length (service_calls (trace (call (Scenario.answers "") true w1).2)) = 2%nat) /\
  (let text := "a" +:+ Scenario.crlf +:+ "b" in
   let w1 := (call (Scenario.answers text) true Scenario.empty_world).2 in
   (call (Scenario.answers text) true Scenario.empty_world).1 = Ok (Some text) /\
   (call (Scenario.answers text) true w1).1 = Ok (Some ("a" +:+ Main.newline +:+ "b")) /\
   (call (Scenario.answers text) true w1).1
   <> (call (Scenario.answers text) true Scenario.empty_world).1).
Proof.
  vm_compute. repeat split; discriminate.
Qed.

Lemma service_failure_propagates_witness :
  let ch := [JStr "hello"] in
  let r := make_request (as_message <$> ch) default_model default_max_tokens false in
  true && truthy (_load_from_cache
                    (_generate_cache_key ch default_model default_max_tokens false)
                    default_cache_dir Scenario.empty_world) = false /\
  Scenario.down (trace Scenario.empty_world) r = Raise ServiceError /\
  exists w',
    ask Scenario.down ch default_model default_max_tokens false true default_cache_dir
      Scenario.empty_world = (Raise ServiceError, w') /\
    cache_files w' = cache_files Scenario.empty_world /\
    progress_files w' = progress_files Scenario.empty_world /\
    trace w' = trace Scenario.empty_world ++ [ServiceCall r].
Proof.
  intros ch r.
  assert (H1 : true && truthy (_load_from_cache
                    (_generate_cache_key ch default_model default_max_tokens false)
                    default_cache_dir Scenario.empty_world) = false)
    by (vm_compute; reflexivity).
  assert (H2 : Scenario.down (trace Scenario.empty_world) r = Raise ServiceError)
    by (unfold Scenario.down; reflexivity).
  split; [exact H1|]. split; [exact H2|].
  exact (service_failure_propagates Scenario.down ch default_model default_max_tokens
           false true default_cache_dir Scenario.empty_world ServiceError H1 H2).
Defined.

(** C10: the key is computed from [chat_history] as passed, the request
    from the normalised [history].  A bare string and the user message it
    is turned into give the same request and different keys, so the
    answer cached for the one is not found for the other: the service is
    called a second time with the same request, and a second file is
    written. *)
Theorem raw_history_splits_cache :
  exists text : string,
    let plain := [JStr text] in
    let shaped := [JDict [("role", JStr "user"); ("content", JStr text)]] in
    let r := make_request (as_message <$> plain) default_model default_max_tokens false in
    let call ch :=
      ask (Scenario.answers "answer") ch default_model default_max_tokens false true
        default_cache_dir in
    make_request (as_message <$> shaped) default_model default_max_tokens false = r /\
    _generate_cache_key plain default_model default_max_tokens false
    <> _generate_cache_key shaped default_model default_max_tokens false /\
    (call plain Scenario.empty_world).1 = Ok (Some "answer") /\
    (call shaped (call plain Scenario.empty_world).2).1 = Ok (Some "answer") /\
    service_calls (trace (call shaped (call plain Scenario.empty_world).2).2) = [r; r] /\
    size (cache_files (call shaped (call plain Scenario.empty_world).2).2) = 2%nat.
Proof.
  exists "hello". cbv zeta. split; [reflexivity|].
  split; [vm_compute; discriminate|].
  vm_compute. done.
Qed.

End AIFacts.

(** ** Rules of the program logic *)

Module Logic.
Import Py Json Env Obs.

Section Rules.
Context {S : Type}.
Implicit Types (I P : S -> Prop).

Lemma triple_ret {A} I P (a : A) (Q : A -> S -> Prop) :
  (forall s, I s -> P s -> Q a s) -> triple I P (ret a) Q.
Proof. intros H s r s' HI HP [= <- <-]. split; [done|]. intros ? [= <-]. auto. Qed.

Lemma triple_raise {A} I P e (Q : A -> S -> Prop) : triple I P (raise e) Q.
Proof. intros s r s' HI HP [= <- <-]. split; [done|]. intros ? [=]. Qed.

Lemma triple_lift {A} I P (x : result A) (Q : A -> S -> Prop) :
  (forall a s, x = Ok a -> I s -> P s -> Q a s) -> triple I P (lift x) Q.
Proof. intros H s r s' HI HP [= <- <-]. split; [done|]. intros a ->. eauto. Qed.

Lemma triple_gets {A} I P (f : S -> A) (Q : A -> S -> Prop) :
  (forall s, I s -> P s -> Q (f s) s) -> triple I P (gets f) Q.
Proof. intros H s r s' HI HP [= <- <-]. split; [done|]. intros ? [= <-]. auto. Qed.

Lemma triple_modify I P (f : S -> S) (Q : unit -> S -> Prop) :
  (forall s, I s -> P s -> I (f s) /\ Q tt (f s)) -> triple I P (modify f) Q.
Proof.
  intros H s r s' HI HP [= <- <-]. destruct (H s HI HP) as [? ?].
  split; [done|]. by intros [] _.
Qed.

Lemma triple_bind {A B} I P (c : M S A) (k : A -> M S B) Q1 (Q : B -> S -> Prop) :
  triple I P c Q1 -> (forall a, triple I (Q1 a) (k a) Q) -> triple I P (bind c k) Q.
Proof.
  intros Hc Hk s r s' HI HP. unfold bind.
  destruct (c s) as [[a|e] s1] eqn:Hcs.
  - destruct (Hc _ _ _ HI HP Hcs) as [HI1 HQ1]. intros Hks.
    exact (Hk a _ _ _ HI1 (HQ1 a eq_refl) Hks).
  - intros [= <- <-]. destruct (Hc _ _ _ HI HP Hcs) as [HI1 _].
    split; [done|]. intros ? [=].
Qed.

Lemma triple_conseq {A} I I' P P' (c : M S A) (Q Q' : A -> S -> Prop) :
  triple I' P' c Q' ->
  (forall s, I s -> P s -> I' s /\ P' s) ->
  (forall s, I' s -> I s) ->
  (forall a s, I' s -> Q' a s -> Q a s) ->
  triple I P c Q.
Proof.
  intros Hc Hpre Hinv Hpost s r s' HI HP Hcs.
  destruct (Hpre s HI HP) as [HI' HP'].
  destruct (Hc _ _ _ HI' HP' Hcs) as [HI1 HQ].
  split; [auto|]. intros a ->. eauto.
Qed.

Lemma triple_for_each {A} I (L : list A -> S -> Prop) (body : A -> M S unit) (l : list A) :
  (forall done x, x ∈ l -> triple I (L done) (body x) (fun _ => L (done ++ [x]))) ->
  forall done, triple I (L done) (for_each body l) (fun _ => L (done ++ l)).
Proof.
  induction l as [|x l IH]; intros Hbody done; simpl.
  - apply triple_ret. intros s _ H. by rewrite app_nil_r.
  - eapply triple_bind; [apply Hbody; left|].
    intros []. eapply triple_conseq; [apply (IH (fun d y Hy => Hbody d y (list_elem_of_further _ _ _ Hy)) (done ++ [x]))|..]; auto.
    intros a s _. by rewrite <-app_assoc.
Qed.
End Rules.

(** How a sequence ends. *)
Lemma bind_inv {S A B} (c : M S A) (k : A -> M S B) s r s' :
  bind c k s = (r, s') ->
  (exists e, c s = (Raise e, s') /\ r = Raise e) \/
  (exists a s1, c s = (Ok a, s1) /\ k a s1 = (r, s')).
Proof.
  unfold bind. destruct (c s) as [[a|e] s1].
  - intros H. right. by exists a, s1.
  - intros [= <- <-]. left. by exists e.
Qed.

End Logic.

(** ** Traces of the executor *)

Module TraceFacts.
Import Py Json Env Main Obs JsonFacts.

Lemma elem_of_marked f tr : f ∈ marked tr <-> MarkProcessed f ∈ tr.
Proof.
  unfold marked. rewrite elem_of_list_to_set, list_elem_of_omap. split.
  - intros [e [He Hf]]. destruct e; simplify_eq. done.
  - intros H. exists (MarkProcessed f). done.
Qed.

Lemma marked_app a b : marked (a ++ b) = marked a ∪ marked b.
Proof. unfold marked. rewrite omap_app. apply list_to_set_app_L. Qed.

Lemma marked_quiet tr : Forall quiet tr -> marked tr = ∅.
Proof.
  intros H. apply set_eq. intros f. rewrite elem_of_marked.
  split; [|set_solver]. intros Hin. rewrite Forall_forall in H.
  destruct (H _ Hin).
Qed.

Lemma ordered_app g a : forall P b,
  ordered g P (a ++ b) <-> ordered g P a /\ ordered g (P ∪ marked a) b.
Proof.
  induction a as [|e a IH]; intros P b.
  - simpl. replace (P ∪ marked []) with P by (unfold marked; simpl; set_solver). tauto.
  - destruct e; simpl;
      try (change (marked (?e :: a)) with (marked a); apply IH).
    + change (marked (Transform filename :: a)) with (marked a).
      rewrite IH. tauto.
    + replace (P ∪ marked (MarkProcessed filename :: a))
        with ({[filename]} ∪ P ∪ marked a); [apply IH|].
      change (marked (MarkProcessed filename :: a)) with ({[filename]} ∪ marked a).
      set_solver.
Qed.

Lemma ordered_quiet g P tr : Forall quiet tr -> ordered g P tr.
Proof.
  induction 1 as [|e tr He _ IH]; simpl; [done|]. destruct e; simpl in *; done.
Qed.


Lemma run_from_refl s : run_from s s.
Proof.
  split; try done. exists []. rewrite app_nil_r.
  repeat split; [unfold marked; simpl; set_solver|].
  intros p Hp. by apply elem_of_nil in Hp.
Qed.

(** Appending quiet events, whatever happens to the files. *)
Lemma run_from_quiet s0 s s' tr2 :
  run_from s0 s -> self s' = self s ->
  trace (outside s') = trace (outside s) ++ tr2 -> Forall quiet tr2 ->
  run_from s0 s'.
Proof.
  intros [Hwd Hpf Hg Hsym (tr & Htr & Hproc & Hord & Hopen)] Hself Htrace Hq.
  split; rewrite ?Hself; try done.
  exists (tr ++ tr2). rewrite Htrace, Htr, app_assoc. split; [done|].
  rewrite marked_app, (marked_quiet _ Hq). split; [set_solver|]. split.
  - apply ordered_app. split; [done|]. by apply ordered_quiet.
  - intros p Hp. apply elem_of_app in Hp as [Hp|Hp].
    + destruct (Hopen p Hp) as (f & Hf & ->). exists f. split; [|done].
      apply elem_of_app. by left.
    + rewrite Forall_forall in Hq. destruct (Hq _ Hp).
Qed.

Lemma inv_quiet s0 X s s' tr2 :
  inv s0 X s -> self s' = self s ->
  trace (outside s') = trace (outside s) ++ tr2 -> Forall quiet tr2 ->
  inv s0 X s'.
Proof.
  intros [Hrf HX] Hself Htrace Hq. split; [by eapply run_from_quiet|].
  by rewrite Hself.
Qed.

Lemma inv_open s0 X s f tr' :
  inv s0 X s ->
  trace (outside s) = trace (outside s0) ++ tr' ++ [Processing f] ->
  inv s0 X (with_outside (emit (OpenUnit (join (working_dir (self s)) f))) s).
Proof.
  intros [[Hwd Hpf Hg Hsym (tr & Htr & Hproc & Hord & Hopen)] HX] Hlast.
  split; [|done]. split; try done.
  exists (tr ++ [OpenUnit (join (working_dir (self s)) f)]). simpl.
  rewrite Htr, app_assoc. split; [done|].
  rewrite marked_app. split; [rewrite Hproc; unfold marked; simpl; set_solver|]. split.
  - apply ordered_app. split; [done|]. simpl. done.
  - rewrite Htr in Hlast. apply app_inv_head in Hlast. subst tr.
    intros p Hp. apply elem_of_app in Hp as [Hp|Hp].
    + destruct (Hopen p Hp) as (f' & Hf' & ->). exists f'. split; [|done].
      apply elem_of_app. by left.
    + apply list_elem_of_singleton in Hp. injection Hp as ->.
      exists f. rewrite Hwd. split; [|done].
      apply elem_of_app. left. apply elem_of_app. right. by left.
Qed.

Lemma inv_transform s0 X s f :
  inv s0 X s -> (forall d, d ∈ edges (file_dep_graph (self s0)) f -> d ∈ X) ->
  inv s0 X (with_outside (emit (Transform f)) s).
Proof.
  intros [[Hwd Hpf Hg Hsym (tr & Htr & Hproc & Hord & Hopen)] HX] Hdeps.
  split; [|done]. split; try done.
  exists (tr ++ [Transform f]). simpl. rewrite Htr, app_assoc. split; [done|].
  rewrite marked_app. split; [rewrite Hproc; unfold marked; simpl; set_solver|]. split.
  - apply ordered_app. split; [done|]. simpl. split; [|done].
    intros d Hd. rewrite <-Hproc. apply HX. by apply Hdeps.
  - intros p Hp. apply elem_of_app in Hp as [Hp|Hp].
    + destruct (Hopen p Hp) as (f' & Hf' & ->). exists f'. split; [|done].
      apply elem_of_app. by left.
    + apply list_elem_of_singleton in Hp. done.
Qed.

Lemma inv_mark s0 X s f :
  inv s0 X s ->
  inv s0 ({[f]} ∪ X)
    (with_outside (emit (MarkProcessed f))
       (with_self (fun p => set_processed ({[f]} ∪ processed_files p) p) s)).
Proof.
  intros [[Hwd Hpf Hg Hsym (tr & Htr & Hproc & Hord & Hopen)] HX].
  split; [|simpl; set_solver]. split; try done.
  exists (tr ++ [MarkProcessed f]). simpl. rewrite Htr, app_assoc. split; [done|].
  rewrite marked_app. split.
  { rewrite Hproc. change (marked [MarkProcessed f]) with ({[f]} ∪ (∅ : gset string)).
    set_solver. }
  split.
  - apply ordered_app. split; [done|]. simpl. done.
  - intros p Hp. apply elem_of_app in Hp as [Hp|Hp].
    + destruct (Hopen p Hp) as (f' & Hf' & ->). exists f'. split; [|done].
      apply elem_of_app. by left.
    + apply list_elem_of_singleton in Hp. done.
Qed.

Lemma inv_symbol s0 X s key :
  inv s0 X s ->
  inv s0 X (with_self (fun p => set_symbols ({[key]} ∪ symbols p) p) s).
Proof.
  intros [[Hwd Hpf Hg Hsym Htr] HX]. split; [|done]. split; try done.
  simpl. set_solver.
Qed.

Lemma inv_weaken s0 X Y s : inv s0 X s -> Y ⊆ X -> inv s0 Y s.
Proof. intros [? ?] ?. split; [done|set_solver]. Qed.

End TraceFacts.

(** ** The executor *)

Module ExecutorFacts.
Import Py Json Env Main Obs JsonFacts Logic TraceFacts.

Section Program.
Variable service : list event -> request -> result (list (option string)).
Variable json_loads : string -> option json.
Variable py_repr : json -> string.
Variable read_file : string -> option string.

(** A call of the wrapper logs one event, a hit or a request, and leaves
    the progress files alone. *)
Lemma ask_effect ch model mt jm cm dir w r w' :
  AI.ask service ch model mt jm cm dir w = (r, w') ->
  progress_files w' = progress_files w /\
  exists e, trace w' = trace w ++ [e] /\
            match e with CacheHit _ | ServiceCall _ => True | _ => False end.
Proof.
  unfold AI.ask, AI.call_service, AI._save_to_cache, bind, gets, ret, modify, raise.
  destruct cm; simpl.
  - destruct (truthy _).
    + intros [= <- <-]. split; [done|]. by eexists.
    + destruct (service _ _) as [[|[text|] ?]|e]; simpl;
        try (intros [= <- <-]; split; [done|]; by eexists).
      * destruct (String.eqb dir ""); intros [= <- <-]; (split; [done|]; by eexists).
      * destruct (String.eqb dir ""); intros [= <- <-]; (split; [done|]; by eexists).
  - destruct (service _ _) as [[|result ?]|e]; intros [= <- <-];
      (split; [done|]; by eexists).
Qed.

Lemma generate_java_code_effect code syms w r w' :
  generate_java_code service json_loads code syms w = (r, w') ->
  exists e, trace w' = trace w ++ [e] /\ quiet e.
Proof.
  unfold generate_java_code, bind, lift, ret.
  destruct (AI.ask _ _ _ _ _ _ _ w) as [[resp|e] w1] eqn:Hask.
  - apply ask_effect in Hask as [_ (e & He & Hk)].
    intros H. assert (w' = w1) as ->.
    { destruct (loads json_loads resp) as [obj|]; [|by injection H].
      destruct (py_getitem obj "java_code"); [|by injection H].
      destruct (py_getitem obj "symbols"); by injection H. }
    exists e. split; [done|]. by destruct e.
  - apply ask_effect in Hask as [_ (e' & He & Hk)].
    intros [= <- <-]. exists e'. split; [done|]. by destruct e'.
Qed.

Local Abbreviation transform_unit := (transform_unit service json_loads py_repr read_file).
Local Abbreviation process_file := (process_file service json_loads py_repr read_file).
Local Abbreviation process := (process service json_loads py_repr read_file).

Lemma add_symbol_triple s0 X symbol :
  triple (inv s0 X) (fun _ => True) (add_symbol py_repr symbol) (fun _ _ => True).
Proof.
  unfold add_symbol.
  eapply triple_bind; [apply triple_lift; intros; exact I|]. intros oracle.
  eapply triple_bind; [apply triple_lift; intros; exact I|]. intros java.
  apply triple_modify. intros s Hs _. split; [|done]. by apply inv_symbol.
Qed.

(** A loop whose body leaves its argument processed leaves them all
    processed. *)
Lemma for_each_processed s0 X (body : string -> M state unit) l :
  (forall Y x, triple (inv s0 Y) (fun _ => True) (body x)
                 (fun _ s' => x ∈ processed_files (self s'))) ->
  triple (inv s0 X) (fun _ => True) (for_each body l)
    (fun _ s' => forall d, d ∈ l -> d ∈ processed_files (self s')).
Proof.
  intros Hbody.
  eapply triple_conseq;
    [apply (triple_for_each (inv s0 X)
              (fun seen s => forall d, d ∈ seen -> d ∈ processed_files (self s))
              body l) with (done := [])|..]; auto.
  - intros seen x Hx s r s' Hs Hseen Hrun.
    destruct (Hbody (X ∪ list_to_set seen) x s r s') as [[Hrf HX] Hpost]; try done.
    { destruct Hs as [? ?]. split; [done|]. intros y Hy.
      apply elem_of_union in Hy as [Hy|Hy]; [set_solver|].
      apply elem_of_list_to_set in Hy. auto. }
    split; [split; [done|set_solver]|].
    intros [] -> d Hd. apply elem_of_app in Hd as [Hd|Hd].
    + apply HX. apply elem_of_union. right. by apply elem_of_list_to_set.
    + apply list_elem_of_singleton in Hd as ->. by apply (Hpost tt).
  - intros s Hs _. split; [done|]. intros d Hd. by apply elem_of_nil in Hd.
Qed.

(** Once its dependencies are processed, transforming a unit keeps the
    run in order, and leaves the unit processed if it returns. *)
Lemma transform_unit_triple s0 X f :
  (forall d, d ∈ edges (file_dep_graph (self s0)) f -> d ∈ X) ->
  triple (inv s0 X) (fun _ => True) (transform_unit f)
    (fun _ s' => f ∈ processed_files (self s')).
Proof.
  intros Hdeps. unfold Main.transform_unit, log.
  eapply triple_bind with
    (Q1 := fun _ s => exists tr', trace (outside s)
                                = trace (outside s0) ++ tr' ++ [Processing f]).
  { apply triple_modify. intros s Hs _. split.
    - eapply inv_quiet; [done|done|reflexivity|]. by repeat constructor.
    - destruct Hs as [[_ _ _ _ (tr & Htr & _)] _]. exists tr. simpl.
      by rewrite Htr, app_assoc. }
  intros _.
  eapply triple_bind with
    (Q1 := fun wd s => wd = working_dir (self s) /\
             exists tr', trace (outside s)
                         = trace (outside s0) ++ tr' ++ [Processing f]).
  { apply triple_gets. auto. }
  intros wd.
  eapply triple_bind with (Q1 := fun _ _ => True).
  { apply triple_modify. intros s Hs [-> [tr' Htr']]. split; [|done].
    by eapply inv_open. }
  intros _.
  eapply triple_bind with (Q1 := fun _ _ => True).
  { apply triple_lift. done. }
  intros code.
  eapply triple_bind with (Q1 := fun _ _ => True).
  { apply triple_gets. done. }
  intros predefined.
  eapply triple_bind with (Q1 := fun _ _ => True).
  { apply triple_modify. intros s Hs _. split; [|done]. by apply inv_transform. }
  intros _.
  eapply triple_bind with (Q1 := fun _ _ => True).
  { intros s r s' Hs _. unfold in_world.
    destruct (generate_java_code _ _ _ _ _) as [r1 w1] eqn:Hgen.
    intros [= <- <-]. split; [|done].
    apply generate_java_code_effect in Hgen as (e & He & Hq).
    eapply inv_quiet; [done|done|exact He|]. by repeat constructor. }
  intros out.
  eapply triple_bind with (Q1 := fun _ _ => True).
  { apply triple_modify. intros s Hs _. split; [|done].
    eapply inv_quiet; [done|done|reflexivity|]. by repeat constructor. }
  intros _.
  eapply triple_bind with (Q1 := fun _ _ => True).
  { apply triple_lift. done. }
  intros new_symbols.
  eapply triple_bind with (Q1 := fun _ _ => True).
  { eapply triple_conseq;
      [apply (triple_for_each (inv s0 X) (fun _ _ => True) (add_symbol py_repr)
                new_symbols (fun _ x _ => add_symbol_triple s0 X x) [])|..]; auto. }
  intros _.
  eapply triple_bind with (Q1 := fun _ s => f ∈ processed_files (self s)).
  { intros s r s' Hs _ [= <- <-]. split.
    - eapply inv_weaken; [by apply inv_mark|set_solver].
    - intros _ _. simpl. set_solver. }
  intros _.
  apply triple_modify. intros s Hs Hf. split; [|done].
  eapply inv_quiet; [done|done|reflexivity|]. by repeat constructor.
Qed.

Lemma process_file_triple s0 depth : forall X f,
  triple (inv s0 X) (fun _ => True) (process_file depth f)
    (fun _ s' => f ∈ processed_files (self s')).
Proof.
  induction depth as [|depth IH]; intros X f; simpl.
  { apply triple_raise. }
  eapply triple_bind with (Q1 := fun processed s => processed = processed_files (self s)).
  { apply triple_gets. done. }
  intros processed. case_bool_decide as Hin.
  { apply triple_modify. intros s Hs ->. split; [|done].
    eapply inv_quiet; [done|done|reflexivity|]. by repeat constructor. }
  eapply triple_bind with (Q1 := fun graph s => graph = file_dep_graph (self s0)).
  { apply triple_gets. intros s [[_ _ Hg _ _] _] _. done. }
  intros graph.
  eapply triple_bind with
    (Q1 := fun _ s => forall d, d ∈ edges (file_dep_graph (self s0)) f ->
                                d ∈ processed_files (self s)).
  { intros s r s' Hs ->.
    apply (for_each_processed s0 X (process_file depth)
             (edges (file_dep_graph (self s0)) f) (fun Y x => IH Y x) s r s' Hs I). }
  intros _.
  intros s r s' Hs Hdeps Hrun.
  destruct (transform_unit_triple s0
              (X ∪ list_to_set (edges (file_dep_graph (self s0)) f)) f) with s r s'
    as [[Hrf HX] Hpost]; try done.
  - intros d Hd. apply elem_of_union. right. by apply elem_of_list_to_set.
  - destruct Hs as [? ?]. split; [done|]. intros y Hy.
    apply elem_of_union in Hy as [Hy|Hy]; [set_solver|].
    apply elem_of_list_to_set in Hy. auto.
  - split; [split; [done|set_solver]|done].
Qed.

Lemma process_triple s0 depth :
  triple (inv s0 ∅) (fun _ => True) (process depth)
    (fun _ s' => forall f, f ∈ (file_dep_graph (self s0)).*1 ->
                           f ∈ processed_files (self s')).
Proof.
  unfold Main.process.
  eapply triple_bind with (Q1 := fun graph s => graph = file_dep_graph (self s0)).
  { apply triple_gets. intros s [[_ _ Hg _ _] _] _. done. }
  intros graph s r s' Hs ->.
  apply (for_each_processed s0 ∅ (process_file depth) (file_dep_graph (self s0)).*1
           (fun Y x => process_file_triple s0 depth Y x) s r s' Hs I).
Qed.

(** Every run of [process] is a run in order. *)
Lemma process_run_from depth s r s' :
  process depth s = (r, s') ->
  run_from s s' /\
  (forall a, r = Ok a -> forall f, f ∈ (file_dep_graph (self s)).*1 ->
                                   f ∈ processed_files (self s')).
Proof.
  intros Hrun.
  destruct (process_triple s depth s r s') as [[Hrf _] Hpost]; try done.
  split; [apply run_from_refl|set_solver].
Qed.

Lemma process_file_run_from depth f s r s' :
  process_file depth f s = (r, s') ->
  run_from s s' /\ (forall a, r = Ok a -> f ∈ processed_files (self s')).
Proof.
  intros Hrun.
  destruct (process_file_triple s depth ∅ f s r s') as [[Hrf _] Hpost]; try done.
  split; [apply run_from_refl|set_solver].
Qed.
End Program.
End ExecutorFacts.

(** ** Order, growth and depth of a run *)

Module RunFacts.
Import Py Json Env Main Obs JsonFacts Logic TraceFacts ExecutorFacts.



Section Program.
Variable service : list event -> request -> result (list (option string)).
Variable json_loads : string -> option json.
Variable py_repr : json -> string.
Variable read_file : string -> option string.

Local Abbreviation process_file := (process_file service json_loads py_repr read_file).
Local Abbreviation process := (process service json_loads py_repr read_file).

Lemma process_file_run depth f s : run_from s (process_file depth f s).2.
Proof.
  destruct (process_file depth f s) as [r s'] eqn:Hrun.
  by apply process_file_run_from in Hrun as [? _].
Qed.

Lemma process_run depth s : run_from s (process depth s).2.
Proof.
  destruct (process depth s) as [r s'] eqn:Hrun.
  by apply process_run_from in Hrun as [? _].
Qed.



(** C8: no step of the executor removes a symbol: whatever
    [process_file] or [process] does, and however it ends, the symbols
    known before are known after, so their number has not decreased;
    saving changes nothing of the processor. *)
Theorem symbols_only_grow depth f s :
  symbols (self s) ⊆ symbols (self (process_file depth f s).2) /\
  (size (symbols (self s)) <= size (symbols (self (process_file depth f s).2)))%nat /\
  symbols (self s) ⊆ symbols (self (process depth s).2) /\
  (size (symbols (self s)) <= size (symbols (self (process depth s).2)))%nat /\
  self (save_progress s).2 = self s.
Proof.
  pose proof (process_file_run depth f s) as [_ _ _ H1 _].
  pose proof (process_run depth s) as [_ _ _ H2 _].
  repeat split; try done; by apply subseteq_size.
Qed.
End Program.

End RunFacts.

(** ** The call graph *)

Module GraphFacts.
Import Py Json Env Main Obs JsonFacts Logic.

(** *** Insertion-ordered dicts *)

Lemma assoc_odict_set {A} k (v : A) d k' :
  assoc k' (odict_set k v d) = if String.eqb k k' then Some v else assoc k' d.
Proof.
  induction d as [|[k0 v0] d IH]; simpl.
  - done.
  - destruct (String.eqb_spec k0 k) as [->|Hne]; simpl.
    + destruct (String.eqb_spec k k'); done.
    + destruct (String.eqb_spec k0 k') as [->|Hne'].
      * destruct (String.eqb_spec k k'); [congruence|done].
      * exact IH.
Qed.

Lemma elem_of_odict_set {A} k (v : A) d x :
  x ∈ odict_set k v d -> x = (k, v) \/ x ∈ d.
Proof.
  induction d as [|[k0 v0] d IH]; simpl.
  - intros H. apply list_elem_of_singleton in H. by left.
  - destruct (String.eqb k0 k).
    + intros H. apply elem_of_cons in H as [->|H]; [by left|].
      right. by right.
    + intros H. apply elem_of_cons in H as [->|H]; [right; left|].
      destruct (IH H); [by left|right; by right].
Qed.

Lemma odict_set_keys {A} k (v : A) d k' :
  k' ∈ (odict_set k v d).*1 <-> k' = k \/ k' ∈ d.*1.
Proof.
  induction d as [|[k0 v0] d IH]; simpl.
  - rewrite list_elem_of_singleton. set_solver.
  - destruct (String.eqb_spec k0 k) as [->|Hne]; simpl.
    + rewrite !elem_of_cons. tauto.
    + rewrite !elem_of_cons, IH. tauto.
Qed.

Lemma odict_set_NoDup {A} k (v : A) d : NoDup d.*1 -> NoDup (odict_set k v d).*1.
Proof.
  induction d as [|[k0 v0] d IH]; simpl; intros Hnd.
  - apply NoDup_singleton.
  - apply NoDup_cons in Hnd as [Hnotin Hnd].
    destruct (String.eqb_spec k0 k) as [->|Hne]; simpl.
    + by apply NoDup_cons.
    + apply NoDup_cons. split; [|auto].
      rewrite odict_set_keys. intros [?|?]; [congruence|done].
Qed.

Lemma odict_set_nonempty {A} k (v : A) d : odict_set k v d <> [].
Proof. destruct d as [|[k0 v0] d]; simpl; [done|]. by destruct (String.eqb k0 k). Qed.

(** In a dict, membership and look-up agree. *)
Lemma elem_of_assoc {A} k (v : A) d : NoDup d.*1 -> (k, v) ∈ d -> assoc k d = Some v.
Proof.
  induction d as [|[k0 v0] d IH]; simpl; intros Hnd Hin.
  - by apply elem_of_nil in Hin.
  - apply NoDup_cons in Hnd as [Hnotin Hnd].
    apply elem_of_cons in Hin as [[= <- <-]|Hin].
    + by rewrite String.eqb_refl.
    + destruct (String.eqb_spec k0 k) as [->|Hne]; [|auto].
      exfalso. apply Hnotin. apply (list_elem_of_fmap_2 fst _ (k, v)). done.
Qed.

Lemma assoc_keys {A} k (d : list (string * A)) : k ∈ d.*1 <-> is_Some (assoc k d).
Proof.
  induction d as [|[k0 v0] d IH]; simpl.
  - split; [intros H; by apply elem_of_nil in H | intros [? ?]; done].
  - rewrite elem_of_cons, IH. destruct (String.eqb_spec k0 k) as [->|Hne].
    + split; eauto.
    + split; [intros [?|?]; [congruence|done] | auto].
Qed.

(** *** The inner loops *)

Lemma JStr_elem_of_dec name (l : list json) : JStr name ∈ l \/ JStr name ∉ l.
Proof.
  induction l as [|x l [IH|IH]].
  - right. intros H. by apply elem_of_nil in H.
  - left. by right.
  - destruct x as [ | | | | s | | ];
      try (right; intros H; apply elem_of_cons in H as [H|H]; [discriminate|done]).
    destruct (String.eqb_spec s name) as [->|Hne]; [left; left|].
    right. intros H. apply elem_of_cons in H as [[= ->]|H]; done.
Qed.

(** The set collected for a file: what was there, and the file of every
    reference whose package is mapped to another file. *)
Lemma collect_dependent_files_spec filename deps m : forall acc S,
  collect_dependent_files filename deps m acc = Ok S ->
  forall d, d ∈ S <->
    d ∈ acc \/ exists dep, JStr dep ∈ deps /\ m !! split_first "." dep = Some d /\ d <> filename.
Proof.
  induction deps as [|x deps IH]; intros acc S; simpl.
  - intros [= <-] d. split; [by left|]. intros [?|(dep & H & _)]; [done|].
    by apply elem_of_nil in H.
  - destruct x as [ | | | | dep | | ]; try discriminate.
    destruct (m !! split_first "." dep) as [dep_filename|] eqn:Hm.
    + destruct (String.eqb_spec dep_filename filename) as [->|Hne]; simpl.
      * intros H d. rewrite (IH _ _ H d). split.
        -- intros [?|(dep' & Hin & ? & ?)]; [by left|].
           right. exists dep'. split; [by right|done].
        -- intros [?|(dep' & Hin & Hm' & Hd)]; [by left|].
           apply elem_of_cons in Hin as [[= ->]|Hin]; [congruence|].
           right. eauto.
      * intros H d. rewrite (IH _ _ H d). split.
        -- intros [Hd|(dep' & Hin & ? & ?)].
           ++ apply elem_of_union in Hd as [Hd|Hd]; [|by left].
              apply elem_of_singleton in Hd as ->.
              right. exists dep. split; [left|done].
           ++ right. exists dep'. split; [by right|done].
        -- intros [?|(dep' & Hin & Hm' & Hd)]; [left; set_solver|].
           apply elem_of_cons in Hin as [[= ->]|Hin].
           ++ left. rewrite Hm in Hm'. injection Hm' as ->. set_solver.
           ++ right. eauto.
    + intros H d. rewrite (IH _ _ H d). split.
      * intros [?|(dep' & Hin & ? & ?)]; [by left|].
        right. exists dep'. split; [by right|done].
      * intros [?|(dep' & Hin & Hm' & Hd)]; [by left|].
        apply elem_of_cons in Hin as [[= ->]|Hin]; [congruence|].
        right. eauto.
Qed.

(** After the declarations of a file: its own names are mapped to it, the
    other names are mapped as before. *)
Lemma declare_packages_spec filename names : forall m m',
  declare_packages filename names m = Ok m' ->
  forall pkg,
    (JStr pkg ∈ names -> m' !! pkg = Some filename) /\
    (JStr pkg ∉ names -> m' !! pkg = m !! pkg).
Proof.
  induction names as [|x names IH]; intros m m'; simpl.
  - intros [= <-] pkg. split; [intros H; by apply elem_of_nil in H|done].
  - assert (Hskip : forall y, (forall s, y <> JStr s) ->
              declare_packages filename names m = Ok m' ->
              forall pkg,
                (JStr pkg ∈ y :: names -> m' !! pkg = Some filename) /\
                (JStr pkg ∉ y :: names -> m' !! pkg = m !! pkg)).
    { intros y Hy H pkg. destruct (IH _ _ H pkg) as [H1 H2]. split.
      - intros Hin. apply elem_of_cons in Hin as [Hin|Hin]; [by destruct (Hy pkg)|auto].
      - intros Hnotin. apply H2. intros Hin. apply Hnotin. by right. }
    destruct x as [ | | | | name | | ]; try discriminate;
      try (apply Hskip; intros; discriminate).
    intros H pkg. destruct (IH _ _ H pkg) as [H1 H2]. split.
    + intros Hin. destruct (JStr_elem_of_dec pkg names) as [Hn|Hn].
      * apply H1. done.
      * rewrite (H2 Hn). apply elem_of_cons in Hin as [[= ->]|Hin]; [|done].
        apply lookup_insert_eq.
    + intros Hnotin. rewrite H2 by (intros ?; apply Hnotin; by right).
      apply lookup_insert_ne. intros ->. apply Hnotin. left.
Qed.

Lemma declares_names refs v names pkg :
  py_get refs "package_name" (JList []) = Ok v -> py_iter v = Ok names ->
  declares refs pkg <-> JStr pkg ∈ names.
Proof.
  intros Hv Hn. split.
  - intros (v' & names' & Hv' & Hn' & Hin). congruence.
  - intros Hin. by exists v, names.
Qed.

(** *** The outer loops *)



(** Every value of the mapping is the base name of a file that declares
    the key. *)
Lemma package_map_values items : forall m0 m pkg f,
  package_map items m0 = Ok m -> m !! pkg = Some f ->
  m0 !! pkg = Some f \/
  exists p refs, (p, refs) ∈ items /\ declares refs pkg /\ f = basename p.
Proof.
  induction items as [|[p0 refs0] rest IH]; intros m0 m pkg f; simpl.
  - intros [= <-]. by left.
  - unfold rbind.
    destruct (py_get refs0 _ _) as [v|] eqn:Hv; [|done].
    destruct (py_iter v) as [names|] eqn:Hn; [|done].
    destruct (declare_packages _ names m0) as [m1|] eqn:Hd; [|done].
    intros Hrest Hm. destruct (IH _ _ _ _ Hrest Hm) as [Hm1|(p & refs & Hin & ? & ?)].
    + destruct (declare_packages_spec _ _ _ _ Hd pkg) as [H1 H2].
      destruct (JStr_elem_of_dec pkg names) as [Hin|Hnotin].
      * right. exists p0, refs0. split; [left|].
        split; [by apply (declares_names _ _ _ _ Hv Hn)|].
        rewrite (H1 Hin) in Hm1. congruence.
      * left. by rewrite <-(H2 Hnotin).
    + right. exists p, refs. split; [by right|done].
Qed.

Lemma dependency_sets_keys items m : forall acc g u,
  dependency_sets items m acc = Ok g ->
  u ∈ g.*1 <-> u ∈ acc.*1 \/ exists q, q ∈ items /\ basename q.1 = u.
Proof.
  induction items as [|[p0 refs0] rest IH]; intros acc g u; simpl.
  - intros [= <-]. split; [by left|]. intros [?|(q & H & _)]; [done|].
    by apply elem_of_nil in H.
  - unfold rbind.
    destruct (py_get refs0 _ _) as [v|] eqn:Hv; [|done].
    destruct (py_iter v) as [deps|] eqn:Hn; [|done].
    destruct (collect_dependent_files _ deps m ∅) as [S0|] eqn:Hc; [|done].
    intros Hrest. rewrite (IH _ _ u Hrest), odict_set_keys. split.
    + intros [[->|?]|(q & Hq & ?)]; [right|by left|right].
      * exists (p0, refs0). split; [left|done].
      * exists q. split; [by right|done].
    + intros [?|(q & Hq & Hb)]; [left; by right|].
      apply elem_of_cons in Hq as [->|Hq]; [left; by left|right; eauto].
Qed.

Lemma dependency_sets_NoDup items m : forall acc g,
  dependency_sets items m acc = Ok g -> NoDup acc.*1 -> NoDup g.*1.
Proof.
  induction items as [|[p0 refs0] rest IH]; intros acc g; simpl.
  - by intros [= <-].
  - unfold rbind.
    destruct (py_get refs0 _ _) as [v|] eqn:Hv; [|done].
    destruct (py_iter v) as [deps|] eqn:Hn; [|done].
    destruct (collect_dependent_files _ deps m ∅) as [S0|] eqn:Hc; [|done].
    intros Hrest Hnd. eapply IH; [done|]. by apply odict_set_NoDup.
Qed.

(** The entry of a file name is computed from the last file of that
    name. *)
Lemma dependency_sets_entry items m : forall acc g u S,
  dependency_sets items m acc = Ok g -> assoc u g = Some S ->
  (exists pre p refs post v deps,
      items = pre ++ (p, refs) :: post /\ basename p = u /\
      (forall q, q ∈ post -> basename q.1 <> u) /\
      py_get refs "deps" (JList []) = Ok v /\ py_iter v = Ok deps /\
      collect_dependent_files u deps m ∅ = Ok S) \/
  (assoc u acc = Some S /\ forall q, q ∈ items -> basename q.1 <> u).
Proof.
  induction items as [|[p0 refs0] rest IH]; intros acc g u S; simpl.
  - intros [= <-] Hu. right. split; [done|]. intros q H. by apply elem_of_nil in H.
  - unfold rbind.
    destruct (py_get refs0 _ _) as [v|] eqn:Hv; [|done].
    destruct (py_iter v) as [deps|] eqn:Hn; [|done].
    destruct (collect_dependent_files _ deps m ∅) as [S0|] eqn:Hc; [|done].
    intros Hrest Hu.
    destruct (IH _ _ _ _ Hrest Hu)
      as [(pre & p & refs & post & v' & deps' & -> & Hb & Hpost & ? & ? & ?)|[Hacc Hnone]].
    + left. exists ((p0, refs0) :: pre), p, refs, post, v', deps'. done.
    + rewrite assoc_odict_set in Hacc.
      destruct (String.eqb_spec (basename p0) u) as [Heq|Hne].
      * injection Hacc as <-. left.
        exists [], p0, refs0, rest, v, deps. subst u. done.
      * right. split; [done|]. intros q Hq.
        apply elem_of_cons in Hq as [->|Hq]; [done|auto].
Qed.

Lemma dependency_sets_nonempty items m : forall acc g,
  dependency_sets items m acc = Ok g -> g = [] -> items = [] /\ acc = [].
Proof.
  induction items as [|[p0 refs0] rest IH]; intros acc g; simpl.
  - by intros [= <-] ->.
  - unfold rbind.
    destruct (py_get refs0 _ _) as [v|] eqn:Hv; [|done].
    destruct (py_iter v) as [deps|] eqn:Hn; [|done].
    destruct (collect_dependent_files _ deps m ∅) as [S0|] eqn:Hc; [|done].
    intros Hrest Hg. destruct (IH _ _ Hrest Hg) as [_ Hacc].
    by apply odict_set_nonempty in Hacc.
Qed.

Lemma sets_to_lists_keys g : (sets_to_lists g).*1 = g.*1.
Proof. unfold sets_to_lists. rewrite <-list_fmap_compose. done. Qed.

Lemma assoc_sets_to_lists u g : assoc u (sets_to_lists g) = elements <$> assoc u g.
Proof.
  induction g as [|[k S] g IH]; simpl; [done|].
  destruct (String.eqb k u); done.
Qed.
(** A file name that no file of the list has keeps its entry. *)
Lemma dependency_sets_other items m : forall acc g u,
  dependency_sets items m acc = Ok g ->
  (forall q, q ∈ items -> basename q.1 <> u) ->
  assoc u g = assoc u acc.
Proof.
  induction items as [|[p0 refs0] rest IH]; intros acc g u; simpl.
  - by intros [= <-].
  - unfold rbind.
    destruct (py_get refs0 _ _) as [v|] eqn:Hv; [|done].
    destruct (py_iter v) as [deps|] eqn:Hn; [|done].
    destruct (collect_dependent_files _ deps m ∅) as [S0|] eqn:Hc; [|done].
    intros Hrest Hnone. rewrite (IH _ _ _ Hrest) by (intros; apply Hnone; by right).
    rewrite assoc_odict_set.
    destruct (String.eqb_spec (basename p0) u) as [Heq|Hne]; [|done].
    destruct (Hnone (p0, refs0)); [left|done].
Qed.

(** The last file of a name decides the entry of that name. *)
Lemma dependency_sets_last items m : forall acc g pre p refs post,
  dependency_sets items m acc = Ok g ->
  items = pre ++ (p, refs) :: post ->
  (forall q, q ∈ post -> basename q.1 <> basename p) ->
  exists v deps S,
    py_get refs "deps" (JList []) = Ok v /\ py_iter v = Ok deps /\
    collect_dependent_files (basename p) deps m ∅ = Ok S /\
    assoc (basename p) g = Some S.
Proof.
  induction items as [|[p0 refs0] rest IH]; intros acc g pre p refs post; simpl.
  - intros _ H. by destruct pre.
  - unfold rbind.
    destruct (py_get refs0 _ _) as [v|] eqn:Hv; [|done].
    destruct (py_iter v) as [deps|] eqn:Hn; [|done].
    destruct (collect_dependent_files _ deps m ∅) as [S0|] eqn:Hc; [|done].
    intros Hrest Hitems Hpost. destruct pre as [|x pre]; simpl in Hitems.
    + simplify_eq. exists v, deps, S0. repeat split; try done.
      rewrite (dependency_sets_other _ _ _ _ _ Hrest Hpost), assoc_odict_set.
      by rewrite String.eqb_refl.
    + simplify_eq. by eapply IH.
Qed.

(** A new key goes to the end of a dict. *)
Lemma odict_set_fresh {A} k (v : A) d : k ∉ d.*1 -> odict_set k v d = d ++ [(k, v)].
Proof.
  induction d as [|[k0 v0] d IH]; simpl; intros Hk; [done|].
  assert (k0 <> k) as Hne by (intros ->; apply Hk; left).
  assert (k ∉ d.*1) as Hd by (intros ?; apply Hk; by right).
  destruct (String.eqb_spec k0 k); [done|]. by rewrite IH.
Qed.


Lemma NoDup_names_later (pre post : list (string * json)) p refs :
  NoDup (basename <$> (pre ++ (p, refs) :: post).*1) ->
  forall q, q ∈ post -> basename q.1 <> basename p.
Proof.
  rewrite !fmap_app. simpl. intros Hnd q Hq Heq.
  apply NoDup_app in Hnd as (_ & _ & Hnd). apply NoDup_cons in Hnd as [Hnotin _].
  apply Hnotin. rewrite <-Heq.
  apply (list_elem_of_fmap_2 basename), (list_elem_of_fmap_2 fst _ q), Hq.
Qed.
End GraphFacts.

(** ** What [build_callgraph] returns *)

Module BuildFacts.
Import Py Json Env Main Obs JsonFacts Logic GraphFacts.

Section Program.
Variable service : list event -> request -> result (list (option string)).
Variable json_loads : string -> option json.
Variable walk : string -> list (string * list string).
Variable read_file : string -> option string.

Local Abbreviation read_refs := (read_refs service json_loads read_file).
Local Abbreviation build_callgraph := (build_callgraph service json_loads walk read_file).

Lemma read_refs_keys files : forall acc w file_refs w',
  read_refs files acc w = (Ok file_refs, w') ->
  (forall p, p ∈ file_refs.*1 <-> p ∈ acc.*1 \/ p ∈ files) /\
  (NoDup acc.*1 -> NoDup file_refs.*1).
Proof.
  induction files as [|f files IH]; intros acc w file_refs w'; simpl.
  - intros [= <- <-]. split; [|done]. intros p. split; [by left|].
    intros [?|H]; [done|by apply elem_of_nil in H].
  - unfold bind, lift. destruct (open_read read_file f) as [code|]; [|done].
    destruct (parse_refs service json_loads code w) as [[refs|] w1]; [|done].
    intros Hrest. destruct (IH _ _ _ _ Hrest) as [Hk Hnd]. split.
    + intros p. rewrite Hk, odict_set_keys, elem_of_cons. tauto.
    + intros H. by apply Hnd, odict_set_NoDup.
Qed.

(** Files of pairwise distinct paths are kept in scanning order. *)
Lemma read_refs_order files : forall acc w file_refs w',
  read_refs files acc w = (Ok file_refs, w') ->
  NoDup (acc.*1 ++ files) -> file_refs.*1 = acc.*1 ++ files.
Proof.
  induction files as [|f files IH]; intros acc w file_refs w'; simpl.
  - intros [= <- <-] _. by rewrite app_nil_r.
  - unfold bind, lift. destruct (open_read read_file f) as [code|]; [|done].
    destruct (parse_refs service json_loads code w) as [[refs|] w1]; [|done].
    intros Hrest Hnd.
    assert (f ∉ acc.*1) as Hfresh.
    { apply NoDup_app in Hnd as (_ & Hd & _). intros Hin. apply (Hd _ Hin). left. }
    rewrite (odict_set_fresh _ _ _ Hfresh) in Hrest.
    apply IH in Hrest.
    + rewrite Hrest, fmap_app. simpl. by rewrite <-app_assoc.
    + rewrite fmap_app. simpl. by rewrite <-app_assoc.
Qed.

(** The three loops behind a graph that was returned. *)
Lemma build_callgraph_parts s g s' :
  build_callgraph s = (Ok g, s') ->
  exists file_refs package_2_file sets w',
    read_refs (scan_sql_files walk (working_dir (self s))) [] (outside s)
    = (Ok file_refs, w') /\
    package_map file_refs ∅ = Ok package_2_file /\
    dependency_sets file_refs package_2_file [] = Ok sets /\
    g = sets_to_lists sets /\
    s' = {| self := self s; outside := w' |}.
Proof.
  unfold Main.build_callgraph, bind, gets, in_world, lift, ret.
  destruct (read_refs _ _ _) as [[file_refs|] w'] eqn:Hread; [|done].
  destruct (package_map file_refs ∅) as [m|] eqn:Hm; [|done].
  destruct (dependency_sets file_refs m []) as [sets|] eqn:Hsets; [|done].
  intros [= <- <-]. by exists file_refs, m, sets, w'.
Qed.

Lemma graph_entry_sets g sets u deps :
  g = sets_to_lists sets -> NoDup sets.*1 -> (u, deps) ∈ g ->
  exists S, assoc u sets = Some S /\ deps = elements S.
Proof.
  intros -> Hnd Hin. apply elem_of_assoc in Hin; [|by rewrite sets_to_lists_keys].
  rewrite assoc_sets_to_lists in Hin.
  destruct (assoc u sets) as [S|]; [|done]. injection Hin as <-. eauto.
Qed.

(** The keys of a graph returned are the base names of the files
    found, each once. *)
Lemma build_callgraph_keys s g s' :
  build_callgraph s = (Ok g, s') ->
  NoDup g.*1 /\
  forall u, u ∈ g.*1 <->
    exists p, p ∈ scan_sql_files walk (working_dir (self s)) /\ basename p = u.
Proof.
  intros Hbuild.
  apply build_callgraph_parts in Hbuild
    as (file_refs & m & sets & w' & Hread & Hm & Hsets & Hg & _).
  pose proof (dependency_sets_NoDup _ _ _ _ Hsets (NoDup_nil_2)) as Hnd.
  destruct (read_refs_keys _ _ _ _ _ Hread) as [Hkeys _].
  assert (Hgk : g.*1 = sets.*1) by (subst g; apply sets_to_lists_keys).
  split; [by rewrite Hgk|].
  intros u. rewrite Hgk, (dependency_sets_keys _ _ _ _ _ Hsets). split.
  - intros [Hu|(q & Hq & Hb)]; [by apply elem_of_nil in Hu|].
    exists q.1. split; [|done].
    assert (q.1 ∈ file_refs.*1) as Hin by (by apply list_elem_of_fmap_2).
    apply Hkeys in Hin as [Hin|Hin]; [by apply elem_of_nil in Hin|done].
  - intros (p & Hp & Hb). right.
    assert (p ∈ file_refs.*1) as Hin by (apply Hkeys; by right).
    apply list_elem_of_fmap in Hin as [q [-> Hq]]. eauto.
Qed.

(** C6: a graph returned by [build_callgraph] has no self-edge:
    no file name is in its own list of dependencies, whatever the
    files and whatever was answered about them. *)
Theorem no_self_edges s g s' :
  build_callgraph s = (Ok g, s') ->
  forall u deps, (u, deps) ∈ g -> u ∉ deps.
Proof.
  intros Hbuild u deps Hin Hself.
  apply build_callgraph_parts in Hbuild
    as (file_refs & m & sets & w' & Hread & Hm & Hsets & Hg & _).
  pose proof (dependency_sets_NoDup _ _ _ _ Hsets (NoDup_nil_2)) as Hnd.
  destruct (graph_entry_sets _ _ _ _ Hg Hnd Hin) as (S & HS & ->).
  apply elem_of_elements in Hself.
  destruct (dependency_sets_entry _ _ _ _ _ _ Hsets HS)
    as [(pre & p & refs & post & v & deps & _ & _ & _ & _ & _ & Hc)|[? _]]; [|done].
  apply (collect_dependent_files_spec _ _ _ _ _ Hc u) in Hself
    as [Hempty|(dep & _ & _ & Hne)]; [set_solver|done].
Qed.

End Program.
End BuildFacts.

(** ** Paths *)

Module PathFacts.
Import Py.

Lemma app_cons c a b : String c a +:+ b = String c (a +:+ b).
Proof. reflexivity. Qed.

Lemma app_empty_l a : "" +:+ a = a.
Proof. reflexivity. Qed.

Lemma app_assoc a b c : (a +:+ b) +:+ c = a +:+ (b +:+ c).
Proof. induction a as [|x a IH]; [done|]. rewrite !app_cons. by f_equal. Qed.

Lemma length_app a b :
  String.length (a +:+ b) = (String.length a + String.length b)%nat.
Proof. induction a as [|x a IH]; [done|]. rewrite app_cons. simpl. by f_equal. Qed.

Lemma endswith_slash a : endswith a "/" = true -> exists a0, a = a0 +:+ "/".
Proof.
  induction a as [|c a IH]; [done|].
  change (endswith (String c a) "/")
    with (String.eqb (String c a) "/" || endswith a "/").
  intros H. apply orb_true_iff in H as [H|H].
  - apply String.eqb_eq in H. exists "". by rewrite H.
  - destruct (IH H) as [a0 ->]. by exists (String c a0).
Qed.

Lemma no_slash_prefix f : no_slash f = true -> String.prefix "/" f = false.
Proof.
  destruct f as [|c f]; [done|]. intros H.
  change (negb (Ascii.eqb c "/") && no_slash f = true) in H.
  apply andb_true_iff in H as [H _]. apply negb_true_iff, Ascii.eqb_neq in H.
  destruct (String.prefix "/" (String c f)) eqn:Hp; [|done].
  apply String.prefix_correct in Hp. simpl in Hp. by injection Hp.
Qed.

Lemma join_relative a b : String.prefix "/" b = false -> join a b = a +:+ sep_after a +:+ b.
Proof. unfold join, sep_after. intros ->. by destruct (_ || _). Qed.

Lemma basename_from_no_slash f : forall cur, no_slash f = true -> basename_from cur f = cur.
Proof.
  induction f as [|c f IH]; intros cur; simpl; [done|].
  intros H. apply andb_true_iff in H as [Hc Hf]. apply negb_true_iff in Hc.
  rewrite Hc. auto.
Qed.

Lemma basename_from_slash a : forall cur f,
  no_slash f = true -> basename_from cur (a +:+ String "/" f) = f.
Proof.
  induction a as [|c a IH]; intros cur f Hf.
  - rewrite app_empty_l. simpl. by apply basename_from_no_slash.
  - rewrite app_cons. simpl. destruct (Ascii.eqb c "/"); by apply IH.
Qed.

(** The base name of a file name joined to a directory is the file name. *)
Lemma basename_join root file : no_slash file = true -> basename (join root file) = file.
Proof.
  intros Hf. rewrite join_relative by (by apply no_slash_prefix).
  unfold basename, sep_after.
  destruct (String.eqb_spec root "") as [->|Hne]; simpl.
  - rewrite !app_empty_l. by apply basename_from_no_slash.
  - destruct (endswith root "/") eqn:Hend.
    + apply endswith_slash in Hend as [a0 ->].
      rewrite app_empty_l, app_assoc. change ("/" +:+ file) with (String "/" file).
      by apply basename_from_slash.
    + change ("/" +:+ file) with (String "/" file). by apply basename_from_slash.
Qed.

(** A file of a subdirectory is not where [working_dir/base name] points. *)
Lemma join_subdirectory wd sub file :
  sub <> "" -> String.prefix "/" sub = false -> no_slash file = true ->
  join wd file <> join (join wd sub) file.
Proof.
  intros Hsub Hrel Hf Heq. apply (f_equal String.length) in Heq.
  rewrite !join_relative in Heq by (done || by apply no_slash_prefix).
  rewrite !length_app in Heq.
  destruct sub as [|c sub]; [done|]. simpl in Heq. lia.
Qed.
End PathFacts.

(** ** Units are named by the base name of their file *)

Module IdentityFacts.
Import Py Json Env Main Obs JsonFacts Logic TraceFacts ExecutorFacts RunFacts.
Import GraphFacts BuildFacts PathFacts.

(** *** Stretches of the trace *)

Lemma edges_units g f d : d ∈ edges g f -> d ∈ units g.
Proof.
  unfold edges, units. destruct (assoc f g) as [deps|] eqn:Hf.
  - intros Hd. apply assoc_elem_of in Hf. apply elem_of_app. right.
    apply list_elem_of_bind. exists deps. split; [done|].
    by apply (list_elem_of_fmap_2 snd _ (f, deps)).
  - intros Hd. by apply elem_of_nil in Hd.
Qed.

Lemma opened_at_nil wd names : opened_at wd names [].
Proof. split; intros ? H; by apply elem_of_nil in H. Qed.

Lemma opened_at_app wd names a b :
  opened_at wd names a -> opened_at wd names b -> opened_at wd names (a ++ b).
Proof.
  intros [Ha1 Ha2] [Hb1 Hb2]. split.
  - intros u Hu. apply elem_of_app in Hu as [Hu|Hu]; apply elem_of_app; [left|right]; auto.
  - intros p Hp. apply elem_of_app in Hp as [Hp|Hp]; auto.
Qed.

(** The stretch logged for one unit. *)
Lemma opened_at_unit wd names f tr :
  f ∈ names -> Forall (after_open f) tr ->
  opened_at wd names (Processing f :: OpenUnit (join wd f) :: tr).
Proof.
  intros Hf Htr. rewrite Forall_forall in Htr. split.
  - intros u Hu.
    apply elem_of_cons in Hu as [Hu|Hu]; [done|].
    apply elem_of_cons in Hu as [Hu|Hu]; [done|].
    pose proof (Htr _ Hu) as Hsame. simpl in Hsame. subst u. right. left.
  - intros p Hp.
    apply elem_of_cons in Hp as [Hp|Hp]; [done|].
    apply elem_of_cons in Hp as [[= ->]|Hp]; [by exists f|].
    destruct (Htr _ Hp).
Qed.

Lemma opens_refl wd g s : opens wd g s s.
Proof.
  intros Hwd Hg. split; [done|]. split; [done|]. exists [].
  split; [by rewrite app_nil_r|apply opened_at_nil].
Qed.

Lemma opens_trans wd g a b c : opens wd g a b -> opens wd g b c -> opens wd g a c.
Proof.
  intros Hab Hbc Hwd Hg.
  destruct (Hab Hwd Hg) as (Hwd1 & Hg1 & tr1 & Htr1 & Ho1).
  destruct (Hbc Hwd1 Hg1) as (Hwd2 & Hg2 & tr2 & Htr2 & Ho2).
  split; [done|]. split; [done|]. exists (tr1 ++ tr2).
  split; [by rewrite Htr2, Htr1, List.app_assoc|by apply opened_at_app].
Qed.

Lemma for_each_opens {A} wd g (body : A -> M state unit) l :
  (forall x s r s', x ∈ l -> body x s = (r, s') -> opens wd g s s') ->
  forall s r s', for_each body l s = (r, s') -> opens wd g s s'.
Proof.
  induction l as [|x l IH]; intros Hbody s r s'.
  - intros [= <- <-]. apply opens_refl.
  - cbn [for_each]. intros H.
    apply bind_inv in H as [(e & H & _)|([] & s1 & H & Hrest)].
    + eapply Hbody; [left|done].
    + eapply opens_trans; [eapply Hbody; [left|done]|].
      eapply IH; [|done]. intros y s2 r2 s2' Hy. apply Hbody. by right.
Qed.

Section Program.
Variable service : list event -> request -> result (list (option string)).
Variable json_loads : string -> option json.
Variable py_repr : json -> string.
Variable walk : string -> list (string * list string).
Variable read_file : string -> option string.

Local Abbreviation build_callgraph := (build_callgraph service json_loads walk read_file).
Local Abbreviation transform_unit := (transform_unit service json_loads py_repr read_file).
Local Abbreviation process_file := (process_file service json_loads py_repr read_file).
Local Abbreviation process := (process service json_loads py_repr read_file).

(** *** What the executor opens *)

Lemma generate_java_code_event code syms w r w' :
  generate_java_code service json_loads code syms w = (r, w') ->
  exists e, trace w' = trace w ++ [e] /\ forall f, after_open f e.
Proof.
  unfold generate_java_code, bind, lift, ret.
  destruct (AI.ask _ _ _ _ _ _ _ w) as [[resp|e] w1] eqn:Hask.
  - apply ask_effect in Hask as [_ (e & He & Hk)].
    intros H. assert (w' = w1) as ->.
    { destruct (loads json_loads resp) as [obj|]; [|by injection H].
      destruct (py_getitem obj "java_code"); [|by injection H].
      destruct (py_getitem obj "symbols"); by injection H. }
    exists e. split; [done|]. intros f. by destruct e.
  - apply ask_effect in Hask as [_ (e' & He & Hk)].
    intros [= <- <-]. exists e'. split; [done|]. intros f. by destruct e'.
Qed.

Lemma add_symbols_outside items : forall s r s',
  for_each (add_symbol py_repr) items s = (r, s') ->
  outside s' = outside s /\ working_dir (self s') = working_dir (self s) /\
  file_dep_graph (self s') = file_dep_graph (self s).
Proof.
  induction items as [|x items IH]; intros s r s'.
  - by intros [= <- <-].
  - cbn [for_each]. intros H.
    assert (Hstep : forall r1 s1, add_symbol py_repr x s = (r1, s1) ->
              outside s1 = outside s /\
              working_dir (self s1) = working_dir (self s) /\
              file_dep_graph (self s1) = file_dep_graph (self s)).
    { unfold add_symbol, bind, lift, modify. intros r1 s1.
      destruct (py_getitem x "oracle"); simpl; [|by intros [= <- <-]].
      destruct (py_getitem x "java"); simpl; by intros [= <- <-]. }
    apply bind_inv in H as [(e & H & _)|([] & s1 & H & Hrest)].
    + by eapply Hstep.
    + destruct (Hstep _ _ H) as (H1 & H2 & H3).
      destruct (IH _ _ _ Hrest) as (H4 & H5 & H6).
      repeat split; congruence.
Qed.

(** What is logged for a unit, however its transformation ends: the
    announcement, the opening of [working_dir] joined with its name,
    and then nothing about another unit. *)
Lemma transform_unit_trace f s r s' :
  transform_unit f s = (r, s') ->
  working_dir (self s') = working_dir (self s) /\
  file_dep_graph (self s') = file_dep_graph (self s) /\
  exists tr,
    trace (outside s')
    = trace (outside s) ++ Processing f :: OpenUnit (join (working_dir (self s)) f) :: tr /\
    Forall (after_open f) tr.
Proof.
  unfold Main.transform_unit, log. intros H.
  apply bind_inv in H as [(e & H & _)|([] & s1 & H & H1)]; [done|].
  injection H as <-.
  apply bind_inv in H1 as [(e & H & _)|(wd & s2 & H & H2)]; [done|].
  injection H as <- <-.
  apply bind_inv in H2 as [(e & H & _)|([] & s3 & H & H3)]; [done|].
  injection H as <-.
  apply bind_inv in H3 as [(e & H & ->)|(code & s4 & H & H4)].
  { unfold lift in H. injection H as _ <-. simpl.
    split; [done|]. split; [done|]. exists [].
    split; [by rewrite <-List.app_assoc|done]. }
  unfold lift in H. injection H as _ <-.
  apply bind_inv in H4 as [(e & H & _)|(predefined & s5 & H & H5)]; [done|].
  injection H as _ <-.
  apply bind_inv in H5 as [(e & H & _)|([] & s6 & H & H6)]; [done|].
  injection H as <-.
  apply bind_inv in H6 as [(e & H & ->)|(out & s7 & H & H7)].
  { unfold in_world in H.
    destruct (generate_java_code _ _ _ _ _) as [r1 w1] eqn:Hgen.
    injection H as _ <-.
    apply generate_java_code_event in Hgen as (e1 & He1 & Hq). simpl in *.
    split; [done|]. split; [done|]. exists [Transform f; e1].
    split; [rewrite He1, <-!List.app_assoc; done|].
    repeat constructor. apply Hq. }
  unfold in_world in H.
  destruct (generate_java_code _ _ _ _ _) as [r1 w1] eqn:Hgen.
  injection H as _ <-.
  apply generate_java_code_event in Hgen as (e1 & He1 & Hq). simpl in He1.
  apply bind_inv in H7 as [(e & H & _)|([] & s8 & H & H8)]; [done|].
  injection H as <-.
  apply bind_inv in H8 as [(e & H & ->)|(new_symbols & s9 & H & H9)].
  { unfold lift in H. injection H as _ <-. simpl.
    split; [done|]. split; [done|]. exists [Transform f; e1; Print out.1].
    split; [rewrite He1, <-!List.app_assoc; done|].
    repeat constructor. apply Hq. }
  unfold lift in H. injection H as _ <-.
  apply bind_inv in H9 as [(e & H & ->)|([] & s10 & H & H10)].
  { apply add_symbols_outside in H as (Ho & Hw & Hg). simpl in *.
    split; [done|]. split; [done|]. exists [Transform f; e1; Print out.1].
    split; [rewrite Ho; simpl; rewrite He1, <-!List.app_assoc; done|].
    repeat constructor. apply Hq. }
  apply add_symbols_outside in H as (Ho & Hw & Hg). simpl in Ho, Hw, Hg.
  apply bind_inv in H10 as [(e & H' & _)|([] & s11 & H' & H11)]; [done|].
  unfold mark_processed, bind, modify, log in H'. injection H' as <-.
  unfold save_progress, modify in H11. injection H11 as _ <-. simpl.
  split; [done|]. split; [done|].
  eexists [Transform f; e1; Print out.1; MarkProcessed f; SaveProgress _].
  split; [rewrite Ho; simpl; rewrite He1, <-!List.app_assoc; done|].
  repeat constructor. apply Hq.
Qed.

Lemma process_file_opens wd g depth : forall f s r s',
  f ∈ units g -> process_file depth f s = (r, s') -> opens wd g s s'.
Proof.
  induction depth as [|depth IH]; intros f s r s' Hf.
  - intros [= <- <-]. apply opens_refl.
  - cbn [Main.process_file]. unfold bind at 1, gets at 1.
    case_bool_decide as Hin.
    + intros [= <- <-] Hwd Hg. split; [done|]. split; [done|].
      exists [Skip f]. split; [done|]. split.
      * intros u Hu. apply list_elem_of_singleton in Hu. done.
      * intros p Hp. apply list_elem_of_singleton in Hp. done.
    + unfold bind at 1, gets at 1. intros H Hwd Hg.
      rewrite Hg in H.
      apply bind_inv in H as [(e & H & _)|([] & s1 & H & H1)].
      * refine (for_each_opens wd g _ _ _ _ _ _ H Hwd Hg).
        intros x s2 r2 s2' Hx. apply IH. by apply edges_units with f.
      * assert (Hdeps : opens wd g s s1).
        { refine (for_each_opens wd g _ _ _ _ _ _ H).
          intros x s2 r2 s2' Hx. apply IH. by apply edges_units with f. }
        destruct (Hdeps Hwd Hg) as (Hwd1 & Hg1 & _).
        refine (opens_trans wd g _ _ _ Hdeps _ Hwd Hg).
        intros Hwd' Hg'.
        apply transform_unit_trace in H1 as (Hw2 & Hg2 & tr & Htr & Hall).
        split; [congruence|]. split; [congruence|].
        eexists. split; [exact Htr|]. rewrite Hwd1.
        by apply opened_at_unit.
Qed.

Lemma process_opens wd g depth s r s' :
  process depth s = (r, s') -> opens wd g s s'.
Proof.
  unfold Main.process, bind, gets. intros H Hwd Hg. rewrite Hg in H.
  refine (for_each_opens wd g _ _ _ _ _ _ H Hwd Hg).
  intros x s2 r2 s2' Hx. apply process_file_opens.
  unfold units. apply elem_of_app. by left.
Qed.

(** *** The names of a graph that was built *)

Lemma build_callgraph_targets s g s' :
  build_callgraph s = (Ok g, s') ->
  forall u deps d, (u, deps) ∈ g -> d ∈ deps ->
    exists p, p ∈ scan_sql_files walk (working_dir (self s)) /\ d = basename p.
Proof.
  intros Hbuild u deps d Hin Hd.
  apply build_callgraph_parts in Hbuild
    as (file_refs & m & sets & w' & Hread & Hm & Hsets & Hg & _).
  pose proof (dependency_sets_NoDup _ _ _ _ Hsets (NoDup_nil_2)) as Hnds.
  destruct (read_refs_keys _ _ walk _ _ _ _ _ _ Hread) as [Hk _].
  destruct (graph_entry_sets _ _ _ _ Hg Hnds Hin) as (S & HS & ->).
  apply elem_of_elements in Hd.
  destruct (dependency_sets_entry _ _ _ _ _ _ Hsets HS)
    as [(pre & p & refs & post & v & deps & -> & Hb & _ & Hv & Hn & Hc)|[? _]];
    [|done].
  apply (collect_dependent_files_spec _ _ _ _ _ Hc d) in Hd
    as [Hempty|(dep & Hdep & Hmd & Hne)]; [set_solver|].
  destruct (package_map_values _ _ _ _ _ Hm Hmd) as [?|(p' & refs' & Hin' & _ & ->)];
    [done|].
  exists p'. split; [|done].
  assert (p' ∈ (pre ++ (p, refs) :: post).*1) as Hp'
      by (by apply (list_elem_of_fmap_2 fst _ (p', refs'))).
  apply Hk in Hp' as [Hp'|Hp']; [by apply elem_of_nil in Hp'|done].
Qed.

Lemma build_callgraph_units s g s' :
  build_callgraph s = (Ok g, s') ->
  forall u, u ∈ units g ->
    exists p, p ∈ scan_sql_files walk (working_dir (self s)) /\ u = basename p.
Proof.
  intros Hbuild u Hu. unfold units in Hu. apply elem_of_app in Hu as [Hu|Hu].
  - apply (build_callgraph_keys _ _ _ _ _ _ _ Hbuild) in Hu as (p & ? & ?). eauto.
  - apply list_elem_of_bind in Hu as (deps & Hd & Hin).
    apply list_elem_of_fmap in Hin as ([k deps'] & -> & Hin).
    by eapply build_callgraph_targets.
Qed.

(** C9: a unit is known by the base name of its file.  (1) In a graph
    returned by [build_callgraph] every key and every edge target is
    the base name of a file found and no key occurs twice.  The answers
    read by the first loop are kept by path, in scanning order when the
    paths are distinct,
    and the entry of a base name is computed from the last file of that
    base name in this order, whatever files of the same base name came
    before.  (2) On a graph that was built, whatever [process] does and
    however it ends, every unit it marks as processed was opened at
    [working_dir] joined with its name, and nothing is opened but
    [working_dir] joined with the base name of a file found; when
    [process] returns, this was done for the base name of every file
    found that was not processed before.  (3) A unit without
    dependencies whose file is not at that path is not read: the
    executor raises.  (4) For a file found in a subdirectory, that path
    is another one than the path it was found at. *)
Theorem unit_identity_is_basename :
  (forall s g s',
      build_callgraph s = (Ok g, s') ->
      let files := scan_sql_files walk (working_dir (self s)) in
      (forall u, u ∈ g.*1 -> exists p, p ∈ files /\ u = basename p) /\
      (forall u deps d, (u, deps) ∈ g -> d ∈ deps ->
                        exists p, p ∈ files /\ d = basename p) /\
      NoDup g.*1 /\
      exists file_refs package_2_file w',
        read_refs service json_loads read_file files [] (outside s) = (Ok file_refs, w') /\
        (forall p, p ∈ file_refs.*1 <-> p ∈ files) /\
        (NoDup files -> file_refs.*1 = files) /\
        package_map file_refs ∅ = Ok package_2_file /\
        forall pre p refs post,
          file_refs = pre ++ (p, refs) :: post ->
          (forall q, q ∈ post -> basename q.1 <> basename p) ->
          exists deps,
            (basename p, deps) ∈ g /\
            (forall deps', (basename p, deps') ∈ g -> deps' = deps) /\
            (forall d, d ∈ deps <->
               exists dep, references refs dep /\
                 package_2_file !! split_first "." dep = Some d /\
                 d <> basename p)) /\
  (forall s g s0 depth s1 r s2,
      build_callgraph s = (Ok g, s0) ->
      file_dep_graph (self s1) = g ->
      working_dir (self s1) = working_dir (self s) ->
      process depth s1 = (r, s2) ->
      let wd := working_dir (self s) in
      let files := scan_sql_files walk wd in
      exists tr,
        trace (outside s2) = trace (outside s1) ++ tr /\
        processed_files (self s2) = processed_files (self s1) ∪ marked tr /\
        (forall u, MarkProcessed u ∈ tr -> OpenUnit (join wd u) ∈ tr) /\
        (forall path, OpenUnit path ∈ tr ->
                      exists p, p ∈ files /\ path = join wd (basename p)) /\
        (r = Ok tt ->
         forall p, p ∈ files -> basename p ∉ processed_files (self s1) ->
                   OpenUnit (join wd (basename p)) ∈ tr)) /\
  (forall depth f s,
      f ∉ processed_files (self s) ->
      edges (file_dep_graph (self s)) f = [] ->
      read_file (join (working_dir (self s)) f) = None ->
      (process_file (S depth) f s).1 = Raise IOError /\
      processed_files (self (process_file (S depth) f s).2) = processed_files (self s)) /\
  (forall wd sub file,
      sub <> "" -> String.prefix "/" sub = false -> no_slash file = true ->
      basename (join (join wd sub) file) = file /\
      join wd (basename (join (join wd sub) file)) <> join (join wd sub) file).
Proof.
  split; [|split; [|split]].
  - intros s g s' Hbuild files.
    destruct (build_callgraph_keys _ _ _ _ _ _ _ Hbuild) as [Hnd Hkeys].
    pose proof (build_callgraph_targets _ _ _ Hbuild) as Htargets.
    apply build_callgraph_parts in Hbuild
      as (file_refs & m & sets & w' & Hread & Hm & Hsets & Hg & _).
    pose proof (dependency_sets_NoDup _ _ _ _ Hsets (NoDup_nil_2)) as Hnds.
    destruct (read_refs_keys _ _ walk _ _ _ _ _ _ Hread) as [Hk _].
    assert (Hfiles : forall p, p ∈ file_refs.*1 <-> p ∈ files).
    { intros p. rewrite Hk. split; [intros [H|?]; [by apply elem_of_nil in H|done]|auto]. }
    split; [|split; [|split; [done|]]].
    + intros u Hu. apply Hkeys in Hu as (p & ? & ?). eauto.
    + exact Htargets.
    + exists file_refs, m, w'. split; [done|]. split; [done|]. split.
      { intros Hdistinct. by apply (read_refs_order _ _ _ _ _ _ _ _ Hread). }
      split; [done|].
      intros pre p refs post Hitems Hpost.
      destruct (dependency_sets_last _ _ _ _ _ _ _ _ Hsets Hitems Hpost)
        as (v & deps & S & Hv & Hn & Hc & HS).
      assert (Hentry : assoc (basename p) g = Some (elements S)).
      { subst g. by rewrite assoc_sets_to_lists, HS. }
      exists (elements S). split; [by apply assoc_elem_of|]. split.
      * intros deps' Hin'. apply elem_of_assoc in Hin'; [congruence|done].
      * intros d. rewrite elem_of_elements,
          (collect_dependent_files_spec _ _ _ _ _ Hc d). split.
        -- intros [?|(dep & ? & ? & ?)]; [set_solver|].
           exists dep. split; [by exists v, deps|done].
        -- intros (dep & (v' & deps' & ? & ? & ?) & ? & ?). right.
           exists dep. split; [congruence|done].
  - intros s g s0 depth s1 r s2 Hbuild Hg Hwd Hrun wd files.
    destruct (build_callgraph_keys _ _ _ _ _ _ _ Hbuild) as [_ Hkeys].
    pose proof (build_callgraph_units _ _ _ Hbuild) as Hunits.
    pose proof (process_run_from _ _ _ _ _ _ _ _ Hrun)
      as [[_ _ _ _ (tr & Htr & Hp & _ & _)] Hall].
    destruct (process_opens wd g _ _ _ _ Hrun Hwd Hg)
      as (_ & _ & tr' & Htr' & Hmark & Hopen).
    rewrite Htr in Htr'. apply app_inv_head in Htr'. subst tr'.
    exists tr. split; [done|]. split; [done|]. split; [done|]. split.
    + intros path Hpath. destruct (Hopen _ Hpath) as (u & Hu & ->).
      destruct (Hunits _ Hu) as (p & ? & ->). eauto.
    + intros -> p Hp' Hnew. apply Hmark, elem_of_marked.
      assert (basename p ∈ processed_files (self s2)) as Hdone.
      { apply (Hall tt eq_refl). rewrite Hg. apply Hkeys. eauto. }
      rewrite Hp in Hdone. set_solver.
  - intros depth f s Hnew Hedges Hread.
    assert (Hrun : process_file (S depth) f s
                   = (Raise IOError,
                      with_outside (emit (OpenUnit (join (working_dir (self s)) f)))
                        (with_outside (emit (Processing f)) s))).
    { cbn [Main.process_file]. unfold bind at 1, gets at 1.
      rewrite bool_decide_eq_false_2 by done.
      unfold bind at 1, gets at 1. unfold edges in Hedges. rewrite Hedges.
      cbn [for_each]. unfold bind at 1, ret at 1.
      unfold Main.transform_unit, log.
      unfold bind at 1, modify at 1. unfold bind at 1, gets at 1.
      unfold bind at 1, modify at 1. unfold bind at 1, lift at 1, open_read.
      cbn [self outside working_dir with_outside].
      by rewrite Hread. }
    by rewrite Hrun.
  - intros wd sub file Hsub Hrel Hfile.
    rewrite (basename_join _ _ Hfile). split; [done|].
    by apply join_subdirectory.
Qed.
End Program.
End IdentityFacts.

(** ** Resuming *)

Module ResumeFacts.
Import Py Json Env Main Obs JsonFacts Logic TraceFacts ExecutorFacts RunFacts.
Import GraphFacts BuildFacts AIFacts.

Section Program.
Variable service : list event -> request -> result (list (option string)).
Variable json_loads : string -> option json.
Variable py_repr : json -> string.
Variable walk : string -> list (string * list string).
Variable read_file : string -> option string.

Local Abbreviation build_callgraph := (build_callgraph service json_loads walk read_file).
Local Abbreviation Processor := (Processor service json_loads walk read_file).
Local Abbreviation init := (init service json_loads walk read_file).
Local Abbreviation process_file := (process_file service json_loads py_repr read_file).
Local Abbreviation process := (process service json_loads py_repr read_file).

Lemma build_callgraph_self s r s' : build_callgraph s = (r, s') -> self s' = self s.
Proof.
  unfold Main.build_callgraph, bind, gets, in_world, lift, ret.
  destruct (read_refs _ _ _ _ _ _) as [[file_refs|] w'].
  - destruct (package_map file_refs ∅) as [m|]; [|by intros [= <- <-]].
    destruct (dependency_sets file_refs m []) as [sets|]; by intros [= <- <-].
  - by intros [= <- <-].
Qed.

(** With no file to scan the graph is empty and nothing is asked. *)
Lemma build_callgraph_nothing s :
  scan_sql_files walk (working_dir (self s)) = [] ->
  build_callgraph s = (Ok [], s).
Proof.
  unfold Main.build_callgraph, bind, gets, in_world, lift, ret. simpl.
  intros ->. simpl. by destruct s.
Qed.

Lemma build_callgraph_empty s s' :
  build_callgraph s = (Ok [], s') -> scan_sql_files walk (working_dir (self s)) = [].
Proof.
  intros Hbuild.
  apply build_callgraph_parts in Hbuild
    as (file_refs & m & sets & w' & Hread & Hm & Hsets & Hg & _).
  assert (sets = []) as -> by (by destruct sets).
  destruct (dependency_sets_nonempty _ _ _ _ Hsets eq_refl) as [-> _].
  destruct (read_refs_keys _ _ walk _ _ _ _ _ _ Hread) as [Hk _].
  destruct (scan_sql_files walk _) as [|p files]; [done|].
  assert (p ∈ ([] : list (string * json)).*1) as H by (apply Hk; right; left).
  by apply elem_of_nil in H.
Qed.

Ltac case_build H :=
  match goal with
  | |- context [Main.build_callgraph ?a ?b ?c ?d ?x] =>
      destruct (Main.build_callgraph a b c d x) as [[?built|] ?s1] eqn:H
  end.

(** What [__init__] leaves in the processor. *)
Lemma Processor_self wd w s :
  Processor wd w = (Ok tt, s) ->
  working_dir (self s) = wd /\
  progress_file (self s) = join wd ".progress.json" /\
  (file_dep_graph (self s) = [] -> scan_sql_files walk wd = []).
Proof.
  unfold Main.Processor, Main.init, load_progress, bind, gets, modify, ret.
  cbn -[Main.build_callgraph join scan_sql_files].
  destruct (progress_files w !! join wd ".progress.json") as [data|] eqn:Hfound;
    cbn -[Main.build_callgraph join scan_sql_files];
    rewrite ?Hfound; cbn -[Main.build_callgraph join scan_sql_files].
  - destruct (Nat.eqb_spec (length (pr_file_dep_graph data)) 0) as [Hlen|Hlen];
      cbn -[Main.build_callgraph join scan_sql_files].
    + case_build Hbuild; [|done].
      intros [= <-]. apply build_callgraph_self in Hbuild as Hself.
      cbn. rewrite Hself. cbn. repeat split.
      intros ->. by apply build_callgraph_empty in Hbuild.
    + intros [= <-]. cbn. repeat split. intros Hg. by rewrite Hg in Hlen.
  - case_build Hbuild; [|done].
    intros [= <-]. apply build_callgraph_self in Hbuild as Hself.
    cbn. rewrite Hself. cbn. repeat split.
    intros ->. by apply build_callgraph_empty in Hbuild.
Qed.

(** Started on the record of a state, [__init__] rebuilds that state. *)
Lemma Processor_reload wd s :
  persisted s ->
  working_dir (self s) = wd -> progress_file (self s) = join wd ".progress.json" ->
  (file_dep_graph (self s) = [] -> scan_sql_files walk wd = []) ->
  Processor wd (outside s) = (Ok tt, s).
Proof.
  destruct s as [[wd' pf g P S] w]. unfold persisted.
  cbn -[join scan_sql_files]. intros Hp -> -> Hscan.
  unfold Main.Processor, Main.init, load_progress, bind, gets, modify, ret.
  cbn -[Main.build_callgraph join scan_sql_files].
  destruct (progress_files w !! join wd ".progress.json") as [data|] eqn:Hfound;
    [|done].
  destruct Hp as (<- & <- & <-). cbn -[Main.build_callgraph join scan_sql_files].
  rewrite ?Hfound. cbn -[Main.build_callgraph join scan_sql_files].
  destruct (Nat.eqb_spec (length (pr_file_dep_graph data)) 0) as [Hlen|Hlen];
    cbn -[Main.build_callgraph join scan_sql_files]; [|done].
  assert (pr_file_dep_graph data = []) as Hg by (by destruct (pr_file_dep_graph data)).
  rewrite build_callgraph_nothing by (cbn -[scan_sql_files]; auto).
  cbn. by rewrite Hg.
Qed.

(** A processed unit is skipped. *)
Lemma process_file_skip depth f s :
  f ∈ processed_files (self s) ->
  process_file (S depth) f s = (Ok tt, with_outside (emit (Skip f)) s).
Proof.
  intros Hf. simpl. unfold bind, gets, log, modify.
  by rewrite bool_decide_eq_true_2.
Qed.

Lemma for_each_skip depth l : forall s,
  (forall f, f ∈ l -> f ∈ processed_files (self s)) ->
  exists s',
    for_each (process_file (S depth)) l s = (Ok tt, s') /\
    self s' = self s /\
    cache_files (outside s') = cache_files (outside s) /\
    progress_files (outside s') = progress_files (outside s) /\
    trace (outside s') = trace (outside s) ++ (Skip <$> l).
Proof.
  induction l as [|f l IH]; intros s Hall.
  - exists s. by rewrite app_nil_r.
  - cbn [for_each]. unfold bind.
    rewrite process_file_skip by (apply Hall; left).
    destruct (IH (with_outside (emit (Skip f)) s)) as (s' & -> & Hself & Hc & Hp & Htr).
    { intros f' Hf'. simpl. apply Hall. by right. }
    exists s'. rewrite Hself, Hc, Hp, Htr. simpl. by rewrite <-app_assoc.
Qed.

Lemma service_calls_skip l : service_calls (Skip <$> l) = [].
Proof. induction l; done. Qed.

(** C2: when [process] has run to completion and the progress file
    holds the record of the state reached, a second run changes nothing:
    [__init__] rebuilds the very state the first run ended in, and
    [process] then returns having skipped every unit, with no
    request sent to the service and the processor, the cache files and
    the progress files as they were.  In particular [process_file] on a
    processed unit only logs that it skips it. *)
Theorem resume_is_idempotent wd w0 s0 depth s1 :
  Processor wd w0 = (Ok tt, s0) ->
  process depth s0 = (Ok tt, s1) ->
  persisted s1 ->
  Processor wd (outside s1) = (Ok tt, s1) /\
  (forall depth', exists s2,
      process (S depth') s1 = (Ok tt, s2) /\
      self s2 = self s1 /\
      cache_files (outside s2) = cache_files (outside s1) /\
      progress_files (outside s2) = progress_files (outside s1) /\
      service_calls (trace (outside s2)) = service_calls (trace (outside s1)) /\
      trace (outside s2) = trace (outside s1) ++ (Skip <$> (file_dep_graph (self s1)).*1)) /\
  (forall s f depth',
      f ∈ processed_files (self s) ->
      process_file (S depth') f s = (Ok tt, with_outside (emit (Skip f)) s)).
Proof.
  intros Hinit Hrun Hpersisted.
  destruct (Processor_self _ _ _ Hinit) as (Hwd & Hpf & Hscan).
  destruct (process_run_from _ _ _ _ _ _ _ _ Hrun) as [[Hwd1 Hpf1 Hg1 _ _] Hall].
  split; [|split].
  - apply Processor_reload; [done|congruence|congruence|].
    intros Hg. apply Hscan. congruence.
  - intros depth'. unfold Main.process, bind, gets.
    destruct (for_each_skip depth' (file_dep_graph (self s1)).*1 s1)
      as (s2 & Hrun2 & Hself & Hc & Hp & Htr).
    { intros f Hf. apply (Hall tt eq_refl). by rewrite <-Hg1. }
    exists s2. repeat split; try done.
    rewrite Htr, service_calls_app, service_calls_skip. by rewrite app_nil_r.
  - intros s f depth'. apply process_file_skip.
Qed.
End Program.
End ResumeFacts.

(** ** The working set of the example, run *)

Module Witnesses.
Import Py Json Env Main Obs Scenario.
Import BuildFacts IdentityFacts ResumeFacts.

Lemma no_self_edges_witness :
  let s := fresh "wd" in
  let g := [("C.sql", ["B.sql"]); ("B.sql", ["A.sql"]); ("A.sql", [])] in
  build_callgraph echo decode tree content s
  = (Ok g, (build_callgraph echo decode tree content s).2) /\
  forall u deps, (u, deps) ∈ g -> u ∉ deps.
Proof.
  intros s g.
  assert (H : build_callgraph echo decode tree content s
              = (Ok g, (build_callgraph echo decode tree content s).2))
    by (vm_compute; reflexivity).
  split; [exact H|].
  exact (no_self_edges echo decode tree content s g _ H).
Defined.



Lemma unit_identity_is_basename_witness :
  let s := fresh "wd" in
  let g := [("A.sql", ["B.sql"]); ("B.sql", ["A.sql"])] in
  let s1 := (Processor echo decode deep_tree deep_content "wd" empty_world).2 in
  let g1 := [("B.sql", ["A.sql"]); ("A.sql", [])] in
  (build_callgraph echo decode nested_tree nested_content s
   = (Ok g, (build_callgraph echo decode nested_tree nested_content s).2) /\
   scan_sql_files nested_tree "wd" = ["wd/A.sql"; "wd/B.sql"; "wd/sub/A.sql"] /\
   NoDup g.*1 /\
   forall u, u ∈ g.*1 ->
     exists p, p ∈ scan_sql_files nested_tree (working_dir (self s)) /\ u = basename p) /\
  (build_callgraph echo decode deep_tree deep_content s
   = (Ok g1, (build_callgraph echo decode deep_tree deep_content s).2) /\
   scan_sql_files deep_tree "wd" = ["wd/B.sql"; "wd/sub/A.sql"] /\
   file_dep_graph (self s1) = g1 /\
   working_dir (self s1) = working_dir (self s) /\
   (process echo decode repr deep_content 5 s1).1 = Raise IOError /\
   exists tr,
     trace (outside (process echo decode repr deep_content 5 s1).2)
     = trace (outside s1) ++ tr /\
     (forall u, MarkProcessed u ∈ tr -> OpenUnit (join "wd" u) ∈ tr) /\
     (forall path, OpenUnit path ∈ tr ->
        exists p, p ∈ scan_sql_files deep_tree "wd" /\ path = join "wd" (basename p))) /\
  (("A.sql" ∉ processed_files (self s1)) /\
   edges (file_dep_graph (self s1)) "A.sql" = [] /\
   deep_content (join (working_dir (self s1)) "A.sql") = None /\
   (process_file echo decode repr deep_content 1 "A.sql" s1).1 = Raise IOError) /\
  ("sub" <> "" /\ String.prefix "/" "sub" = false /\ no_slash "A.sql" = true /\
   basename (join (join "wd" "sub") "A.sql") = "A.sql" /\
   join "wd" (basename (join (join "wd" "sub") "A.sql")) <> join (join "wd" "sub") "A.sql").
Proof.
  intros s g s1 g1.
  assert (H : build_callgraph echo decode nested_tree nested_content s
              = (Ok g, (build_callgraph echo decode nested_tree nested_content s).2))
    by (vm_compute; reflexivity).
  assert (Hdeep : build_callgraph echo decode deep_tree deep_content s
                  = (Ok g1, (build_callgraph echo decode deep_tree deep_content s).2))
    by (vm_compute; reflexivity).
  assert (Hg1 : file_dep_graph (self s1) = g1) by (vm_compute; reflexivity).
  assert (Hwd1 : working_dir (self s1) = working_dir (self s)) by (vm_compute; reflexivity).
  assert (Hrun : process echo decode repr deep_content 5 s1
                 = ((process echo decode repr deep_content 5 s1).1,
                    (process echo decode repr deep_content 5 s1).2))
    by (by destruct (process echo decode repr deep_content 5 s1)).
  assert (Hfail : (process echo decode repr deep_content 5 s1).1 = Raise IOError)
    by (vm_compute; reflexivity).
  assert (Hnew : "A.sql" ∉ processed_files (self s1))
    by (apply (bool_decide_unpack ("A.sql" ∉ processed_files (self s1)));
        vm_compute; exact I).
  assert (Hedges : edges (file_dep_graph (self s1)) "A.sql" = [])
    by (vm_compute; reflexivity).
  assert (Hgone : deep_content (join (working_dir (self s1)) "A.sql") = None)
    by (vm_compute; reflexivity).
  assert (H1 : "sub" <> "") by discriminate.
  assert (H2 : String.prefix "/" "sub" = false) by reflexivity.
  assert (H3 : no_slash "A.sql" = true) by reflexivity.
  pose proof (unit_identity_is_basename echo decode repr)
    as Hthm.
  split; [|split; [|split]].
  - destruct (Hthm nested_tree nested_content) as (Hbuild & _ & _ & _).
    split; [exact H|]. split; [vm_compute; reflexivity|].
    destruct (Hbuild s g _ H) as (Hk & _ & Hnd & _).
    split; [exact Hnd|exact Hk].
  - destruct (Hthm deep_tree deep_content) as (_ & Hexec & _ & _).
    split; [exact Hdeep|]. split; [vm_compute; reflexivity|].
    split; [exact Hg1|]. split; [exact Hwd1|]. split; [exact Hfail|].
    destruct (Hexec s g1 _ 5%nat s1 _ _ Hdeep Hg1 Hwd1 Hrun)
      as (tr & Htr & _ & Hmark & Hopen & _).
    exists tr. split; [exact Htr|]. split; [exact Hmark|exact Hopen].
  - destruct (Hthm deep_tree deep_content) as (_ & _ & Hmiss & _).
    split; [exact Hnew|]. split; [exact Hedges|]. split; [exact Hgone|].
    exact (proj1 (Hmiss 0%nat "A.sql" s1 Hnew Hedges Hgone)).
  - destruct (Hthm nested_tree nested_content) as (_ & _ & _ & Hpath).
    split; [exact H1|]. split; [exact H2|]. split; [exact H3|].
    exact (Hpath "wd" "sub" "A.sql" H1 H2 H3).
Defined.

Lemma resume_is_idempotent_witness :
  let s0 := (Processor echo decode tree content "wd" empty_world).2 in
  let s1 := (process echo decode repr content 5 s0).2 in
  Processor echo decode tree content "wd" empty_world = (Ok tt, s0) /\
  process echo decode repr content 5 s0 = (Ok tt, s1) /\
  persisted s1 /\
  Processor echo decode tree content "wd" (outside s1) = (Ok tt, s1) /\
  exists s2,
    process echo decode repr content 1 s1 = (Ok tt, s2) /\
    self s2 = self s1 /\
    cache_files (outside s2) = cache_files (outside s1) /\
    progress_files (outside s2) = progress_files (outside s1) /\
    service_calls (trace (outside s2)) = service_calls (trace (outside s1)) /\
    trace (outside s2) = trace (outside s1) ++ (Skip <$> (file_dep_graph (self s1)).*1).
Proof.
  intros s0 s1.
  assert (H0 : Processor echo decode tree content "wd" empty_world = (Ok tt, s0))
    by (vm_compute; reflexivity).
  assert (H1 : process echo decode repr content 5 s0 = (Ok tt, s1))
    by (vm_compute; reflexivity).
  assert (H2 : persisted s1) by (apply (bool_decide_unpack (persisted s1)); vm_compute; exact I).
  split; [exact H0|]. split; [exact H1|]. split; [exact H2|].
  destruct (resume_is_idempotent echo decode repr tree content "wd" empty_world s0 5 s1
              H0 H1 H2) as (Hinit & Hrun & _).
  split; [exact Hinit|]. exact (Hrun 0%nat).
Defined.
End Witnesses.

(** ** More on the cache *)

Module CacheFacts.
Import Py Json Env AI JsonFacts AIFacts.

(* The key is a digest: nothing below depends on its value. *)
Local Opaque _generate_cache_key.

Section Ask.
Variable service : list event -> request -> result (list (option string)).

(** X1: whatever the outcome, a call of [ask] logs exactly one event, a
    cache hit or one request to the service: the service is never
    asked twice by one call, and a hit asks nothing. *)
Theorem ask_logs_one_event ch model mt jm cm dir w :
  exists e,
    trace (ask service ch model mt jm cm dir w).2 = trace w ++ [e] /\
    (e = CacheHit (_generate_cache_key ch model mt jm) \/
     e = ServiceCall (make_request (as_message <$> ch) model mt jm)) /\
    (length (service_calls (trace (ask service ch model mt jm cm dir w).2))
     <= S (length (service_calls (trace w))))%nat.
Proof.
  destruct (cm && truthy (_load_from_cache (_generate_cache_key ch model mt jm) dir w))
    eqn:Hhit.
  - apply andb_true_iff in Hhit as [-> Htruthy].
    destruct (_load_from_cache _ dir w) as [text|] eqn:Hload; [|done].
    rewrite (ask_hit service _ _ _ _ _ _ text Hload).
    + eexists. split; [reflexivity|]. split; [by left|].
      simpl. rewrite service_calls_app, length_app. simpl. lia.
    + simpl in Htruthy. by apply String.eqb_neq, negb_true_iff.
  - rewrite (ask_miss service _ _ _ _ _ _ _ Hhit). cbv zeta.
    exists (ServiceCall (make_request (as_message <$> ch) model mt jm)).
    assert (Hlen :
              (length (service_calls
                         (trace w ++ [ServiceCall (make_request (as_message <$> ch)
                                                     model mt jm)]))
               <= S (length (service_calls (trace w))))%nat).
    { rewrite service_calls_app, length_app. simpl. lia. }
    destruct (service _ _) as [[|[text|] ?]|e]; simpl;
      try (split; [done|]; split; [by right|]; exact Hlen).
    + destruct cm; simpl; [|split; [done|]; split; [by right|]; exact Hlen].
      unfold _save_to_cache, bind, modify, raise.
      destruct (String.eqb dir ""); simpl;
        (split; [done|]; split; [by right|]; exact Hlen).
    + destruct cm; simpl; [|split; [done|]; split; [by right|]; exact Hlen].
      unfold _save_to_cache, bind, modify, raise.
      destruct (String.eqb dir ""); simpl;
        (split; [done|]; split; [by right|]; exact Hlen).
Qed.

(** X2: [ask] never removes a cache file and never touches another
    one than the file of its own key; with [cached_mode] off it leaves
    every cache file as it was.  It never touches a progress file. *)
Theorem ask_touches_only_its_entry ch model mt jm cm dir w path :
  (path <> cache_path (_generate_cache_key ch model mt jm) dir ->
   cache_files (ask service ch model mt jm cm dir w).2 !! path = cache_files w !! path) /\
  (is_Some (cache_files w !! path) ->
   is_Some (cache_files (ask service ch model mt jm cm dir w).2 !! path)) /\
  cache_files (ask service ch model mt jm false dir w).2 = cache_files w /\
  progress_files (ask service ch model mt jm cm dir w).2 = progress_files w.
Proof.
  assert (Hoff : cache_files (ask service ch model mt jm false dir w).2 = cache_files w).
  { rewrite (ask_miss service _ _ _ _ false _ _ eq_refl). cbv zeta.
    by destruct (service _ _) as [[|result ?]|e]. }
  destruct (cm && truthy (_load_from_cache (_generate_cache_key ch model mt jm) dir w))
    eqn:Hhit.
  - apply andb_true_iff in Hhit as [-> Htruthy].
    destruct (_load_from_cache _ dir w) as [text|] eqn:Hload; [|done].
    rewrite (ask_hit service _ _ _ _ _ _ text Hload);
      [|simpl in Htruthy; by apply String.eqb_neq, negb_true_iff].
    done.
  - rewrite (ask_miss service _ _ _ _ _ _ _ Hhit). cbv zeta.
    destruct (service _ _) as [[|[text|] ?]|e]; simpl; try done.
    + destruct cm; simpl; [|done].
      unfold _save_to_cache, bind, modify, raise.
      destruct (String.eqb dir ""); simpl; [done|].
      repeat split; try done.
      * intros Hne. by rewrite !lookup_insert_ne.
      * intros Hsome. rewrite !lookup_insert.
        repeat case_decide; eauto.
    + destruct cm; simpl; [|done].
      unfold _save_to_cache, bind, modify, raise.
      destruct (String.eqb dir ""); simpl; [done|].
      repeat split; try done.
      * intros Hne. by rewrite !lookup_insert_ne.
      * intros Hsome. rewrite !lookup_insert. case_decide; eauto.
Qed.

(** X3: a miss that succeeds stores what it returns: with
    [cached_mode] on and a cache directory given, if there is no usable
    entry and the service answers with a text, [ask] returns that text
    and the file under the key then holds exactly it; reading it back
    gives the text with its line ends normalised. *)
Theorem ask_miss_stores_answer ch model mt jm dir w text rest :
  truthy (_load_from_cache (_generate_cache_key ch model mt jm) dir w) = false ->
  dir <> "" ->
  service (trace w) (make_request (as_message <$> ch) model mt jm)
  = Ok (Some text :: rest) ->
  let key := _generate_cache_key ch model mt jm in
  let w' := (ask service ch model mt jm true dir w).2 in
  (ask service ch model mt jm true dir w).1 = Ok (Some text) /\
  cache_files w' !! cache_path key dir = Some text /\
  _load_from_cache key dir w' = Some (universal_newlines text).
Proof.
  intros Hmiss Hdir Hsvc key w'. subst w'.
  rewrite (ask_miss service _ _ _ _ true _ _ Hmiss). cbv zeta. rewrite Hsvc.
  unfold _save_to_cache, bind, modify, raise.
  apply String.eqb_neq in Hdir. rewrite Hdir. simpl.
  unfold _load_from_cache. simpl. fold key. by rewrite lookup_insert_eq.
Qed.

(** X4: an answer without content.  With [cached_mode] on and no
    usable entry, if the first choice of the response has no content,
    [ask] raises [TypeError] after the cache file of the key was
    opened for writing: the file is left empty, and the next call finds
    no usable entry.  With [cached_mode] off the missing content is
    returned as it is and nothing is written. *)
Theorem ask_without_content ch model mt jm dir w rest :
  truthy (_load_from_cache (_generate_cache_key ch model mt jm) dir w) = false ->
  dir <> "" ->
  service (trace w) (make_request (as_message <$> ch) model mt jm) = Ok (None :: rest) ->
  let key := _generate_cache_key ch model mt jm in
  let w' := (ask service ch model mt jm true dir w).2 in
  (ask service ch model mt jm true dir w).1 = Raise TypeError /\
  cache_files w' !! cache_path key dir = Some "" /\
  truthy (_load_from_cache key dir w') = false /\
  (ask service ch model mt jm false dir w).1 = Ok None /\
  cache_files (ask service ch model mt jm false dir w).2 = cache_files w.
Proof.
  intros Hmiss Hdir Hsvc key w'. subst w'.
  rewrite (ask_miss service _ _ _ _ true _ _ Hmiss).
  rewrite (ask_miss service _ _ _ _ false _ _ eq_refl). cbv zeta. rewrite Hsvc.
  unfold _save_to_cache, bind, modify, raise.
  apply String.eqb_neq in Hdir. rewrite Hdir. simpl.
  unfold _load_from_cache. simpl. fold key. by rewrite lookup_insert_eq.
Qed.

(** X5: the other ways a miss fails.  A response with no choice at
    all raises [IndexError]; an empty cache directory name makes the
    write raise after the service has answered.  In both cases the
    service was asked once and no cache file is written or changed. *)
Theorem ask_miss_failures ch model mt jm cm dir w :
  cm && truthy (_load_from_cache (_generate_cache_key ch model mt jm) dir w) = false ->
  (service (trace w) (make_request (as_message <$> ch) model mt jm) = Ok [] ->
   ask service ch model mt jm cm dir w
   = (Raise IndexError,
      emit (ServiceCall (make_request (as_message <$> ch) model mt jm)) w)) /\
  (forall choices,
      service (trace w) (make_request (as_message <$> ch) model mt jm) = Ok choices ->
      choices <> [] -> cm = true -> dir = "" ->
      ask service ch model mt jm cm dir w
      = (Raise IOError,
         emit (ServiceCall (make_request (as_message <$> ch) model mt jm)) w)).
Proof.
  intros Hmiss. rewrite (ask_miss service _ _ _ _ _ _ _ Hmiss). cbv zeta. split.
  - by intros ->.
  - intros choices -> Hne -> ->. destruct choices as [|result ?]; [done|].
    by unfold _save_to_cache.
Qed.
End Ask.

Local Transparent _generate_cache_key.
End CacheFacts.

(** ** Progress: what is committed, and when *)

Module ProgressFacts.
Import Py Json Env Main Obs JsonFacts Logic TraceFacts ExecutorFacts RunFacts.

Lemma same_progress_refl s : same_progress s s.
Proof. by repeat split. Qed.

Lemma same_progress_trans s s1 s2 :
  same_progress s s1 -> same_progress s1 s2 -> same_progress s s2.
Proof. unfold same_progress. intros (?&?&?&?&?) (?&?&?&?&?). repeat split; congruence. Qed.

Section Program.
Variable service : list event -> request -> result (list (option string)).
Variable json_loads : string -> option json.
Variable py_repr : json -> string.
Variable read_file : string -> option string.

Local Abbreviation transform_unit := (transform_unit service json_loads py_repr read_file).
Local Abbreviation process_file := (process_file service json_loads py_repr read_file).
Local Abbreviation process := (process service json_loads py_repr read_file).

Lemma generate_java_code_progress code syms w r w' :
  generate_java_code service json_loads code syms w = (r, w') ->
  progress_files w' = progress_files w.
Proof.
  unfold generate_java_code, bind, lift, ret.
  destruct (AI.ask _ _ _ _ _ _ _ w) as [[resp|e] w1] eqn:Hask;
    apply ask_effect in Hask as [Hp _].
  - destruct (loads json_loads resp) as [obj|]; [|by intros [= <- <-]].
    destruct (py_getitem obj "java_code"); [|by intros [= <- <-]].
    destruct (py_getitem obj "symbols"); by intros [= <- <-].
  - by intros [= <- <-].
Qed.

Lemma add_symbol_cases symbol s :
  add_symbol py_repr symbol s
  = match symbol_key py_repr symbol with
    | Ok key => (Ok tt, with_self (fun p => set_symbols ({[key]} ∪ symbols p) p) s)
    | Raise e => (Raise e, s)
    end.
Proof.
  unfold add_symbol, symbol_key, bind, lift, modify, rbind.
  destruct (py_getitem symbol "oracle"); simpl; [|reflexivity].
  destruct (py_getitem symbol "java"); reflexivity.
Qed.

Lemma add_symbols_progress items : forall s r s',
  for_each (add_symbol py_repr) items s = (r, s') -> same_progress s s'.
Proof.
  induction items as [|x items IH]; intros s r s'.
  - intros [= <- <-]. apply same_progress_refl.
  - cbn [for_each]. intros H. apply bind_inv in H as [(e & H & _)|(a & s1 & H & Hrest)];
      rewrite add_symbol_cases in H; destruct (symbol_key py_repr x); simplify_eq.
    + apply same_progress_refl.
    + eapply same_progress_trans; [|by eapply IH]. by repeat split.
Qed.

(** How [transform_unit] ends: either it raises, and progress is as it
    was, or it returns, having marked the unit and saved. *)
Lemma transform_unit_cases f s r s' :
  transform_unit f s = (r, s') ->
  (exists e, r = Raise e /\ same_progress s s') \/
  (exists s1, r = Ok tt /\ same_progress s s1 /\
              s' = (save_progress (mark_processed f s1).2).2).
Proof.
  unfold Main.transform_unit, log. intros H.
  apply bind_inv in H as [(e & H & _)|([] & s1 & H & H1)]; [done|].
  injection H as <-.
  apply bind_inv in H1 as [(e & H & _)|(wd & s2 & H & H2)]; [done|].
  injection H as <- <-.
  apply bind_inv in H2 as [(e & H & _)|([] & s3 & H & H3)]; [done|].
  injection H as <-.
  apply bind_inv in H3 as [(e & H & ->)|(code & s4 & H & H4)].
  { left. exists e. split; [done|]. unfold lift in H. injection H as _ <-.
    by repeat split. }
  unfold lift in H. injection H as _ <-.
  apply bind_inv in H4 as [(e & H & _)|(predefined & s5 & H & H5)]; [done|].
  injection H as _ <-.
  apply bind_inv in H5 as [(e & H & _)|([] & s6 & H & H6)]; [done|].
  injection H as <-.
  apply bind_inv in H6 as [(e & H & ->)|(out & s7 & H & H7)].
  { left. exists e. split; [done|]. unfold in_world in H.
    destruct (generate_java_code _ _ _ _ _) as [r1 w1] eqn:Hgen.
    injection H as _ <-. apply generate_java_code_progress in Hgen.
    by repeat split. }
  unfold in_world in H.
  destruct (generate_java_code _ _ _ _ _) as [r1 w1] eqn:Hgen.
  injection H as _ <-. apply generate_java_code_progress in Hgen.
  apply bind_inv in H7 as [(e & H & _)|([] & s8 & H & H8)]; [done|].
  injection H as <-.
  apply bind_inv in H8 as [(e & H & ->)|(new_symbols & s9 & H & H9)].
  { left. exists e. split; [done|]. unfold lift in H. injection H as _ <-.
    by repeat split. }
  unfold lift in H. injection H as _ <-.
  apply bind_inv in H9 as [(e & H & ->)|([] & s10 & H & H10)].
  { left. exists e. split; [done|].
    apply add_symbols_progress in H. destruct H as (?&?&?&?&?).
    simpl in *. repeat split; congruence. }
  apply add_symbols_progress in H.
  apply bind_inv in H10 as [(e & H' & _)|([] & s11 & H' & H11)]; [done|].
  right. exists s10. split.
  { unfold save_progress, modify in H11. by injection H11 as <- _. }
  split.
  { destruct H as (?&?&?&?&?). simpl in *. repeat split; congruence. }
  rewrite H'. simpl. unfold save_progress, modify in H11 |- *. by injection H11 as _ <-.
Qed.

Lemma persisted_after_save s : persisted (save_progress s).2.
Proof.
  unfold persisted, save_progress, modify. simpl.
  rewrite lookup_insert_eq. simpl.
  by rewrite !list_to_set_elements_L.
Qed.

(** How [process_file] ends on a unit that is not processed: with the
    dependencies done, it is [transform_unit]. *)
Lemma process_file_cases depth f s r s' :
  process_file (S depth) f s = (r, s') -> f ∉ processed_files (self s) ->
  (exists e, for_each (process_file depth)
               (edges (file_dep_graph (self s)) f) s = (Raise e, s') /\ r = Raise e) \/
  (exists s1, for_each (process_file depth)
                (edges (file_dep_graph (self s)) f) s = (Ok tt, s1) /\
              transform_unit f s1 = (r, s')).
Proof.
  cbn [Main.process_file]. unfold bind at 1, gets at 1.
  intros H Hf. rewrite bool_decide_eq_false_2 in H by done.
  unfold bind at 1, gets at 1 in H.
  apply bind_inv in H as [(e & H & ->)|([] & s1 & H & H1)].
  - left. by exists e.
  - right. by exists s1.
Qed.

(** X6: progress is committed unit by unit.  When [process_file]
    returns for a unit that was not processed, the unit is in the
    processed set and the progress file holds the record of the state
    reached: processed units, symbols and graph. *)
Theorem progress_committed depth f s s' :
  process_file depth f s = (Ok tt, s') ->
  f ∉ processed_files (self s) ->
  f ∈ processed_files (self s') /\ persisted s'.
Proof.
  destruct depth as [|depth]; [done|]. intros Hrun Hf.
  destruct (process_file_cases _ _ _ _ _ Hrun Hf) as [(e & _ & ?)|(s1 & _ & Hunit)];
    [done|].
  apply transform_unit_cases in Hunit as [(e & ? & _)|(s2 & _ & _ & ->)]; [done|].
  split; [|apply persisted_after_save].
  simpl. set_solver.
Qed.

(** [transform_unit] is [translate_unit], then the marking and the
    saving. *)
Lemma transform_unit_split f s :
  transform_unit f s
  = match translate_unit service json_loads py_repr read_file f s with
    | (Ok _, s1) => save_progress (mark_processed f s1).2
    | (Raise e, s1) => (Raise e, s1)
    end.
Proof.
  unfold Main.transform_unit, translate_unit, log, bind, modify, gets, lift, in_world.
  cbv beta iota zeta.
  destruct (open_read read_file _) as [code|]; [|reflexivity].
  destruct (generate_java_code _ _ _ _ _) as [[out|e] w1]; [|reflexivity].
  destruct (py_iter out.2) as [new_symbols|]; [|reflexivity].
  destruct (for_each _ _ _) as [[[]|e] s9]; reflexivity.
Qed.

(** X7: a unit whose transformation fails is not committed.  When
    what [process_file] does for a unit before it adds the unit to the
    processed set raises (lines 149 to 160: the file cannot be read, the
    service fails, the answer does not parse or lacks a field, a symbol
    is malformed), [process_file] raises that exception there, and the
    processed set, every progress file and the graph are as they
    were.  A failure of the writing of the progress file itself comes
    after the unit was added; nothing is said of it here. *)
Theorem failed_unit_not_committed f s e s1 :
  translate_unit service json_loads py_repr read_file f s = (Raise e, s1) ->
  transform_unit f s = (Raise e, s1) /\
  processed_files (self s1) = processed_files (self s) /\
  progress_files (outside s1) = progress_files (outside s) /\
  file_dep_graph (self s1) = file_dep_graph (self s).
Proof.
  intros Hfail.
  assert (Hunit : transform_unit f s = (Raise e, s1))
    by (by rewrite transform_unit_split, Hfail).
  split; [done|].
  apply transform_unit_cases in Hunit as [(e' & _ & (_&_&?&?&?))|(s2 & ? & _)]; done.
Qed.

(** X8: when [process] returns normally every unit of the graph is
    processed; and however it ends, it leaves the graph as it was and
    removes nothing from the processed set. *)
Theorem process_completes depth s r s' :
  process depth s = (r, s') ->
  (r = Ok tt -> forall f, f ∈ (file_dep_graph (self s)).*1 ->
                          f ∈ processed_files (self s')) /\
  file_dep_graph (self s') = file_dep_graph (self s) /\
  processed_files (self s) ⊆ processed_files (self s').
Proof.
  intros Hrun.
  apply process_run_from in Hrun as [[_ _ Hg _ (tr & _ & Hp & _)] Hall].
  split; [intros ->; by apply (Hall tt)|]. split; [done|].
  rewrite Hp. set_solver.
Qed.
End Program.

(** X9: loading what was just saved changes nothing: [save_progress]
    followed by [load_progress] leaves the processor, with its processed
    set, its symbols and its graph, as it was. *)
Theorem save_then_load s :
  load_progress (save_progress s).2 = (Ok tt, (save_progress s).2).
Proof.
  destruct s as [[wd pf g P S] w].
  unfold load_progress, save_progress, bind, gets, modify. simpl.
  rewrite lookup_insert_eq. simpl.
  unfold with_self, set_graph, set_symbols, set_processed. simpl.
  by rewrite !list_to_set_elements_L.
Qed.
End ProgressFacts.

(** ** Cycles *)

Module CycleFacts.
Import Py Json Env Main Obs JsonFacts Logic TraceFacts ExecutorFacts RunFacts ProgressFacts.

Lemma stuck_spec g P C :
  (stuck g P C = true) <->
  (forall u, u ∈ C -> (u ∉ P) /\ exists d, d ∈ edges g u /\ d ∈ C).
Proof.
  unfold stuck. rewrite forallb_forall. split.
  - intros H u Hu. apply list_elem_of_In, H, andb_true_iff in Hu as [H1 H2].
    apply bool_decide_eq_true in H1. split; [done|].
    apply existsb_exists in H2 as (d & Hd & Hc).
    exists d. split; [by apply list_elem_of_In|]. by apply bool_decide_eq_true in Hc.
  - intros H u Hu. apply list_elem_of_In, H in Hu as [H1 (d & Hd & Hc)].
    apply andb_true_iff. split; [by apply bool_decide_eq_true|].
    apply existsb_exists. exists d. split; [by apply list_elem_of_In|].
    by apply bool_decide_eq_true.
Qed.

Section Program.
Variable service : list event -> request -> result (list (option string)).
Variable json_loads : string -> option json.
Variable py_repr : json -> string.
Variable read_file : string -> option string.

Local Abbreviation transform_unit := (transform_unit service json_loads py_repr read_file).
Local Abbreviation process_file := (process_file service json_loads py_repr read_file).
Local Abbreviation process := (process service json_loads py_repr read_file).

Lemma transform_unit_stuck g C f s r s' :
  transform_unit f s = (r, s') -> f ∉ C -> stuck_in g C s -> stuck_in g C s'.
Proof.
  intros Hunit Hf [Hg Hstuck].
  assert (file_dep_graph (self s') = g /\
          processed_files (self s') ⊆ {[f]} ∪ processed_files (self s)) as [Hg' Hp].
  { apply transform_unit_cases in Hunit
      as [(e & _ & (_&_&Hg'&Hp'&_))|(s1 & _ & (_&_&Hg'&Hp'&_) & ->)].
    - split; [congruence|]. rewrite Hp'. set_solver.
    - split; [simpl; congruence|]. simpl. rewrite Hp'. set_solver. }
  split; [done|]. apply stuck_spec. intros u Hu.
  destruct (proj1 (stuck_spec _ _ _) Hstuck u Hu) as [Hnot Hdep].
  split; [|done]. intros Hin. apply Hp in Hin.
  apply elem_of_union in Hin as [Hin|Hin]; [|done].
  apply elem_of_singleton in Hin. by subst.
Qed.

(** A loop over units, one of which is stuck, does not come to its end. *)
Lemma for_each_stuck g C (body : string -> M state unit) l :
  (forall x s r s', x ∈ l -> stuck_in g C s -> body x s = (r, s') ->
                    stuck_in g C s' /\ (x ∈ C -> r <> Ok tt)) ->
  forall s r s',
    stuck_in g C s -> for_each body l s = (r, s') ->
    stuck_in g C s' /\ ((exists x, x ∈ l /\ x ∈ C) -> r <> Ok tt).
Proof.
  induction l as [|x l IH]; intros Hbody s r s' Hs.
  - intros [= <- <-]. split; [done|]. intros (x & Hx & _). by apply elem_of_nil in Hx.
  - cbn [for_each]. intros H.
    apply bind_inv in H as [(e & H & ->)|([] & s1 & H & Hrest)].
    + destruct (Hbody x s _ _ (list_elem_of_here _ _) Hs H) as [Hs' _]. by split.
    + destruct (Hbody x s _ _ (list_elem_of_here _ _) Hs H) as [Hs1 Hx].
      destruct (IH (fun y s0 r0 s0' Hy => Hbody y s0 r0 s0' (list_elem_of_further _ _ _ Hy))
                  s1 r s' Hs1 Hrest) as [Hs' Hl].
      split; [done|]. intros (y & Hy & Hc).
      apply elem_of_cons in Hy as [->|Hy]; [by destruct (Hx Hc)|].
      apply Hl. eauto.
Qed.

Lemma process_file_stuck g C depth : forall f s r s',
  stuck_in g C s -> process_file depth f s = (r, s') ->
  stuck_in g C s' /\ (f ∈ C -> r <> Ok tt).
Proof.
  induction depth as [|depth IH]; intros f s r s' Hs.
  { intros [= <- <-]. by split. }
  destruct (decide (f ∈ processed_files (self s))) as [Hin|Hnotin].
  - cbn [Main.process_file]. unfold bind, gets, log, modify.
    rewrite bool_decide_eq_true_2 by done. intros [= <- <-]. split; [done|].
    intros Hc. destruct Hs as [_ Hstuck].
    by destruct (proj1 (stuck_spec _ _ _) Hstuck f Hc).
  - intros Hrun.
    apply process_file_cases in Hrun as [(e & Hloop & ->)|(s1 & Hloop & Hunit)]; [| |done].
    + destruct (for_each_stuck g C (process_file depth) _
                  (fun x s0 r0 s0' _ => IH x s0 r0 s0') _ _ _ Hs Hloop) as [Hs' _].
      by split.
    + destruct (for_each_stuck g C (process_file depth) _
                  (fun x s0 r0 s0' _ => IH x s0 r0 s0') _ _ _ Hs Hloop) as [Hs1 Hl].
      assert (f ∉ C) as Hf.
      { intros Hc. apply Hl; [|done]. destruct Hs as [Hg Hstuck].
        destruct (proj1 (stuck_spec _ _ _) Hstuck f Hc) as [_ (d & Hd & Hdc)].
        exists d. rewrite Hg. done. }
      split; [by eapply transform_unit_stuck|done].
Qed.

(** X10: units on a cycle are never processed.  If [C] is a set of
    units, none of them processed, each of which has a dependency in
    [C], then whatever the depth allowed, [process_file] on a unit of
    [C] does not return normally, [process] does not either when a unit
    of [C] is in the graph, and no unit of [C] is in the processed set
    afterwards. *)
Theorem cycle_never_completes C depth f s :
  stuck (file_dep_graph (self s)) (processed_files (self s)) C = true ->
  f ∈ C ->
  (process_file depth f s).1 <> Ok tt /\
  (forall u, u ∈ C -> u ∉ processed_files (self (process_file depth f s).2)) /\
  (f ∈ (file_dep_graph (self s)).*1 -> (process depth s).1 <> Ok tt) /\
  (forall u, u ∈ C -> u ∉ processed_files (self (process depth s).2)).
Proof.
  intros Hstuck Hf.
  assert (Hs : stuck_in (file_dep_graph (self s)) C s) by done.
  destruct (process_file depth f s) as [r s'] eqn:Hrun.
  destruct (process_file_stuck _ _ _ _ _ _ _ Hs Hrun) as [[_ Hs'] Hr].
  destruct (process depth s) as [r2 s2] eqn:Hrun2.
  unfold Main.process, bind, gets in Hrun2.
  destruct (for_each_stuck _ C (process_file depth) _
              (fun x s0 r0 s0' _ Hs0 => process_file_stuck _ C depth x s0 r0 s0' Hs0)
              _ _ _ Hs Hrun2) as [[_ Hs2] Hr2].
  simpl. split; [auto|]. split; [|split].
  - intros u Hu. by destruct (proj1 (stuck_spec _ _ _) Hs' u Hu).
  - intros Hkey. apply Hr2. eauto.
  - intros u Hu. by destruct (proj1 (stuck_spec _ _ _) Hs2 u Hu).
Qed.
End Program.
End CycleFacts.
(** ** More on the graph and on start-up *)

Module StartFacts.
Import Py Json Env Main Obs JsonFacts Logic GraphFacts BuildFacts IdentityFacts.
Import PathFacts ResumeFacts.

(** X11: whoever answers with something that is not a JSON object
    gets no graph: when the mapping of packages is built, the answer of
    every file is a dict. *)
Theorem answers_are_objects file_refs m m' :
  package_map file_refs m = Ok m' ->
  forall p refs, (p, refs) ∈ file_refs -> exists d, refs = JDict d.
Proof.
  revert m. induction file_refs as [|[p0 refs0] rest IH]; intros m; simpl.
  - intros _ p refs H. by apply elem_of_nil in H.
  - unfold rbind.
    destruct (py_get refs0 _ _) as [v|] eqn:Hv; [|done].
    destruct (py_iter v) as [names|]; [|done].
    destruct (declare_packages _ names m) as [m1|]; [|done].
    intros Hrest p refs Hin. apply elem_of_cons in Hin as [[= -> ->]|Hin].
    + destruct refs0; try discriminate. eauto.
    + by eapply IH.
Qed.


Section Program.
Variable service : list event -> request -> result (list (option string)).
Variable json_loads : string -> option json.
Variable py_repr : json -> string.
Variable walk : string -> list (string * list string).
Variable read_file : string -> option string.

Local Abbreviation build_callgraph := (build_callgraph service json_loads walk read_file).
Local Abbreviation Processor := (Processor service json_loads walk read_file).
Local Abbreviation main := (main service json_loads py_repr walk read_file).

(** X13: the graph is closed: every edge of a graph returned by
    [build_callgraph] leads to a unit that has an entry of its own. *)
Theorem edges_lead_to_units s g s' :
  build_callgraph s = (Ok g, s') ->
  forall u deps d, (u, deps) ∈ g -> d ∈ deps -> d ∈ g.*1.
Proof.
  intros Hbuild u deps d Hin Hd.
  apply build_callgraph_parts in Hbuild
    as (file_refs & m & sets & w' & Hread & Hm & Hsets & Hg & _).
  pose proof (dependency_sets_NoDup _ _ _ _ Hsets (NoDup_nil_2)) as Hnd.
  destruct (graph_entry_sets _ _ _ _ Hg Hnd Hin) as (S & HS & ->).
  apply elem_of_elements in Hd.
  destruct (dependency_sets_entry _ _ _ _ _ _ Hsets HS)
    as [(pre & p & refs & post & v & deps & -> & Hb & _ & Hv & Hn & Hc)|[? _]]; [|done].
  apply (collect_dependent_files_spec _ _ _ _ _ Hc d) in Hd
    as [Hempty|(dep & Hdep & Hmd & Hne)]; [set_solver|].
  destruct (package_map_values _ _ _ _ _ Hm Hmd) as [?|(p' & refs' & Hin' & _ & ->)];
    [done|].
  subst g. rewrite sets_to_lists_keys, (dependency_sets_keys _ _ _ _ _ Hsets).
  right. by exists (p', refs').
Qed.

(** X14: a graph that was saved is trusted.  When the progress file
    holds a record with a graph that is not empty, [__init__] takes
    processed units, symbols and graph from the record and does
    nothing else: no file is scanned or read, nothing is asked. *)
Theorem saved_graph_is_trusted wd w data :
  progress_files w !! join wd ".progress.json" = Some data ->
  pr_file_dep_graph data <> [] ->
  Processor wd w
  = (Ok tt,
     {| self := {| working_dir := wd;
                   progress_file := join wd ".progress.json";
                   file_dep_graph := pr_file_dep_graph data;
                   processed_files := list_to_set (pr_processed_files data);
                   symbols := list_to_set (pr_symbols data) |};
        outside := w |}).
Proof.
  intros Hfound Hg.
  unfold Main.Processor, Main.init, load_progress, bind, gets, modify, ret.
  cbn -[Main.build_callgraph join scan_sql_files].
  rewrite Hfound. cbn -[Main.build_callgraph join scan_sql_files].
  rewrite Hfound. cbn -[Main.build_callgraph join scan_sql_files].
  destruct (pr_file_dep_graph data) as [|x g] eqn:Hdata; [done|].
  cbn -[Main.build_callgraph join scan_sql_files]. reflexivity.
Qed.

(** X15: an empty working set.  With no [.sql] file under the working
    directory and no progress file, the whole program returns normally
    and leaves everything outside as it was: nothing is asked, no cache
    file and no progress file is written. *)
Theorem nothing_to_do depth wd w :
  scan_sql_files walk wd = [] ->
  progress_files w !! join wd ".progress.json" = None ->
  main depth wd w = (Ok tt, {| self := new_processor wd; outside := w |}).
Proof.
  intros Hscan Hnone. unfold Obs.main.
  assert (Processor wd w = (Ok tt, {| self := new_processor wd; outside := w |})) as ->.
  { unfold Main.Processor, Main.init, load_progress, bind, gets, modify, ret.
    cbn -[Main.build_callgraph join scan_sql_files].
    rewrite Hnone. cbn -[Main.build_callgraph join scan_sql_files].
    rewrite build_callgraph_nothing by (cbn -[scan_sql_files]; done).
    done. }
  done.
Qed.
End Program.
End StartFacts.
(** ** What the answers and the names look like *)

Module ShapeFacts.
Import Py Json Env AI Main Obs JsonFacts AIFacts GraphFacts BuildFacts PathFacts.

Lemma endswith_cons c s suf :
  endswith (String c s) suf = String.eqb (String c s) suf || endswith s suf.
Proof. reflexivity. Qed.

Lemma endswith_app a b suf : endswith b suf = true -> endswith (a +:+ b) suf = true.
Proof.
  intros H. induction a as [|c a IH]; [done|].
  rewrite app_cons, endswith_cons, IH. apply orb_true_r.
Qed.

Lemma endswith_join a b suf : endswith b suf = true -> endswith (join a b) suf = true.
Proof.
  intros H. unfold join. destruct (String.prefix "/" b); [done|].
  destruct (_ || _); repeat apply endswith_app; done.
Qed.

Lemma no_slash_cons c s : no_slash (String c s) = negb (Ascii.eqb c "/") && no_slash s.
Proof. reflexivity. Qed.

Lemma endswith_basename_from suf p : forall cur,
  no_slash suf = true ->
  endswith cur suf = true ->
  endswith p suf = true \/ no_slash p = true ->
  endswith (basename_from cur p) suf = true.
Proof.
  intros cur Hsuf. revert cur.
  induction p as [|c p IH]; intros cur Hcur Hp; [done|].
  change (basename_from cur (String c p))
    with (if Ascii.eqb c "/" then basename_from p p else basename_from cur p).
  rewrite endswith_cons, no_slash_cons in Hp.
  destruct (Ascii.eqb c "/") eqn:Hc.
  - destruct Hp as [Hp|Hp]; [|done].
    apply orb_true_iff in Hp as [Hp|Hp].
    + apply String.eqb_eq in Hp. subst suf.
      rewrite no_slash_cons, Hc in Hsuf. done.
    + apply IH; auto.
  - apply IH; [done|].
    destruct Hp as [Hp|Hp]; [|right; by apply andb_true_iff in Hp as [_ ?]].
    apply orb_true_iff in Hp as [Hp|Hp]; [|by left].
    apply String.eqb_eq in Hp. subst suf. right.
    rewrite no_slash_cons in Hsuf. by apply andb_true_iff in Hsuf as [_ ?].
Qed.

Lemma endswith_basename suf p :
  no_slash suf = true -> endswith p suf = true -> endswith (basename p) suf = true.
Proof. intros Hs Hp. apply endswith_basename_from; auto. Qed.

Lemma hex_digit_no_slash n : 0 <= n < 16 -> Ascii.eqb (hex_digit n) "/" = false.
Proof.
  intros [Hlow Hhigh].
  destruct n as [|p|p]; [reflexivity| |lia].
  (* the four low bits of [p]; a fifth bit contradicts [Hhigh] *)
  destruct p as [p|p|]; try reflexivity;
    destruct p as [p|p|]; try reflexivity;
    destruct p as [p|p|]; try reflexivity;
    destruct p as [p|p|]; try reflexivity; lia.
Qed.

Lemma hex2_shape v : String.length (MD5.hex2 (Z.land v 255)) = 2%nat /\
                     no_slash (MD5.hex2 (Z.land v 255)) = true.
Proof.
  split; [reflexivity|].
  assert (0 <= Z.land v 255 < 256) as Hb.
  { change 255 with (Z.ones 8). rewrite Z.land_ones by lia. apply Z.mod_pos_bound. lia. }
  unfold MD5.hex2. rewrite !no_slash_cons.
  rewrite !hex_digit_no_slash; [done| |].
  - change 15 with (Z.ones 4). rewrite Z.land_ones by lia. apply Z.mod_pos_bound. lia.
  - rewrite Z.shiftr_div_pow2 by lia. change (2 ^ 4) with 16.
    split; [apply Z.div_pos; lia|]. apply Z.div_lt_upper_bound; lia.
Qed.

Lemma no_slash_app a b : no_slash (a +:+ b) = no_slash a && no_slash b.
Proof.
  induction a as [|c a IH]; [done|].
  rewrite app_cons, !no_slash_cons, IH. by rewrite andb_assoc.
Qed.

Lemma app_empty_r a : a +:+ "" = a.
Proof. induction a as [|c a IH]; [done|]. rewrite app_cons. by f_equal. Qed.

Lemma str_join_empty l : str_join "" l = fold_right String.append "" l.
Proof.
  induction l as [|x [|y l] IH]; [done| |].
  - cbn [str_join fold_right]. by rewrite app_empty_r.
  - change (str_join "" (x :: y :: l)) with (x +:+ "" +:+ str_join "" (y :: l)).
    rewrite IH. reflexivity.
Qed.

Lemma fold_append l : forall acc,
  fold_right String.append acc l = fold_right String.append "" l +:+ acc.
Proof.
  induction l as [|x l IH]; intros acc; [done|].
  cbn [fold_right]. rewrite IH. by rewrite app_assoc.
Qed.

Lemma hex_le_bytes n : forall v,
  String.length (fold_right String.append "" (MD5.hex2 <$> MD5.le_bytes n v)) = (2 * n)%nat /\
  no_slash (fold_right String.append "" (MD5.hex2 <$> MD5.le_bytes n v)) = true.
Proof.
  induction n as [|n IH]; intros v; [done|].
  change (MD5.le_bytes (S n) v) with (Z.land v 255 :: MD5.le_bytes n (Z.shiftr v 8)).
  rewrite fmap_cons. cbn [fold_right].
  destruct (IH (Z.shiftr v 8)) as [IHl IHs].
  destruct (hex2_shape v) as [Hl Hs].
  rewrite length_app, no_slash_app, Hl, Hs, IHl, IHs. split; [lia|done].
Qed.

Lemma hexdigest_shape s :
  String.length (MD5.hexdigest s) = 32%nat /\ no_slash (MD5.hexdigest s) = true.
Proof.
  unfold MD5.hexdigest, MD5.digest. rewrite str_join_empty.
  destruct (fold_left _ _ _) as [[[a b] c] d].
  rewrite !fmap_app, !foldr_app.
  rewrite (fold_append (MD5.hex2 <$> MD5.le_bytes 4 a)),
    (fold_append (MD5.hex2 <$> MD5.le_bytes 4 b)),
    (fold_append (MD5.hex2 <$> MD5.le_bytes 4 c)).
  rewrite !length_app, !no_slash_app.
  destruct (hex_le_bytes 4 a) as [-> ->], (hex_le_bytes 4 b) as [-> ->],
    (hex_le_bytes 4 c) as [-> ->], (hex_le_bytes 4 d) as [-> ->].
  done.
Qed.

(** X16: the name of a cache file.  Whatever the request, the key has
    32 characters, none of them a slash, so the cache file of a request
    lies directly in the cache directory, under the key followed by
    [.cache]. *)
Theorem cache_file_name ch model mt jm dir :
  String.length (_generate_cache_key ch model mt jm) = 32%nat /\
  basename (cache_path (_generate_cache_key ch model mt jm) dir)
  = _generate_cache_key ch model mt jm +:+ ".cache".
Proof.
  unfold _generate_cache_key.
  destruct (hexdigest_shape
              (dumps (JDict [("chat_history", JList ch); ("model", JStr model);
                             ("max_tokens", JInt mt); ("json_mode", JBool jm)])))
    as [Hl Hs].
  split; [exact Hl|].
  unfold cache_path. apply basename_join. by rewrite no_slash_app, Hs.
Qed.

Local Opaque _generate_cache_key.

Section Program.
Variable json_loads : string -> option json.
Variable walk : string -> list (string * list string).
Variable read_file : string -> option string.

(** X17: only [.sql] files become units: every key of a graph
    returned by [build_callgraph] ends in [.sql]. *)
Theorem units_are_sql_files service s g s' :
  build_callgraph service json_loads walk read_file s = (Ok g, s') ->
  forall u, u ∈ g.*1 -> endswith u ".sql" = true.
Proof.
  intros Hbuild u Hu.
  apply build_callgraph_keys in Hbuild as [_ Hkeys].
  apply Hkeys in Hu as (p & Hp & <-).
  unfold scan_sql_files in Hp.
  apply list_elem_of_bind in Hp as ([root files] & Hp & _).
  apply list_elem_of_fmap in Hp as (file & -> & Hfile).
  apply list_elem_of_In, filter_In in Hfile as [_ Hsql].
  apply endswith_basename; [done|]. by apply endswith_join.
Qed.

(** X18: an answer that does not parse is kept.  When [parse_refs]
    finds no usable entry and the service answers with a text that is
    not JSON, the call raises [JSONDecodeError] after the text was
    written to the cache; from then on [parse_refs] of the same code
    raises again from the cached text, whatever the service would
    answer now, and without asking it.  The prompt of [parse_refs] is
    made of the code alone, so the same code gives the same key. *)
Theorem bad_answer_is_kept service code w text rest :
  let ch := [JDict [("role", JStr "system");
                    ("content", JStr (SYSTEM_PROMPT_PARSE_REFS code))]] in
  let key := _generate_cache_key ch default_model default_max_tokens true in
  truthy (_load_from_cache key default_cache_dir w) = false ->
  service (trace w) (make_request (as_message <$> ch) default_model default_max_tokens true)
  = Ok (Some text :: rest) ->
  text <> "" ->
  json_loads text = None ->
  json_loads (universal_newlines text) = None ->
  let w1 := (parse_refs service json_loads code w).2 in
  (parse_refs service json_loads code w).1 = Raise JSONDecodeError /\
  cache_files w1 !! cache_path key default_cache_dir = Some text /\
  forall service',
    parse_refs service' json_loads code w1
    = (Raise JSONDecodeError, emit (CacheHit key) w1).
Proof.
  intros ch key Hmiss Hsvc Hne Hbad Hbad' w1.
  assert (Hrun : parse_refs service json_loads code w
                 = (Raise JSONDecodeError,
                    write_cache (cache_path key default_cache_dir) text
                      (write_cache (cache_path key default_cache_dir) ""
                         (emit (ServiceCall (make_request (as_message <$> ch)
                                               default_model default_max_tokens true))
                            w)))).
  { unfold parse_refs, bind, lift. fold ch.
    rewrite (ask_miss service ch _ _ _ true _ _ Hmiss). cbv zeta. rewrite Hsvc.
    unfold _save_to_cache, bind, modify, raise. fold key.
    change (String.eqb default_cache_dir "") with false. cbv iota.
    cbn [fst snd loads]. by rewrite Hbad. }
  subst w1. rewrite Hrun. cbn [fst snd].
  split; [done|]. split; [apply lookup_insert_eq|].
  intros service'.
  unfold parse_refs, bind, lift. fold ch.
  rewrite (ask_hit service' ch _ _ _ _ _ (universal_newlines text)).
  - fold key. cbn [loads]. by rewrite Hbad'.
  - fold key. unfold _load_from_cache. cbn [cache_files write_cache].
    by rewrite lookup_insert_eq.
  - by apply universal_newlines_nonempty.
Qed.
End Program.

Local Transparent _generate_cache_key.
End ShapeFacts.
(** ** The examples, run through the wrapper and the executor *)

Module Examples.
Import Py Json Env AI Main Obs Scenario.
Import CacheFacts ProgressFacts CycleFacts StartFacts ShapeFacts.

Lemma ask_miss_stores_answer_witness :
  let ch := [JStr "hello"] in
  let key := _generate_cache_key ch default_model default_max_tokens false in
  let r := make_request (as_message <$> ch) default_model default_max_tokens false in
  let run := ask (answers "fresh") ch default_model default_max_tokens false true
               default_cache_dir empty_world in
  truthy (_load_from_cache key default_cache_dir empty_world) = false /\
  default_cache_dir <> "" /\
  answers "fresh" (trace empty_world) r = Ok [Some "fresh"] /\
  run.1 = Ok (Some "fresh") /\
  cache_files run.2 !! cache_path key default_cache_dir = Some "fresh" /\
  _load_from_cache key default_cache_dir run.2 = Some (universal_newlines "fresh").
Proof.
  intros ch key r run.
  assert (H1 : truthy (_load_from_cache key default_cache_dir empty_world) = false)
    by (vm_compute; reflexivity).
  assert (H2 : default_cache_dir <> "") by discriminate.
  assert (H3 : answers "fresh" (trace empty_world) r = Ok [Some "fresh"])
    by (unfold answers; reflexivity).
  split; [exact H1|]. split; [exact H2|]. split; [exact H3|].
  exact (ask_miss_stores_answer (answers "fresh") ch default_model default_max_tokens
           false default_cache_dir empty_world "fresh" [] H1 H2 H3).
Defined.

Lemma ask_without_content_witness :
  let ch := [JStr "hello"] in
  let key := _generate_cache_key ch default_model default_max_tokens false in
  let r := make_request (as_message <$> ch) default_model default_max_tokens false in
  let run cm := ask silent ch default_model default_max_tokens false cm
                  default_cache_dir empty_world in
  truthy (_load_from_cache key default_cache_dir empty_world) = false /\
  default_cache_dir <> "" /\
  silent (trace empty_world) r = Ok [None] /\
  (run true).1 = Raise TypeError /\
  cache_files (run true).2 !! cache_path key default_cache_dir = Some "" /\
  truthy (_load_from_cache key default_cache_dir (run true).2) = false /\
  (run false).1 = Ok None /\
  cache_files (run false).2 = cache_files empty_world.
Proof.
  intros ch key r run.
  assert (H1 : truthy (_load_from_cache key default_cache_dir empty_world) = false)
    by (vm_compute; reflexivity).
  assert (H2 : default_cache_dir <> "") by discriminate.
  assert (H3 : silent (trace empty_world) r = Ok [None])
    by (unfold silent; reflexivity).
  split; [exact H1|]. split; [exact H2|]. split; [exact H3|].
  exact (ask_without_content silent ch default_model default_max_tokens
           false default_cache_dir empty_world [] H1 H2 H3).
Defined.

Lemma ask_miss_failures_witness :
  let ch := [JStr "hello"] in
  let key := _generate_cache_key ch default_model default_max_tokens false in
  let r := make_request (as_message <$> ch) default_model default_max_tokens false in
  true && truthy (_load_from_cache key "" empty_world) = false /\
  no_choice (trace empty_world) r = Ok [] /\
  answers "fresh" (trace empty_world) r = Ok [Some "fresh"] /\
  ask no_choice ch default_model default_max_tokens false true "" empty_world
  = (Raise IndexError, emit (ServiceCall r) empty_world) /\
  ask (answers "fresh") ch default_model default_max_tokens false true "" empty_world
  = (Raise IOError, emit (ServiceCall r) empty_world).
Proof.
  intros ch key r.
  assert (H1 : true && truthy (_load_from_cache key "" empty_world) = false)
    by (vm_compute; reflexivity).
  assert (H2 : no_choice (trace empty_world) r = Ok [])
    by (unfold no_choice; reflexivity).
  assert (H3 : answers "fresh" (trace empty_world) r = Ok [Some "fresh"])
    by (unfold answers; reflexivity).
  assert (H4 : [Some "fresh"] <> ([] : list (option string))) by discriminate.
  split; [exact H1|]. split; [exact H2|]. split; [exact H3|].
  split.
  - exact (proj1 (ask_miss_failures no_choice ch default_model default_max_tokens
                    false true "" empty_world H1) H2).
  - exact (proj2 (ask_miss_failures (answers "fresh") ch default_model default_max_tokens
                    false true "" empty_world H1) [Some "fresh"] H3 H4 eq_refl eq_refl).
Defined.

Lemma progress_committed_witness :
  let s0 := (Processor echo decode tree content "wd" empty_world).2 in
  let s1 := (process_file echo decode repr content 5 "B.sql" s0).2 in
  process_file echo decode repr content 5 "B.sql" s0 = (Ok tt, s1) /\
  ("B.sql" ∉ processed_files (self s0)) /\
  ("B.sql" ∈ processed_files (self s1)) /\ persisted s1.
Proof.
  intros s0 s1.
  assert (H1 : process_file echo decode repr content 5 "B.sql" s0 = (Ok tt, s1))
    by (vm_compute; reflexivity).
  assert (H2 : "B.sql" ∉ processed_files (self s0))
    by (apply (bool_decide_unpack ("B.sql" ∉ processed_files (self s0)));
        vm_compute; exact I).
  split; [exact H1|]. split; [exact H2|].
  exact (progress_committed echo decode repr content 5 "B.sql" s0 s1 H1 H2).
Defined.

Lemma failed_unit_not_committed_witness :
  let s0 := (Processor echo decode tree content "wd" empty_world).2 in
  let s1 := (translate_unit down decode repr content "A.sql" s0).2 in
  translate_unit down decode repr content "A.sql" s0 = (Raise ServiceError, s1) /\
  transform_unit down decode repr content "A.sql" s0 = (Raise ServiceError, s1) /\
  processed_files (self s1) = processed_files (self s0) /\
  progress_files (outside s1) = progress_files (outside s0) /\
  file_dep_graph (self s1) = file_dep_graph (self s0).
Proof.
  intros s0 s1.
  assert (H1 : translate_unit down decode repr content "A.sql" s0 = (Raise ServiceError, s1))
    by (vm_compute; reflexivity).
  split; [exact H1|].
  exact (failed_unit_not_committed down decode repr content "A.sql" s0 ServiceError s1 H1).
Defined.

Lemma process_completes_witness :
  let s0 := (Processor echo decode tree content "wd" empty_world).2 in
  let s1 := (process echo decode repr content 5 s0).2 in
  process echo decode repr content 5 s0 = (Ok tt, s1) /\
  (forall f, f ∈ (file_dep_graph (self s0)).*1 -> f ∈ processed_files (self s1)) /\
  file_dep_graph (self s1) = file_dep_graph (self s0) /\
  processed_files (self s0) ⊆ processed_files (self s1).
Proof.
  intros s0 s1.
  assert (H1 : process echo decode repr content 5 s0 = (Ok tt, s1))
    by (vm_compute; reflexivity).
  split; [exact H1|].
  destruct (process_completes echo decode repr content 5 s0 (Ok tt) s1 H1) as (Ha & Hb).
  split; [exact (Ha eq_refl)|exact Hb].
Defined.

Lemma cycle_never_completes_witness :
  let s := (Processor echo decode nested_tree nested_content "wd" empty_world).2 in
  let C := ["A.sql"; "B.sql"] in
  file_dep_graph (self s) = [("A.sql", ["B.sql"]); ("B.sql", ["A.sql"])] /\
  stuck (file_dep_graph (self s)) (processed_files (self s)) C = true /\
  "A.sql" ∈ C /\
  (process_file echo decode repr nested_content 7 "A.sql" s).1 <> Ok tt /\
  (forall u, u ∈ C ->
     u ∉ processed_files (self (process_file echo decode repr nested_content 7 "A.sql" s).2)) /\
  ("A.sql" ∈ (file_dep_graph (self s)).*1 ->
   (process echo decode repr nested_content 7 s).1 <> Ok tt) /\
  (forall u, u ∈ C ->
     u ∉ processed_files (self (process echo decode repr nested_content 7 s).2)).
Proof.
  intros s C.
  assert (H0 : file_dep_graph (self s) = [("A.sql", ["B.sql"]); ("B.sql", ["A.sql"])])
    by (vm_compute; reflexivity).
  assert (H1 : stuck (file_dep_graph (self s)) (processed_files (self s)) C = true)
    by (vm_compute; reflexivity).
  assert (H2 : "A.sql" ∈ C) by constructor.
  split; [exact H0|]. split; [exact H1|]. split; [exact H2|].
  exact (cycle_never_completes echo decode repr nested_content C 7 "A.sql" s H1 H2).
Defined.

Lemma answers_are_objects_witness :
  let file_refs := [("wd/A.sql", refs_of [] ["PKG_A"]);
                    ("wd/C.sql", refs_of ["PKG_B.bar"] [])] in
  is_Some (match package_map file_refs ∅ with Ok m => Some m | Raise _ => None end) /\
  forall p refs, (p, refs) ∈ file_refs -> exists d, refs = JDict d.
Proof.
  intros file_refs.
  destruct (package_map file_refs ∅) as [m|e] eqn:H.
  - split; [by eexists|]. exact (answers_are_objects file_refs ∅ m H).
  - vm_compute in H. discriminate H.
Defined.


Lemma edges_lead_to_units_witness :
  let s := fresh "wd" in
  let g := [("C.sql", ["B.sql"]); ("B.sql", ["A.sql"]); ("A.sql", [])] in
  build_callgraph echo decode tree content s
  = (Ok g, (build_callgraph echo decode tree content s).2) /\
  forall u deps d, (u, deps) ∈ g -> d ∈ deps -> d ∈ g.*1.
Proof.
  intros s g.
  assert (H : build_callgraph echo decode tree content s
              = (Ok g, (build_callgraph echo decode tree content s).2))
    by (vm_compute; reflexivity).
  split; [exact H|].
  exact (edges_lead_to_units echo decode tree content s g _ H).
Defined.

Lemma saved_graph_is_trusted_witness :
  let data := {| pr_processed_files := ["A.sql"];
                 pr_symbols := ["PKG_A.foo() -> A.foo()"];
                 pr_file_dep_graph := [("B.sql", ["A.sql"]); ("A.sql", [])] |} in
  let w := write_progress (join "wd" ".progress.json") data empty_world in
  progress_files w !! join "wd" ".progress.json" = Some data /\
  pr_file_dep_graph data <> [] /\
  Processor down decode tree content "wd" w
  = (Ok tt,
     {| self := {| working_dir := "wd";
                   progress_file := join "wd" ".progress.json";
                   file_dep_graph := pr_file_dep_graph data;
                   processed_files := list_to_set (pr_processed_files data);
                   symbols := list_to_set (pr_symbols data) |};
        outside := w |}).
Proof.
  intros data w.
  assert (H1 : progress_files w !! join "wd" ".progress.json" = Some data)
    by (apply lookup_insert_eq).
  assert (H2 : pr_file_dep_graph data <> []) by discriminate.
  split; [exact H1|]. split; [exact H2|].
  exact (saved_graph_is_trusted down decode tree content "wd" w data H1 H2).
Defined.

Lemma nothing_to_do_witness :
  let walk := fun directory : string => [(directory, ["notes.txt"; "README"])] in
  scan_sql_files walk "wd" = [] /\
  progress_files empty_world !! join "wd" ".progress.json" = None /\
  main down decode repr walk content 3 "wd" empty_world
  = (Ok tt, {| self := new_processor "wd"; outside := empty_world |}).
Proof.
  intros walk.
  assert (H1 : scan_sql_files walk "wd" = []) by reflexivity.
  assert (H2 : progress_files empty_world !! join "wd" ".progress.json" = None)
    by (apply lookup_empty).
  split; [exact H1|]. split; [exact H2|].
  exact (nothing_to_do down decode repr walk content 3 "wd" empty_world H1 H2).
Defined.

Lemma units_are_sql_files_witness :
  let s := fresh "wd" in
  let g := [("C.sql", ["B.sql"]); ("B.sql", ["A.sql"]); ("A.sql", [])] in
  build_callgraph echo decode tree content s
  = (Ok g, (build_callgraph echo decode tree content s).2) /\
  forall u, u ∈ g.*1 -> endswith u ".sql" = true.
Proof.
  intros s g.
  assert (H : build_callgraph echo decode tree content s
              = (Ok g, (build_callgraph echo decode tree content s).2))
    by (vm_compute; reflexivity).
  split; [exact H|].
  exact (units_are_sql_files decode tree content echo s g _ H).
Defined.

Lemma bad_answer_is_kept_witness :
  let ch := [JDict [("role", JStr "system");
                    ("content", JStr (SYSTEM_PROMPT_PARSE_REFS "UNIT_A"))]] in
  let key := _generate_cache_key ch default_model default_max_tokens true in
  let run := parse_refs (answers "not json") decode "UNIT_A" empty_world in
  truthy (_load_from_cache key default_cache_dir empty_world) = false /\
  answers "not json" (trace empty_world)
    (make_request (as_message <$> ch) default_model default_max_tokens true)
  = Ok [Some "not json"] /\
  "not json" <> "" /\
  decode "not json" = None /\
  decode (universal_newlines "not json") = None /\
  run.1 = Raise JSONDecodeError /\
  cache_files run.2 !! cache_path key default_cache_dir = Some "not json" /\
  forall service',
    parse_refs service' decode "UNIT_A" run.2
    = (Raise JSONDecodeError, emit (CacheHit key) run.2).
Proof.
  intros ch key run.
  assert (H1 : truthy (_load_from_cache key default_cache_dir empty_world) = false)
    by (vm_compute; reflexivity).
  assert (H2 : answers "not json" (trace empty_world)
                 (make_request (as_message <$> ch) default_model default_max_tokens true)
               = Ok [Some "not json"])
    by (unfold answers; reflexivity).
  assert (H3 : "not json" <> "") by discriminate.
  assert (H4 : decode "not json" = None) by (vm_compute; reflexivity).
  assert (H5 : decode (universal_newlines "not json") = None) by (vm_compute; reflexivity).
  split; [exact H1|]. split; [exact H2|]. split; [exact H3|].
  split; [exact H4|]. split; [exact H5|].
  exact (bad_answer_is_kept decode (answers "not json") "UNIT_A" empty_world
           "not json" [] H1 H2 H3 H4 H5).
Defined.
End Examples.
